(** * fmu.dataio private helpers ([fmu/dataio/_utils.py]) in Rocq

    A shallow embedding of the helper functions of [_utils.py]
    ([construct_filename], [verify_path], [drop_nones],
    [export_metadata_file], [md5sum], [size], [uuid_from_string],
    [read_parameters_txt], [check_if_number]) together with the properties
    the specification states about them and further properties of the
    code.

    Conventions of the embedding:
    - a Python [str] is a Rocq [string]; every [ascii] stands for the code
      point of the same number, so the embedded alphabet is U+0000..U+00FF;
    - [bytes] are [list byte];
    - exceptions are values of [exn], and a call that may raise returns a
      [result];
    - module-level mutable state (the module logger, the file system) is a
      [world] threaded through the calls that touch it; the file system is
      a [tree] of directories and files. *)

From Stdlib Require Import ZArith NArith List String Ascii Bool Lia.
From Stdlib Require Import DecimalString.
From Stdlib Require DecimalPos.
From Stdlib Require Floats.SpecFloat.
From stdpp Require Import base gmap strings list.
From Equations Require Import Equations.
From Equations.Prop Require Logic.

Local Open Scope string_scope.

(* ===================================================================== *)
(** * Python strings *)
(* ===================================================================== *)

Module PyStr.

Definition code (c : ascii) : N := N_of_ascii c.

(** [str.lower] on one code point below U+0100: the ASCII capitals and the
    Latin-1 capitals U+00C0..U+00DE except the multiplication sign. *)
Definition lower_char (c : ascii) : ascii :=
  let n := code c in
  if ((65 <=? n) && (n <=? 90))%N
     || ((192 <=? n) && (n <=? 222) && negb (n =? 215))%N
  then ascii_of_N (n + 32)
  else c.

Fixpoint lower (s : string) : string :=
  match s with
  | EmptyString => EmptyString
  | String c r => String (lower_char c) (lower r)
  end.

(** [old.join(...)]-free part of [str.replace] for an empty [old]:
    [new] is put before every character and at the end. *)
Fixpoint interleave (new s : string) : string :=
  match s with
  | EmptyString => new
  | String c r => new +:+ String c (interleave new r)
  end.

(** Left-to-right scan of [str.replace]: [skip] counts the characters of
    a match that are still to be jumped over. *)
Fixpoint replace_scan (old new : string) (skip : nat) (s : string) : string :=
  match s with
  | EmptyString => EmptyString
  | String c r =>
      match skip with
      | S k => replace_scan old new k r
      | O =>
          if String.prefix old s
          then new +:+ replace_scan old new (String.length old - 1) r
          else String c (replace_scan old new 0 r)
      end
  end.

(** [s.replace(old, new)] *)
Definition replace (old new s : string) : string :=
  match old with
  | EmptyString => interleave new s
  | String _ _ => replace_scan old new 0 s
  end.

(** [str.isspace] on one code point below U+0100. *)
Definition is_space (c : ascii) : bool :=
  let n := code c in
  (((9 <=? n) && (n <=? 13)) || ((28 <=? n) && (n <=? 32))
   || (n =? 133) || (n =? 160))%N.

(** The line boundaries of [str.splitlines] below U+0100. *)
Definition is_linebreak (c : ascii) : bool :=
  let n := code c in
  (((10 <=? n) && (n <=? 13)) || ((28 <=? n) && (n <=? 30)) || (n =? 133))%N.

Definition CR : ascii := ascii_of_N 13.
Definition LF : ascii := ascii_of_N 10.

(** Cut [s] at every character satisfying [sep], keeping empty pieces;
    the result is never empty. *)
Fixpoint fields (sep : ascii -> bool) (s : string) : list string :=
  match s with
  | EmptyString => [EmptyString]
  | String c r =>
      if sep c then EmptyString :: fields sep r
      else match fields sep r with
           | t :: ts => String c t :: ts
           | [] => [String c EmptyString]
           end
  end.

Definition nonempty (s : string) : bool :=
  match s with EmptyString => false | String _ _ => true end.

(** [s.split()] : maximal runs of non-whitespace. *)
Definition split (s : string) : list string :=
  List.filter nonempty (fields is_space s).

(** [s.split(sep)] for a one-character separator. *)
Definition split_on (sep : ascii) (s : string) : list string :=
  fields (Ascii.eqb sep) s.

(** [sep.join(l)] *)
Definition join (sep : string) (l : list string) : string :=
  String.concat sep l.

(** [s.splitlines()]; [after_cr] remembers that the previous character was
    a carriage return, whose following line feed belongs to the same
    boundary. A last line is produced only when it is not empty. *)
Fixpoint splitlines_from (after_cr : bool) (s : string) : list string :=
  match s with
  | EmptyString => []
  | String c r =>
      if after_cr && Ascii.eqb c LF then splitlines_from false r
      else if is_linebreak c then EmptyString :: splitlines_from (Ascii.eqb c CR) r
      else match splitlines_from false r with
           | l :: ls => String c l :: ls
           | [] => [String c EmptyString]
           end
  end.

Definition splitlines (s : string) : list string := splitlines_from false s.

(** [s.strip(chars)] *)
Fixpoint lstrip (chars : ascii -> bool) (s : string) : string :=
  match s with
  | EmptyString => EmptyString
  | String c r => if chars c then lstrip chars r else s
  end.

Fixpoint rstrip (chars : ascii -> bool) (s : string) : string :=
  match s with
  | EmptyString => EmptyString
  | String c r =>
      match rstrip chars r with
      | EmptyString => if chars c then EmptyString else String c EmptyString
      | r' => String c r'
      end
  end.

Definition strip (chars : ascii -> bool) (s : string) : string :=
  rstrip chars (lstrip chars s).

(** [str(n)] for an [int]. *)
Definition of_int (z : Z) : string := NilZero.string_of_int (Z.to_int z).

(** [s.encode("utf-8")] on the embedded alphabet: one byte below U+0080,
    two bytes from U+0080 to U+00FF. *)
Definition utf8_char (c : ascii) : list Byte.byte :=
  let n := code c in
  if (n <? 128)%N then [byte_of_ascii c]
  else
    match Byte.of_N (192 + N.shiftr n 6), Byte.of_N (128 + N.land n 63) with
    | Some hi, Some lo => [hi; lo]
    | _, _ => []
    end.

Fixpoint encode_utf8 (s : string) : list Byte.byte :=
  match s with
  | EmptyString => []
  | String c r => utf8_char c ++ encode_utf8 r
  end.

End PyStr.

(* ===================================================================== *)
(** * Exceptions and results *)
(* ===================================================================== *)

(** The error numbers that the system calls of this development give. *)
Inductive errno : Type := ENOENT | ENOTDIR | EEXIST | EISDIR | ENAMETOOLONG.

(** An [OSError] has the error number and the file name of the system
    call that failed; Python names its class after the number. *)
Inductive exn : Type :=
| RuntimeError (msg : string)
| UnboundLocalError (var : string)
| TypeError (msg : string)
| AttributeError (msg : string)
| ValueError (msg : string)
| OSError (e : errno) (filename : string).

Abbreviation FileNotFoundError := (OSError ENOENT).
Abbreviation NotADirectoryError := (OSError ENOTDIR).
Abbreviation FileExistsError := (OSError EEXIST).
Abbreviation IsADirectoryError := (OSError EISDIR).

Inductive result (A : Type) : Type :=
| Ok (a : A)
| Raise (e : exn).

Arguments Ok {A} a.
Arguments Raise {A} e.

Definition is_runtime_error {A} (r : result A) : bool :=
  match r with Raise (RuntimeError _) => true | _ => false end.

(* ===================================================================== *)
(** * [pathlib.PurePosixPath] *)
(* ===================================================================== *)

Module PurePath.

(** A parsed path: its root (empty, one slash or two slashes) and its
    components. *)
Record t : Type := mk { root : string; parts : list string }.

Definition is_slash (c : ascii) : bool := Ascii.eqb "/"%char c.

Fixpoint leading_slashes (s : string) : nat :=
  match s with
  | String c r => if is_slash c then S (leading_slashes r) else 0
  | EmptyString => 0
  end.

(** [_PosixFlavour.splitroot]: exactly two leading slashes are kept as a
    root of their own, any other positive number collapses to one. *)
Definition splitroot (part : string) : string * string :=
  match leading_slashes part with
  | 0 => ("", part)
  | 2 => ("//", PyStr.lstrip is_slash part)
  | _ => ("/", PyStr.lstrip is_slash part)
  end.

Definition keep_component (x : string) : bool :=
  PyStr.nonempty x && negb (String.eqb x ".").

(** The components of a relative path: what lies between slashes, without
    the empty pieces and the dots. *)
Definition components (rel : string) : list string :=
  List.filter keep_component (PyStr.split_on "/" rel).

(** [PurePosixPath(s)] *)
Definition of_string (s : string) : t :=
  let '(r, rel) := splitroot s in
  mk r (components rel).

(** [p / other] for a string [other]: a rooted [other] replaces [p]. *)
Definition truediv (p : t) (other : string) : t :=
  let q := of_string other in
  match root q with
  | EmptyString => mk (root p) (parts p ++ parts q)
  | String _ _ => q
  end.

(** [str(p)] *)
Definition to_string (p : t) : string :=
  match root p, parts p with
  | EmptyString, [] => "."
  | r, ps => r +:+ PyStr.join "/" ps
  end.

End PurePath.

Abbreviation Path := PurePath.t.
Infix "//" := PurePath.truediv (at level 40, left associativity).

(** More of [pathlib], and [os.path.join]. *)
Module Pathlib.

(** [c in s] for a character. *)
Fixpoint contains (c : ascii) (s : string) : bool :=
  match s with
  | EmptyString => false
  | String x r => Ascii.eqb x c || contains c r
  end.

(** [s.endswith(c)] for a character. *)
Fixpoint endswith (c : ascii) (s : string) : bool :=
  match s with
  | EmptyString => false
  | String x EmptyString => Ascii.eqb x c
  | String _ r => endswith c r
  end.

(** [s.rfind(c)]: the index of the last [c], [None] for Python's [-1]. *)
Fixpoint rfind (c : ascii) (s : string) : option nat :=
  match s with
  | EmptyString => None
  | String x r =>
      match rfind c r with
      | Some i => Some (S i)
      | None => if Ascii.eqb x c then Some 0 else None
      end
  end.

(** [p.name]: the last component, the empty string when there is none. *)
Definition name (p : Path) : string := List.last (PurePath.parts p) "".

(** [p.suffix]: the name from its last dot on, unless that dot is the
    first or the last character of the name. *)
Definition suffix (p : Path) : string :=
  let name := name p in
  match rfind "." name with
  | Some i =>
      if ((0 <? i) && (i <? String.length name - 1))%nat
      then String.substring i (String.length name - i) name
      else ""
  | None => ""
  end.

(** [p.with_suffix(suffix)]: the new suffix must be empty or a dot
    followed by something, without slash, and the path must have a name;
    the old suffix, if any, is cut off the name and the new one put. *)
Definition with_suffix (p : Path) (suffix' : string) : result Path :=
  if contains "/" suffix'
  then Raise (ValueError ("Invalid suffix " +:+ suffix'))
  else if (PyStr.nonempty suffix' && negb (String.prefix "." suffix'))
          || String.eqb suffix' "."
  then Raise (ValueError ("Invalid suffix " +:+ suffix'))
  else
    let name := name p in
    if negb (PyStr.nonempty name)
    then Raise (ValueError (PurePath.to_string p +:+ " has an empty name"))
    else
      let old_suffix := suffix p in
      let name :=
        if negb (PyStr.nonempty old_suffix) then name +:+ suffix'
        else String.substring 0 (String.length name - String.length old_suffix) name
             +:+ suffix' in
      Ok (PurePath.mk (PurePath.root p)
                      (List.removelast (PurePath.parts p) ++ [name])).

(** [p.parent]: a path without components is its own parent. *)
Definition parent (p : Path) : Path :=
  PurePath.mk (PurePath.root p) (List.removelast (PurePath.parts p)).

(** [p.is_absolute()] *)
Definition is_absolute (p : Path) : bool := PyStr.nonempty (PurePath.root p).

(** [os.path.join(a, b)]: a rooted [b] replaces [a]. *)
Definition join (a b : string) : string :=
  if String.prefix "/" b then b
  else if negb (PyStr.nonempty a) || endswith "/" a then a +:+ b
  else a +:+ "/" +:+ b.

End Pathlib.

(* ===================================================================== *)
(** * The file system *)
(* ===================================================================== *)

(** The directories and the regular files with the bytes they hold, each
    under the names that lead to it from the root, and the working
    directory of the process, which has not been removed. The root is a
    directory. There are no symbolic links and no second names of a file;
    every directory may be searched and written, every file read and
    written, and there is room for what is made and written. *)
Inductive kind : Type :=
| Directory
| Regular (data : list Byte.byte).

Record tree : Type := Tree {
  cwd : list string;
  nodes : gmap (list string) kind
}.

Module OS.

(** The limits of Linux on the bytes of one name and on the bytes of a
    whole path, its end counted in. *)
Definition NAME_MAX : nat := 255.
Definition PATH_MAX : nat := 4096.

(** [os.fsencode(s)]: the bytes of a path are its UTF-8 encoding. *)
Definition fsencode (s : string) : list Byte.byte := PyStr.encode_utf8 s.

(** The character U+0000 in a string. *)
Definition has_nul (s : string) : bool := Pathlib.contains "000" s.

(** What stops a call before any name is looked up: Python refuses a path
    with U+0000, the kernel a path of [PATH_MAX] bytes or more. *)
Definition refused (s : string) : option exn :=
  if has_nul s then Some (ValueError "embedded null byte")
  else if (PATH_MAX <=? length (fsencode s))%nat then Some (OSError ENAMETOOLONG s)
  else None.

Definition node_at (t : tree) (here : list string) : option kind :=
  match here with
  | [] => Some Directory
  | _ => nodes t !! here
  end.

(** Where the lookup of a path starts. *)
Definition start (t : tree) (p : Path) : list string :=
  if Pathlib.is_absolute p then [] else cwd t.

(** The lookup of the kernel, name after name from the directory [here]:
    every name is looked up in a directory, an empty name and [.] stay
    there, [..] leads to the parent and the root is its own parent; no
    directory holds a name of more than [NAME_MAX] bytes. *)
Fixpoint walk (t : tree) (here : list string) (names : list string)
  : list string + errno :=
  match names with
  | [] => inl here
  | name :: rest =>
      match node_at t here with
      | Some Directory =>
          if negb (PyStr.nonempty name) || String.eqb name "." then walk t here rest
          else if String.eqb name ".." then walk t (List.removelast here) rest
          else if (NAME_MAX <? length (fsencode name))%nat then inr ENAMETOOLONG
          else walk t (here ++ [name]) rest
      | Some (Regular _) => inr ENOTDIR
      | None => inr ENOENT
      end
  end.

(** [os.stat(p)] for a path of [pathlib], of which the kind of the file
    and, for a regular file, its bytes are used. The kernel reads the
    string of such a path as its components. *)
Definition stat (t : tree) (p : Path) : result kind :=
  let s := PurePath.to_string p in
  match refused s with
  | Some e => Raise e
  | None =>
      match walk t (start t p) (PurePath.parts p) with
      | inl here =>
          match node_at t here with
          | Some k => Ok k
          | None => Raise (OSError ENOENT s)
          end
      | inr e => Raise (OSError e s)
      end
  end.

(** [os.mkdir(p)] for a path of [pathlib]: the directory that is to hold
    the new one is looked up; the last name must be new there ([.] and
    [..] name a directory that is there). *)
Definition mkdir (t : tree) (p : Path) : result tree :=
  let s := PurePath.to_string p in
  match refused s with
  | Some e => Raise e
  | None =>
      match List.rev (PurePath.parts p) with
      | [] => Raise (OSError EEXIST s)
      | name :: before =>
          match walk t (start t p) (List.rev before) with
          | inl here =>
              match node_at t here with
              | Some Directory =>
                  if negb (PyStr.nonempty name) || String.eqb name "."
                     || String.eqb name ".."
                  then Raise (OSError EEXIST s)
                  else if (NAME_MAX <? length (fsencode name))%nat
                  then Raise (OSError ENAMETOOLONG s)
                  else
                    match node_at t (here ++ [name]) with
                    | Some _ => Raise (OSError EEXIST s)
                    | None =>
                        Ok (Tree (cwd t)
                                 (<[(here ++ [name])%list := Directory]> (nodes t)))
                    end
              | Some (Regular _) => Raise (OSError ENOTDIR s)
              | None => Raise (OSError ENOENT s)
              end
          | inr e => Raise (OSError e s)
          end
      end
  end.

(** The names of a path given to [open] as a string, as the kernel cuts
    them, and where their lookup starts. *)
Definition names (s : string) : list string := PyStr.split_on "/" s.

Definition start_of (t : tree) (s : string) : list string :=
  if String.prefix "/" s then [] else cwd t.

(** Where the lookup of all the names of [s] arrives. *)
Definition locate (t : tree) (s : string) : list string + errno :=
  walk t (start_of t s) (names s).

(** [open(s, "rb")] followed by the reading of the whole file: the path
    must lead to a regular file. *)
Definition open_rb (t : tree) (s : string) : result (list Byte.byte) :=
  match refused s with
  | Some e => Raise e
  | None =>
      if negb (PyStr.nonempty s) then Raise (OSError ENOENT s)
      else
        match locate t s with
        | inl here =>
            match node_at t here with
            | Some (Regular data) => Ok data
            | Some Directory => Raise (OSError EISDIR s)
            | None => Raise (OSError ENOENT s)
            end
        | inr e => Raise (OSError e s)
        end
  end.

(** [open(s, "w")], the writing of [data] and the closing of the file: the
    names before the last lead to a directory, in which the last name is
    made a regular file that holds [data], or is one already and holds
    [data] from then on. A path that names a directory (by [.], by [..],
    by a slash at its end, or because the directory is there) is
    refused. *)
Definition open_w (t : tree) (s : string) (data : list Byte.byte) : result tree :=
  match refused s with
  | Some e => Raise e
  | None =>
      if negb (PyStr.nonempty s) then Raise (OSError ENOENT s)
      else
        match List.rev (List.filter PyStr.nonempty (names s)) with
        | [] => Raise (OSError EISDIR s)
        | name :: before =>
            match walk t (start_of t s) (List.rev before) with
            | inl here =>
                match node_at t here with
                | Some Directory =>
                    if String.eqb name "." || String.eqb name ".."
                       || Pathlib.endswith "/" s
                    then Raise (OSError EISDIR s)
                    else if (NAME_MAX <? length (fsencode name))%nat
                    then Raise (OSError ENAMETOOLONG s)
                    else
                      match node_at t (here ++ [name]) with
                      | Some Directory => Raise (OSError EISDIR s)
                      | _ =>
                          Ok (Tree (cwd t)
                                   (<[(here ++ [name])%list := Regular data]> (nodes t)))
                      end
                | Some (Regular _) => Raise (OSError ENOTDIR s)
                | None => Raise (OSError ENOENT s)
                end
            | inr e => Raise (OSError e s)
            end
        end
  end.

End OS.

Module PosixPath.

(** [pathlib._ignore_error]: the errors of a missing file. *)
Definition ignore_error (e : errno) : bool :=
  match e with ENOENT | ENOTDIR => true | _ => false end.

(** [p.exists()]: [stat] succeeds. The errors of a missing file and the
    [ValueError] of a path that cannot be encoded are answered by [False],
    any other error is raised. *)
Definition exists_ (t : tree) (p : Path) : result bool :=
  match OS.stat t p with
  | Ok _ => Ok true
  | Raise (OSError e filename) =>
      if ignore_error e then Ok false else Raise (OSError e filename)
  | Raise (ValueError _) => Ok false
  | Raise e => Raise e
  end.

(** [p.is_dir()], with the same errors. *)
Definition is_dir (t : tree) (p : Path) : result bool :=
  match OS.stat t p with
  | Ok Directory => Ok true
  | Ok (Regular _) => Ok false
  | Raise (OSError e filename) =>
      if ignore_error e then Ok false else Raise (OSError e filename)
  | Raise (ValueError _) => Ok false
  | Raise e => Raise e
  end.

(** The handler [except OSError] of [Path.mkdir] under [exist_ok=True]:
    the error is let pass when the path is a directory, and raised again
    when it is not; an error of [is_dir] takes its place. *)
Definition unless_is_dir (t : tree) (p : Path) (e : exn) : option exn * tree :=
  match is_dir t p with
  | Ok true => (None, t)
  | Ok false => (Some e, t)
  | Raise e' => (Some e', t)
  end.

(** [p.mkdir(parents=False, exist_ok=True)]: [FileNotFoundError] is raised
    again, any other [OSError] goes to the handler; an exception that is
    no [OSError] is not caught. *)
Definition mkdir_here (t : tree) (p : Path) : option exn * tree :=
  match OS.mkdir t p with
  | Ok t' => (None, t')
  | Raise (OSError ENOENT filename) => (Some (OSError ENOENT filename), t)
  | Raise (OSError e filename) => unless_is_dir t p (OSError e filename)
  | Raise e => (Some e, t)
  end.

(** [p.mkdir(parents=True, exist_ok=True)] for the path of root [root]
    whose components are [rparts], last first: on [FileNotFoundError] the
    parent is made in the same way, and the directory is made again
    without [parents]. A path without components is its own parent. *)
Fixpoint mkdir_parents (t : tree) (root : string) (rparts : list string)
  : option exn * tree :=
  let self := PurePath.mk root (List.rev rparts) in
  match OS.mkdir t self with
  | Ok t' => (None, t')
  | Raise (OSError ENOENT filename) =>
      match rparts with
      | [] => (Some (OSError ENOENT filename), t)
      | _ :: rparent =>
          match mkdir_parents t root rparent with
          | (None, t') => mkdir_here t' self
          | (Some e, t') => (Some e, t')
          end
      end
  | Raise (OSError e filename) => unless_is_dir t self (OSError e filename)
  | Raise e => (Some e, t)
  end.

Definition mkdir (t : tree) (p : Path) : option exn * tree :=
  mkdir_parents t (PurePath.root p) (List.rev (PurePath.parts p)).

(** What [p.resolve()] does to the names that follow [path] where no name
    is a symbolic link: empty names and dots are passed over, [".."]
    drops the last name of [path], any other name is added to it. *)
Fixpoint resolve_names (path : list string) (names : list string) : list string :=
  match names with
  | [] => path
  | name :: rest =>
      if negb (PyStr.nonempty name) || String.eqb name "."
      then resolve_names path rest
      else if String.eqb name ".." then resolve_names (List.removelast path) rest
      else resolve_names (path ++ [name]) rest
  end.

(** [p.resolve()]: the names of [p] followed from the root, or from the
    working directory for a relative path. A name that is not there, or
    cannot be looked up, is kept as it is; only U+0000 in the path makes
    the [lstat] of [os.path.realpath] raise. *)
Definition resolve (t : tree) (p : Path) : result Path :=
  if OS.has_nul (PurePath.to_string p)
  then Raise (ValueError "embedded null byte")
  else
    let base := if Pathlib.is_absolute p then [] else cwd t in
    Ok (PurePath.mk "/" (resolve_names base (PurePath.parts p))).

End PosixPath.

(* ===================================================================== *)
(** * The module logger and the world *)
(* ===================================================================== *)

(** The level names [logging.Logger.setLevel] accepts. *)
Inductive loglevel : Type := NOTSET | DEBUG | INFO | WARNING | ERROR | CRITICAL.

Definition level_no (l : loglevel) : Z :=
  match l with
  | NOTSET => 0 | DEBUG => 10 | INFO => 20
  | WARNING => 30 | ERROR => 40 | CRITICAL => 50
  end.

(** What the functions of the module can observe and change: the level of
    the module logger, the records it has emitted, and the file system. *)
Record world : Type := World {
  log_level : loglevel;
  log_records : list (loglevel * string);
  files : tree
}.

Definition setLevel (l : loglevel) (w : world) : world :=
  World l (log_records w) (files w).

(** [logger.log(l, msg)]: a record is emitted when the logger's level lets
    it through ([NOTSET] defers to the root logger's default, [WARNING]). *)
Definition effective_level (w : world) : Z :=
  match log_level w with NOTSET => level_no WARNING | l => level_no l end.

Definition log (l : loglevel) (msg : string) (w : world) : world :=
  if (effective_level w <=? level_no l)%Z
  then World (log_level w) (log_records w ++ [(l, msg)]) (files w)
  else w.

(** [with open(path, "w") as stream: stream.write(text)], the text encoded
    as UTF-8: the file is opened and written, or the opening raises and
    nothing is written. *)
Definition write_text (path text : string) (w : world) : result world :=
  match OS.open_w (files w) path (PyStr.encode_utf8 text) with
  | Ok t => Ok (World (log_level w) (log_records w) t)
  | Raise e => Raise e
  end.

(* ===================================================================== *)
(** * [construct_filename] *)
(* ===================================================================== *)

(** A time stamp argument ([t1], [t2]) is a string or an integer; the code
    only takes its truth value and its [str]. *)
Inductive tstamp : Type :=
| TStr (s : string)
| TInt (z : Z).

Definition tstamp_str (t : tstamp) : string :=
  match t with TStr s => s | TInt z => PyStr.of_int z end.

Definition tstamp_truthy (t : tstamp) : bool :=
  match t with TStr s => PyStr.nonempty s | TInt z => negb (z =? 0)%Z end.

(** Truth value of an optional argument whose default is [None]. *)
Definition truthy_str (o : option string) : bool :=
  match o with Some s => PyStr.nonempty s | None => false end.

Definition truthy_tstamp (o : option tstamp) : bool :=
  match o with Some t => tstamp_truthy t | None => false end.

(** [str(t).lower()], only evaluated under a test that [t] is truthy. *)
Definition tstamp_lower (o : option tstamp) : string :=
  match o with Some t => PyStr.lower (tstamp_str t) | None => "none" end.

Definition opt_lower (o : option string) : string :=
  match o with Some s => PyStr.lower s | None => "" end.

(** The arguments of [construct_filename] other than [verbosity]. *)
Record filename_args : Type := FilenameArgs {
  name : string;
  pretagname : option string;
  tagname : option string;
  t1 : option tstamp;
  t2 : option tstamp;
  subfolder : option string;
  fmu : Z;
  outroot : string;
  loc : string
}.

(** The keyword defaults of the signature. *)
Definition default_args (nm : string) : filename_args :=
  FilenameArgs nm None None None None None 1 "../../share/results/" "surface".

(** [construct_filename]: every statement has the logger at hand, which
    only [logger.setLevel] touches. The local variable [dest] is unbound
    until a branch assigns it, which is the [option] below; reading it
    unbound at [return] raises. *)
Definition construct_filename (a : filename_args) (verbosity : loglevel)
    (w : world) : result (string * Path) * world :=
  let w := setLevel verbosity w in
  let stem := "unset" in
  let dest : option Path := None in
  let outroot := PurePath.of_string (outroot a) in
  let '(stem, dest) :=
    if (fmu a =? 1)%Z then
      let stem := PyStr.lower (name a) in
      let stem :=
        if truthy_str (tagname a) then stem +:+ "--" +:+ opt_lower (tagname a)
        else stem in
      let stem :=
        if truthy_str (pretagname a) then opt_lower (pretagname a) +:+ "--" +:+ stem
        else stem in
      let stem :=
        if truthy_tstamp (t1 a) && negb (truthy_tstamp (t2 a))
        then stem +:+ "--" +:+ tstamp_lower (t1 a)
        else if truthy_tstamp (t1 a) && truthy_tstamp (t2 a)
        then stem +:+ "--" +:+ tstamp_lower (t2 a) +:+ "_" +:+ tstamp_lower (t1 a)
        else stem in
      let stem := PyStr.replace " " "_" (PyStr.replace "." "_" stem) in
      let dest :=
        if String.eqb (loc a) "surface" then outroot // "maps"
        else if String.eqb (loc a) "grid" then outroot // "grids"
        else if String.eqb (loc a) "table" then outroot // "tables"
        else if String.eqb (loc a) "polygons" then outroot // "polygons"
        else if String.eqb (loc a) "cube" then outroot // "cubes"
        else outroot // "other" in
      let dest :=
        match subfolder a with
        | Some sub => if PyStr.nonempty sub then dest // sub else dest
        | None => dest
        end in
      (stem, Some dest)
    else (stem, dest) in
  match dest with
  | Some d => (Ok (stem, d), w)
  | None => (Raise (UnboundLocalError "dest"), w)
  end.

(* ===================================================================== *)
(** * Python values and dictionaries *)
(* ===================================================================== *)

(** A Python [float] is an IEEE 754 binary64 datum. *)
Abbreviation pyfloat := SpecFloat.spec_float.

(** A [dict] (and an [OrderedDict]) keeps its items in insertion order:
    an association list whose keys are pairwise distinct. *)
Definition odict (V : Type) : Type := list (string * V).

#[local] Set Warnings "-register-all".

(** The values metadata and parameters are made of. A [set] is given by
    its elements in iteration order. *)
Inductive pyval : Type :=
| VNone
| VBool (b : bool)
| VInt (z : Z)
| VFloat (f : pyfloat)
| VStr (s : string)
| VDict (items : odict pyval)
| VList (elems : list pyval)
| VTuple (elems : list pyval)
| VSet (elems : list pyval).

(** [d[k]] *)
Fixpoint dict_get {V} (k : string) (d : odict V) : option V :=
  match d with
  | [] => None
  | (k', v) :: r => if String.eqb k k' then Some v else dict_get k r
  end.

(** [d[k] = v]: an existing key keeps its place, a new key goes last. *)
Fixpoint dict_set {V} (k : string) (v : V) (d : odict V) : odict V :=
  match d with
  | [] => [(k, v)]
  | (k', v') :: r =>
      if String.eqb k k' then (k, v) :: r else (k', v') :: dict_set k v r
  end.

(** [k in d] *)
Definition dict_mem {V} (k : string) (d : odict V) : bool :=
  match dict_get k d with Some _ => true | None => false end.

Definition keys {V} (d : odict V) : list string := List.map fst d.

(** Distinct keys, as every [dict] has. *)
Definition dict_wf {V} (d : odict V) : Prop := List.NoDup (keys d).

Definition is_none (v : pyval) : bool :=
  match v with VNone => true | _ => false end.

(** [bool(v)] *)
Definition truthy (v : pyval) : bool :=
  match v with
  | VNone => false
  | VBool b => b
  | VInt z => negb (z =? 0)%Z
  | VFloat f =>
      match f with
      | SpecFloat.S754_zero _ => false
      | _ => true
      end
  | VStr s => PyStr.nonempty s
  | VDict [] | VList [] | VTuple [] | VSet [] => false
  | VDict _ | VList _ | VTuple _ | VSet _ => true
  end.

(* ===================================================================== *)
(** * [drop_nones] *)
(* ===================================================================== *)

(** The recursion is carried by the value that holds the dictionary, so
    that every recursive call is on a component of it: [drop_dict v] is
    [drop_nones] of the dictionary [v]. The inner [loop] is the [for] over
    [dinput.items()], with [dd] the result built so far; the function
    mapped over a list, set or tuple is the generator's
    [drop_nones(vv) if isinstance(vv, dict) else vv]. *)
Fixpoint drop_dict (v : pyval) : odict pyval :=
  match v with
  | VDict dinput =>
      (fix loop (items : list (string * pyval)) (dd : odict pyval) : odict pyval :=
         match items with
         | [] => dd
         | (key, val) :: rest =>
             loop rest
               match val with
               | VDict _ => dict_set key (VDict (drop_dict val)) dd
               | VList l =>
                   dict_set key
                     (VList (List.map (fun vv => match vv with
                                                 | VDict _ => VDict (drop_dict vv)
                                                 | _ => vv
                                                 end) l)) dd
               | VSet l =>
                   dict_set key
                     (VSet (List.map (fun vv => match vv with
                                                | VDict _ => VDict (drop_dict vv)
                                                | _ => vv
                                                end) l)) dd
               | VTuple l =>
                   dict_set key
                     (VTuple (List.map (fun vv => match vv with
                                                  | VDict _ => VDict (drop_dict vv)
                                                  | _ => vv
                                                  end) l)) dd
               | VNone => dd
               | _ => dict_set key val dd
               end
         end) dinput []
  | _ => []
  end.

Definition drop_nones (dinput : odict pyval) : odict pyval :=
  drop_dict (VDict dinput).

(* ===================================================================== *)
(** * [export_metadata_file] *)
(* ===================================================================== *)

Section ExportMetadata.

(** The two serialisers the function calls, [oyaml.safe_dump] and
    [json.dumps(_, default=str, indent=2)], are not part of the module;
    each returns the text or raises. *)
Variable safe_dump : odict pyval -> result string.
Variable json_dumps : odict pyval -> result string.

(** A serialiser that raises does so before the file is opened, and a
    file that cannot be opened is not written. [drop_nones] of a value
    that is not a dictionary fails on its [.items()]. *)
Definition export_metadata_file (yfile : string) (metadata : pyval)
    (savefmt : string) (verbosity : loglevel) (w : world)
  : result unit * world :=
  let w := setLevel verbosity w in
  if truthy metadata then
    match metadata with
    | VDict d =>
        let xdata := drop_nones d in
        if String.eqb savefmt "yaml" then
          match safe_dump xdata with
          | Ok yamlblock =>
              match write_text yfile yamlblock w with
              | Ok w => (Ok tt, log INFO ("Yaml file on: " +:+ yfile) w)
              | Raise e => (Raise e, w)
              end
          | Raise e => (Raise e, w)
          end
        else
          let jfile := PyStr.replace ".yml" ".json" yfile in
          match json_dumps xdata with
          | Ok jsonblock =>
              match write_text jfile jsonblock w with
              | Ok w => (Ok tt, log INFO ("Yaml file on: " +:+ yfile) w)
              | Raise e => (Raise e, w)
              end
          | Raise e => (Raise e, w)
          end
    | _ => (Raise (AttributeError "items"), w)
    end
  else
    (Raise (RuntimeError
              "Export of metadata was requested, but no metadata are present."),
     w).

End ExportMetadata.

(* ===================================================================== *)
(** * [hashlib.md5] (RFC 1321) *)
(* ===================================================================== *)

Module MD5.

Local Open Scope Z_scope.

Definition w32 (x : Z) : Z := x mod 2 ^ 32.
Definition add32 (x y : Z) : Z := w32 (x + y).
Definition not32 (x : Z) : Z := Z.lxor x 0xffffffff.
Definition rotl (x n : Z) : Z :=
  Z.lor (w32 (Z.shiftl x n)) (Z.shiftr x (32 - n)).

(** [floor(2^32 * abs(sin(i + 1)))] for [i] from 0 to 63. *)
Definition K : list Z :=
  [ 0xd76aa478; 0xe8c7b756; 0x242070db; 0xc1bdceee;
    0xf57c0faf; 0x4787c62a; 0xa8304613; 0xfd469501;
    0x698098d8; 0x8b44f7af; 0xffff5bb1; 0x895cd7be;
    0x6b901122; 0xfd987193; 0xa679438e; 0x49b40821;
    0xf61e2562; 0xc040b340; 0x265e5a51; 0xe9b6c7aa;
    0xd62f105d; 0x02441453; 0xd8a1e681; 0xe7d3fbc8;
    0x21e1cde6; 0xc33707d6; 0xf4d50d87; 0x455a14ed;
    0xa9e3e905; 0xfcefa3f8; 0x676f02d9; 0x8d2a4c8a;
    0xfffa3942; 0x8771f681; 0x6d9d6122; 0xfde5380c;
    0xa4beea44; 0x4bdecfa9; 0xf6bb4b60; 0xbebfbc70;
    0x289b7ec6; 0xeaa127fa; 0xd4ef3085; 0x04881d05;
    0xd9d4d039; 0xe6db99e5; 0x1fa27cf8; 0xc4ac5665;
    0xf4292244; 0x432aff97; 0xab9423a7; 0xfc93a039;
    0x655b59c3; 0x8f0ccc92; 0xffeff47d; 0x85845dd1;
    0x6fa87e4f; 0xfe2ce6e0; 0xa3014314; 0x4e0811a1;
    0xf7537e82; 0xbd3af235; 0x2ad7d2bb; 0xeb86d391 ].

(** Per-round rotation amounts. *)
Definition shifts : list Z :=
  [ 7; 12; 17; 22; 7; 12; 17; 22; 7; 12; 17; 22; 7; 12; 17; 22;
    5; 9; 14; 20; 5; 9; 14; 20; 5; 9; 14; 20; 5; 9; 14; 20;
    4; 11; 16; 23; 4; 11; 16; 23; 4; 11; 16; 23; 4; 11; 16; 23;
    6; 10; 15; 21; 6; 10; 15; 21; 6; 10; 15; 21; 6; 10; 15; 21 ].

(** The four chaining words. *)
Record quad : Type := Quad { qa : Z; qb : Z; qc : Z; qd : Z }.

Definition iv : quad := Quad 0x67452301 0xefcdab89 0x98badcfe 0x10325476.

Definition byte_val (b : Byte.byte) : Z := Z.of_N (Byte.to_N b).

Definition byte_of_Z (z : Z) : Byte.byte :=
  match Byte.of_N (Z.to_N (z mod 256)) with
  | Some b => b
  | None => Byte.x00
  end.

(** The little-endian 32-bit words of a block. *)
Fixpoint le_words (bs : list Byte.byte) : list Z :=
  match bs with
  | b0 :: b1 :: b2 :: b3 :: r =>
      (byte_val b0 + 256 * byte_val b1 + 65536 * byte_val b2
       + 16777216 * byte_val b3) :: le_words r
  | _ => []
  end.

(** Operation [i] of the 64 on the working words, for message words [M]. *)
Definition step (M : list Z) (q : quad) (i : nat) : quad :=
  let '(Quad a b c d) := q in
  let '(f, g) :=
    if (i <? 16)%nat then (Z.lor (Z.land b c) (Z.land (not32 b) d), i)
    else if (i <? 32)%nat
    then (Z.lor (Z.land d b) (Z.land (not32 d) c), ((5 * i + 1) mod 16)%nat)
    else if (i <? 48)%nat
    then (Z.lxor b (Z.lxor c d), ((3 * i + 5) mod 16)%nat)
    else (Z.lxor c (Z.lor b (not32 d)), ((7 * i) mod 16)%nat) in
  let f := add32 (add32 (add32 f a) (nth i K 0)) (nth g M 0) in
  Quad d (add32 b (rotl f (nth i shifts 0))) b c.

(** The compression of one 64-byte block into the chaining words. *)
Definition compress (h : quad) (block : list Byte.byte) : quad :=
  let q := fold_left (step (le_words block)) (seq 0 64) h in
  Quad (add32 (qa h) (qa q)) (add32 (qb h) (qb q))
       (add32 (qc h) (qc q)) (add32 (qd h) (qd q)).

(** The padding of a message of [len] bytes: a one bit, zeros up to 56
    modulo 64, and the length in bits as a little-endian 64-bit number. *)
Definition le64 (n : Z) : list Byte.byte :=
  List.map (fun k => byte_of_Z (Z.shiftr n (8 * Z.of_nat k))) (seq 0 8).

Definition padding (len : nat) : list Byte.byte :=
  Byte.x80
    :: repeat Byte.x00 (Z.to_nat ((55 - Z.of_nat len) mod 64))
    ++ le64 ((8 * Z.of_nat len) mod 2 ^ 64).

Definition word_bytes (x : Z) : list Byte.byte :=
  List.map (fun k => byte_of_Z (Z.shiftr x (8 * Z.of_nat k))) (seq 0 4).

Definition quad_bytes (q : quad) : list Byte.byte :=
  word_bytes (qa q) ++ word_bytes (qb q) ++ word_bytes (qc q) ++ word_bytes (qd q).

(** Consume the complete 64-byte blocks at the front of [data]; what is
    left is shorter than a block. *)
Equations? absorb (h : quad) (data : list Byte.byte) : quad * list Byte.byte
  by wf (length data) lt :=
  absorb h data with le_lt_dec 64 (length data) := {
    | left _ => absorb (compress h (firstn 64 data)) (skipn 64 data)
    | right _ => (h, data) }.
Proof. rewrite length_skipn. lia. Qed.

(** The hash object: chaining words, the bytes not yet compressed, and the
    number of bytes fed so far. *)
Record hasher : Type := Hasher { chain : quad; pending : list Byte.byte; fed : nat }.

(** [hashlib.md5()] *)
Definition new : hasher := Hasher iv [] 0.

(** [h.update(data)] *)
Definition update (s : hasher) (data : list Byte.byte) : hasher :=
  let '(h, rest) := absorb (chain s) (pending s ++ data) in
  Hasher h rest (fed s + length data).

(** [h.digest()]: pad a copy of the state and compress what is pending. *)
Definition digest (s : hasher) : list Byte.byte :=
  quad_bytes (fst (absorb (chain s) (pending s ++ padding (fed s)))).

Definition hex_char (n : Z) : ascii :=
  ascii_of_N (Z.to_N (if n <? 10 then 48 + n else 87 + n)).

Definition hex_byte (b : Byte.byte) : string :=
  String (hex_char (byte_val b / 16))
         (String (hex_char (byte_val b mod 16)) EmptyString).

Fixpoint hex (bs : list Byte.byte) : string :=
  match bs with
  | [] => EmptyString
  | b :: r => hex_byte b +:+ hex r
  end.

(** [h.hexdigest()] *)
Definition hexdigest (s : hasher) : string := hex (digest s).

(** The digest of a whole message in one step, as RFC 1321 defines it:
    pad the message, cut it into 64-byte blocks, and compress them in
    turn from the initial chaining words. *)
Equations? blocks (data : list Byte.byte) : list (list Byte.byte)
  by wf (length data) lt :=
  blocks [] := [];
  blocks (b :: r) := firstn 64 (b :: r) :: blocks (skipn 64 (b :: r)).
Proof. rewrite length_skipn. simpl. lia. Qed.

Definition md5 (msg : list Byte.byte) : list Byte.byte :=
  quad_bytes (fold_left compress (blocks (msg ++ padding (length msg))) iv).

Definition md5_hex (msg : list Byte.byte) : string := hex (md5 msg).

End MD5.

(* ===================================================================== *)
(** * [md5sum] *)
(* ===================================================================== *)

(** A file opened with ["rb"] is given by the bytes not read yet;
    [fil.read(n)] hands out at most [n] of them. *)
Abbreviation fileobj := (list Byte.byte).

Definition fread (n : nat) (fil : fileobj) : list Byte.byte * fileobj :=
  (firstn n fil, skipn n fil).

(** [for chunk in iter(lambda: fil.read(4096), b""): hash_md5.update(chunk)]:
    the loop ends at the first empty chunk. *)
Equations? md5sum_loop (fil : fileobj) (hash_md5 : MD5.hasher) : MD5.hasher
  by wf (length fil) lt :=
  md5sum_loop fil hash_md5 with Logic.inspect (fst (fread 4096 fil)) := {
    | exist _ [] _ => hash_md5
    | exist _ (c :: cs) _ =>
        md5sum_loop (snd (fread 4096 fil)) (MD5.update hash_md5 (c :: cs)) }.
Proof.
  simpl. rewrite length_skipn. destruct fil; [discriminate | simpl; lia].
Qed.

(** [open(fname, "rb")] gives the bytes of the file, or raises. *)
Definition md5sum (fname : string) (w : world) : result string :=
  match OS.open_rb (files w) fname with
  | Raise e => Raise e
  | Ok data =>
      let hash_md5 := md5sum_loop data MD5.new in
      Ok (MD5.hexdigest hash_md5)
  end.

(* ===================================================================== *)
(** * [size] *)
(* ===================================================================== *)

Section Size.

(** What [st_size] is for a directory is the file system's own matter. *)
Variable dir_size : tree -> Path -> Z.

(** [Path(fname).stat().st_size]: for a regular file the number of its
    bytes. *)
Definition size (fname : string) (w : world) : result Z :=
  let path := PurePath.of_string fname in
  match OS.stat (files w) path with
  | Ok (Regular data) => Ok (Z.of_nat (length data))
  | Ok Directory => Ok (dir_size (files w) path)
  | Raise e => Raise e
  end.

End Size.

(* ===================================================================== *)
(** * [uuid_from_string] *)
(* ===================================================================== *)

(** A [uuid.UUID] is its 128-bit integer: equality, hashing and ordering
    of UUID objects go through [.int]. *)
Record UUID : Type := mkUUID { uuid_int : Z }.

Definition hex_digit (c : ascii) : option Z :=
  let n := Z.of_N (PyStr.code c) in
  if ((48 <=? n) && (n <=? 57))%Z then Some (n - 48)%Z
  else if ((97 <=? n) && (n <=? 102))%Z then Some (n - 87)%Z
  else if ((65 <=? n) && (n <=? 70))%Z then Some (n - 55)%Z
  else None.

(** [int(s, 16)] on a string of hexadecimal digits, most significant
    first; [acc] is the value of the digits read so far. Strings with a
    sign, a prefix or underscores do not reach it from [hexdigest] and are
    refused here. *)
Fixpoint int16_from (acc : Z) (s : string) : option Z :=
  match s with
  | EmptyString => Some acc
  | String c r =>
      match hex_digit c with
      | Some d => int16_from (16 * acc + d) r
      | None => None
      end
  end.

Definition int16 (s : string) : option Z :=
  match s with
  | EmptyString => None
  | _ => int16_from 0 s
  end.

Definition is_brace (c : ascii) : bool :=
  Ascii.eqb c "{"%char || Ascii.eqb c "}"%char.

(** [uuid.UUID(hex)] *)
Definition UUID_of_hex (hex : string) : result UUID :=
  let hex := PyStr.replace "uuid:" "" (PyStr.replace "urn:" "" hex) in
  let hex := PyStr.replace "-" "" (PyStr.strip is_brace hex) in
  if negb (String.length hex =? 32)%nat
  then Raise (ValueError "badly formed hexadecimal UUID string")
  else match int16 hex with
       | Some n => Ok (mkUUID n)
       | None => Raise (ValueError "invalid literal for int() with base 16")
       end.

Definition uuid_from_string (string : String.string) : result UUID :=
  UUID_of_hex (MD5.hexdigest (MD5.update MD5.new (PyStr.encode_utf8 string))).

(* ===================================================================== *)
(** * [check_if_number] and [read_parameters_txt] *)
(* ===================================================================== *)

Section Parameters.

(** The built-in conversions [int(value)] and [float(value)] of a string;
    [None] stands for their [ValueError]. *)
Variable py_int : string -> option Z.
Variable py_float : string -> option pyfloat.

Definition check_if_number (value : string) : pyval :=
  let res :=
    match py_int value with
    | Some n => Some (VInt n)
    | None =>
        match py_float value with
        | Some f => Some (VFloat f)
        | None => None
        end
    end in
  match res with
  | Some r => r
  | None => VStr value
  end.

(** One turn of [for line in buffer] on the dictionary built so far.
    Assigning into [param[items[0]]] needs that entry to be a dictionary;
    a number or a string there refuses the item assignment. *)
Definition param_step (param : odict pyval) (line : string)
  : result (odict pyval) :=
  let items := PyStr.split_on ":" line in
  match items with
  | [i0; i1] => Ok (dict_set i0 (check_if_number i1) param)
  | [i0; i1; i2] =>
      let param :=
        if negb (dict_mem i0 param) then dict_set i0 (VDict []) param
        else param in
      match dict_get i0 param with
      | Some (VDict sub) =>
          Ok (dict_set i0 (VDict (dict_set i1 (check_if_number i2) sub)) param)
      | _ => Raise (TypeError "object does not support item assignment")
      end
  | _ =>
      Raise (RuntimeError
               ("Unexpected structure of parameters.txt, line is: " +:+ line))
  end.

Fixpoint param_loop (buffer : list string) (param : odict pyval)
  : result (odict pyval) :=
  match buffer with
  | [] => Ok param
  | line :: rest =>
      match param_step param line with
      | Ok param' => param_loop rest param'
      | Raise e => Raise e
      end
  end.

(** The argument is the text [stream.read()] returns for [pfile]; the
    [logger.debug] calls only emit records and are left out. *)
Definition read_parameters_txt (text : string) : result (odict pyval) :=
  let buffer := PyStr.splitlines text in
  let buffer := List.map (fun line => PyStr.join ":" (PyStr.split line)) buffer in
  param_loop buffer [].

End Parameters.

(* ===================================================================== *)
(** * The built-in conversions on tokens *)
(* ===================================================================== *)

(** [int] and [float] of a token, that is of a string without blanks, for
    the literals of the Python grammar over ASCII digits. They instantiate
    [py_int] and [py_float] where a property is evaluated on a file. *)
Module PyNum.

Definition dec_digit (c : ascii) : option Z :=
  let n := Z.of_N (PyStr.code c) in
  if ((48 <=? n) && (n <=? 57))%Z then Some (n - 48)%Z else None.

(** [digit (["_"] digit)*] up to the end of the string; [prev_digit] tells
    whether the last character read was a digit. *)
Fixpoint digits_from (acc : Z) (prev_digit : bool) (s : string) : option Z :=
  match s with
  | EmptyString => if prev_digit then Some acc else None
  | String c r =>
      match dec_digit c with
      | Some d => digits_from (10 * acc + d) true r
      | None =>
          if Ascii.eqb c "_"%char && prev_digit then digits_from acc false r
          else None
      end
  end.

Definition split_sign (s : string) : bool * string :=
  match s with
  | String c r =>
      if Ascii.eqb c "-"%char then (true, r)
      else if Ascii.eqb c "+"%char then (false, r)
      else (false, s)
  | EmptyString => (false, s)
  end.

(** The number of decimal digits of a string. *)
Fixpoint count_digits (s : string) : nat :=
  match s with
  | EmptyString => 0
  | String c r =>
      match dec_digit c with
      | Some _ => S (count_digits r)
      | None => count_digits r
      end
  end.

(** [sys.get_int_max_str_digits()], as CPython sets it. *)
Definition max_str_digits : nat := 4300.

(** [int(s)]: a literal of more than [max_str_digits] digits is refused
    like a string that is no literal. *)
Definition int (s : string) : option Z :=
  let '(neg, body) := split_sign s in
  match digits_from 0 false body with
  | Some n =>
      if (count_digits body <=? max_str_digits)%nat
      then Some (if neg then (- n)%Z else n)
      else None
  | None => None
  end.

(** The longest [digit (["_"] digit)*] at the front of [s], continuing the
    number [acc]: its value, how many digits were read, and the rest. *)
Fixpoint digitpart (acc : Z) (n : nat) (s : string) : Z * nat * string :=
  match s with
  | EmptyString => (acc, n, s)
  | String c r =>
      match dec_digit c with
      | Some d => digitpart (10 * acc + d) (S n) r
      | None =>
          match n, r with
          | S _, String c' r' =>
              match dec_digit c' with
              | Some d =>
                  if Ascii.eqb c "_"%char then digitpart (10 * acc + d) (S n) r'
                  else (acc, n, s)
              | None => (acc, n, s)
              end
          | _, _ => (acc, n, s)
          end
      end
  end.

(** The binary64 number nearest to [m * 10 ^ e10], ties to even. *)
Definition of_decimal (neg : bool) (m e10 : Z) : pyfloat :=
  match m with
  | Zpos p =>
      let num := (if (0 <=? e10)%Z then Z.pos p * 10 ^ e10 else Z.pos p)%Z in
      let den := (if (0 <=? e10)%Z then 1 else 10 ^ (- e10))%Z in
      match num, den with
      | Zpos n, Zpos d =>
          SpecFloat.SFdiv 53 1024 (SpecFloat.S754_finite neg n 0)
                          (SpecFloat.S754_finite false d 0)
      | _, _ => SpecFloat.S754_nan
      end
  | _ => SpecFloat.S754_zero neg
  end.

Definition is_e (c : ascii) : bool :=
  Ascii.eqb c "e"%char || Ascii.eqb c "E"%char.

(** [float(s)] *)
Definition float (s : string) : option pyfloat :=
  let '(neg, body) := split_sign s in
  let lb := PyStr.lower body in
  if String.eqb lb "inf" || String.eqb lb "infinity"
  then Some (SpecFloat.S754_infinity neg)
  else if String.eqb lb "nan" then Some SpecFloat.S754_nan
  else
    let '(ip, ni, r1) := digitpart 0 0 body in
    let '(mant, nf, r2) :=
      match r1 with
      | String c r => if Ascii.eqb c "."%char then digitpart ip 0 r else (ip, 0%nat, r1)
      | EmptyString => (ip, 0%nat, r1)
      end in
    if (ni + nf =? 0)%nat then None
    else
      match r2 with
      | EmptyString => Some (of_decimal neg mant (- Z.of_nat nf))
      | String c r3 =>
          if is_e c then
            let '(eneg, ebody) := split_sign r3 in
            match digitpart 0 0 ebody with
            | (ev, S _, EmptyString) =>
                Some (of_decimal neg mant
                        ((if eneg then - ev else ev) - Z.of_nat nf))
            | _ => None
            end
          else None
      end.

End PyNum.

(* ===================================================================== *)
(** * [verify_path] *)
(* ===================================================================== *)

(** What [verify_path] reads of the [ExportData] object it is given. The
    two folder names are what the f-string writes of them when they are
    not [None]. *)
Record ExportData : Type := mkExportData {
  _verbosity : loglevel;
  _pwd : Path;
  createfolder : bool;
  _realfolder : option string;
  _iterfolder : option string
}.

(** [filedest] is a string or a path. *)
Inductive pathlike : Type :=
| AsStr (s : string)
| AsPath (p : Path).

(** [str(x)]; joining a path to a path with [/] parses the components of
    the second again, which is joining its [str]. *)
Definition pathlike_str (x : pathlike) : string :=
  match x with
  | AsStr s => s
  | AsPath p => PurePath.to_string p
  end.

(** What the call raises: an exception of the language or of a system
    call, or the [IOError] of [verify_path], which has a message and no
    error number. *)
Inductive raised : Type :=
| Builtin (e : exn)
| IOError (msg : string).

Inductive outcome (A : Type) : Type :=
| Returned (a : A)
| Raised (e : raised).

Arguments Returned {A} a.
Arguments Raised {A} e.

(** The world with another file system. *)
Definition with_files (w : world) (t : tree) : world :=
  World (log_level w) (log_records w) t.

(** The check of the folder, between the computation of [path] and that of
    [metapath]. *)
Definition verify_folder (dataio : ExportData) (path : Path) (w : world)
  : option raised * world :=
  match PosixPath.exists_ (files w) (Pathlib.parent path) with
  | Raise e => (Some (Builtin e), w)
  | Ok true => (None, log INFO "Folder exists" w)
  | Ok false =>
      if createfolder dataio then
        let w := log INFO "No such folder, will create" w in
        match PosixPath.mkdir (files w) (Pathlib.parent path) with
        | (None, t) => (None, with_files w t)
        | (Some e, t) => (Some (Builtin e), with_files w t)
        end
      else
        (Some (IOError ("Folder " +:+ PurePath.to_string (Pathlib.parent path)
                        +:+ " is not present.")),
         w)
  end.

Definition verify_path (dataio : ExportData) (filedest : pathlike)
    (filename ext : string) (dryrun : bool) (w : world)
  : outcome (Path * Path * string * Path) * world :=
  let w := setLevel (_verbosity dataio) w in
  let w := log DEBUG ("Incoming filedest is " +:+ pathlike_str filedest) w in
  let w := log DEBUG ("Incoming filename is " +:+ filename) w in
  let w := log DEBUG ("Incoming ext is " +:+ ext) w in
  let folder := _pwd dataio // pathlike_str filedest in
  let path := folder // PyStr.lower filename in
  match Pathlib.with_suffix path (Pathlib.suffix path +:+ ext) with
  | Raise e => (Raised (Builtin e), w)
  | Ok path =>
      match PosixPath.resolve (files w) path with
      | Raise e => (Raised (Builtin e), w)
      | Ok abspath =>
          let w := log DEBUG ("path is " +:+ PurePath.to_string path) w in
          let '(failure, w) :=
            if negb dryrun then verify_folder dataio path w else (None, w) in
          match failure with
          | Some e => (Raised e, w)
          | None =>
              match Pathlib.with_suffix (folder // ("." +:+ PyStr.lower filename))
                                        (ext +:+ ".yml") with
              | Raise e => (Raised (Builtin e), w)
              | Ok metapath =>
                  match PosixPath.resolve (files w) metapath with
                  | Raise e => (Raised (Builtin e), w)
                  | Ok metapath =>
                      let relpath := PyStr.replace "../" "" (pathlike_str filedest) in
                      let relpath :=
                        match _realfolder dataio, _iterfolder dataio with
                        | Some realfolder, Some iterfolder =>
                            Pathlib.join (realfolder +:+ "/" +:+ iterfolder) relpath
                        | _, _ => relpath
                        end in
                      let relpath :=
                        relpath +:+ "/" +:+ PyStr.lower filename +:+ ext in
                      let w :=
                        log INFO ("Full path to the actual file is: "
                                  +:+ PurePath.to_string abspath) w in
                      let w :=
                        log INFO ("Full path to the metadata file (if used) is: "
                                  +:+ PurePath.to_string metapath) w in
                      let w :=
                        log INFO ("Relative path to actual file: " +:+ relpath) w in
                      (Returned (path, metapath, relpath, abspath), w)
                  end
              end
          end
      end
  end.

(* ===================================================================== *)
(** * The stated behaviour, as definitions of its own *)
(* ===================================================================== *)

(** ** File names *)

(** Every dot and every blank becomes an underscore. *)
Definition sanitize_char (c : ascii) : ascii :=
  if Ascii.eqb c "."%char || Ascii.eqb c " "%char then "_"%char else c.

Fixpoint sanitize (s : string) : string :=
  match s with
  | EmptyString => EmptyString
  | String c r => String (sanitize_char c) (sanitize r)
  end.

(** An optional argument counts as given when it passes the truth test of
    the source: it is not [None], not the empty string and not zero. *)
Definition given_name (o : option string) : option string :=
  match o with
  | Some s => if PyStr.nonempty s then Some (PyStr.lower s) else None
  | None => None
  end.

Definition given_time (o : option tstamp) : option string :=
  match o with
  | Some t => if tstamp_truthy t then Some (PyStr.lower (tstamp_str t)) else None
  | None => None
  end.

Definition convention_stem (a : filename_args) : string :=
  let base := PyStr.lower (name a) in
  let tagged :=
    match given_name (tagname a) with
    | Some tag => base +:+ "--" +:+ tag
    | None => base
    end in
  let pretagged :=
    match given_name (pretagname a) with
    | Some pre => pre +:+ "--" +:+ tagged
    | None => tagged
    end in
  let timed :=
    match given_time (t1 a), given_time (t2 a) with
    | Some s1, None => pretagged +:+ "--" +:+ s1
    | Some s1, Some s2 => pretagged +:+ "--" +:+ s2 +:+ "_" +:+ s1
    | None, _ => pretagged
    end in
  sanitize timed.

(** The folder of each kind of object. *)
Definition folders : odict string :=
  [ ("surface", "maps"); ("grid", "grids"); ("table", "tables");
    ("polygons", "polygons"); ("cube", "cubes") ].

Definition folder_of (loc : string) : string :=
  match dict_get loc folders with
  | Some f => f
  | None => "other"
  end.

(** The destination: the folder is one more component of [outroot], and
    the subfolder is joined to that. *)
Definition convention_dest (a : filename_args) : Path :=
  let base := PurePath.of_string (outroot a) in
  let dest :=
    PurePath.mk (PurePath.root base)
                (PurePath.parts base ++ [folder_of (loc a)]) in
  match subfolder a with
  | Some sub => if PyStr.nonempty sub then dest // sub else dest
  | None => dest
  end.

(** ** Serialisers *)

(** A serialiser to evaluate [export_metadata_file] with: the keys of the
    dictionary, one per line. *)
Definition dump_keys (d : odict pyval) : result string :=
  Ok (PyStr.join (String PyStr.LF EmptyString) (keys d)).

(** ** The export of metadata *)

(** Metadata that are not empty are written to the file [yfile], whatever
    [yfile] and the file system are. *)
Definition metadata_written (safe_dump json_dumps : odict pyval -> result string)
    (yfile : string) (d : odict pyval) (w : world) : Prop :=
  forall yamlblock,
    d <> [] -> safe_dump (drop_nones d) = Ok yamlblock ->
    let out := export_metadata_file safe_dump json_dumps yfile (VDict d)
                 "yaml" WARNING w in
    fst out = Ok tt
    /\ OS.open_rb (files (snd out)) yfile = Ok (PyStr.encode_utf8 yamlblock).

(** ** Hash objects *)

(** A hash object never holds a whole block pending. *)
Definition hasher_wf (s : MD5.hasher) : Prop := length (MD5.pending s) < 64.

(** ** Strings of hexadecimal digits *)

Fixpoint string_forall (p : ascii -> bool) (s : string) : bool :=
  match s with
  | EmptyString => true
  | String c r => p c && string_forall p r
  end.

(** The digits [hexdigest] writes: [0-9] and [a-f]. *)
Definition lower_hex (c : ascii) : bool :=
  let n := PyStr.code c in
  (((48 <=? n) && (n <=? 57)) || ((97 <=? n) && (n <=? 102)))%N.

(** ** Pruned dictionaries *)

(** What is kept of an element of a list, set or tuple: a dictionary is
    pruned, anything else stays, [None] included. *)
Definition pruned_elem (vv : pyval) : pyval :=
  match vv with
  | VDict d => VDict (drop_nones d)
  | _ => vv
  end.

(** What is kept of a value that is not [None]: containers keep their
    type, other values are unchanged. *)
Definition pruned_value (v : pyval) : pyval :=
  match v with
  | VDict d => VDict (drop_nones d)
  | VList l => VList (List.map pruned_elem l)
  | VSet l => VSet (List.map pruned_elem l)
  | VTuple l => VTuple (List.map pruned_elem l)
  | _ => v
  end.

(** One turn of the loop of [drop_nones] on the result [dd] built so far,
    for the item [kv]. *)
Definition drop_turn (dd : odict pyval) (kv : string * pyval) : odict pyval :=
  if is_none (snd kv) then dd else dict_set (fst kv) (pruned_value (snd kv)) dd.

(** The items whose value is not [None], in their order, each with what is
    kept of its value. *)
Definition pruned (d : odict pyval) : odict pyval :=
  List.flat_map
    (fun kv => if is_none (snd kv) then [] else [(fst kv, pruned_value (snd kv))])
    d.

(** ** Parameters files *)

(** What [read_parameters_txt] turns a line into before the loop. *)
Definition normalize (line : string) : string :=
  PyStr.join ":" (PyStr.split line).

(** The fields of a line: its blank-separated tokens, joined with [":"],
    split on [":"]. *)
Definition line_fields (line : string) : list string :=
  PyStr.split_on ":" (normalize line).

(** Fewer than two or more than three fields. *)
Definition bad_line (line : string) : bool :=
  ((length (line_fields line) <? 2) || (3 <? length (line_fields line)))%nat.

Definition is_colon (c : ascii) : bool := Ascii.eqb ":"%char c.

(** The number of colons of a token. *)
Fixpoint colons (s : string) : nat :=
  match s with
  | EmptyString => 0
  | String c r => (if is_colon c then 1 else 0) + colons r
  end.

(** The key token of a line, and the part of a key before its colon. *)
Definition line_key (line : string) : string :=
  hd EmptyString (PyStr.split line).

Definition key_top (key : string) : string :=
  hd EmptyString (PyStr.split_on ":" key).

(** A line made of a key token followed by a value token. *)
Definition key_value_line (line : string) : Prop :=
  exists key value, PyStr.split line = [key; value].

(** The same, with at most one colon in the key and none in the value. *)
Definition entry_line (line : string) : Prop :=
  exists key value,
    PyStr.split line = [key; value] /\ colons key <= 1 /\ colons value = 0.

(** A later line takes the place of an earlier one when it has the same
    key, or when its key is the part before the colon of the earlier key. *)
Definition overrides (later earlier : string) : Prop :=
  line_key later = line_key earlier
  \/ line_key later = key_top (line_key earlier).

(** A ['PREFIX:NAME'] line after a line whose key is that [PREFIX] alone. *)
Definition clash (earlier later : string) : Prop :=
  colons (line_key earlier) = 0
  /\ colons (line_key later) = 1
  /\ key_top (line_key later) = line_key earlier.

(** A token: not empty, without blank. *)
Definition is_token (s : string) : bool :=
  PyStr.nonempty s && string_forall (fun c => negb (PyStr.is_space c)) s.

(** A line laid out in columns: the blanks [lead], then every token with
    the blanks that follow it. *)
Fixpoint justify (lead : string) (cols : list (string * string)) : string :=
  match cols with
  | [] => lead
  | (token, gap) :: rest => lead +:+ token +:+ justify gap rest
  end.

(** The columns hold tokens, the gaps are blank, and a gap in front of
    another column is not empty. *)
Fixpoint layout (cols : list (string * string)) : bool :=
  match cols with
  | [] => true
  | (token, gap) :: rest =>
      is_token token && string_forall PyStr.is_space gap
      && (PyStr.nonempty gap || match rest with [] => true | _ => false end)
      && layout rest
  end.

(** The two conditions, decided. *)
Definition entry_lineb (line : string) : bool :=
  match PyStr.split line with
  | [key; value] => (colons key <=? 1)%nat && (colons value =? 0)%nat
  | _ => false
  end.

Definition clashb (earlier later : string) : bool :=
  (colons (line_key earlier) =? 0)%nat
  && (colons (line_key later) =? 1)%nat
  && String.eqb (key_top (line_key later)) (line_key earlier).

Fixpoint no_clashb (lines : list string) : bool :=
  match lines with
  | [] => true
  | a :: rest => forallb (fun b => negb (clashb a b)) rest && no_clashb rest
  end.

(** No line clashes with an earlier one. *)
Definition no_clash (lines : list string) : Prop :=
  forall l1 a l2 b l3,
    lines = (l1 ++ a :: l2 ++ b :: l3)%list -> ~ clash a b.

Section ParametersClaims.

Variable py_int : string -> option Z.
Variable py_float : string -> option pyfloat.

(** What the dictionary [param] holds for a line [key value]: the
    converted value under a key without colon, and under [NAME] in the
    dictionary under [PREFIX] for a key ['PREFIX:NAME']. *)
Definition holds_entry (param : odict pyval) (key value : string) : Prop :=
  (colons key = 0 ->
   dict_get key param = Some (check_if_number py_int py_float value))
  /\ (forall prefix nm,
        PyStr.split_on ":" key = [prefix; nm] ->
        exists sub,
          dict_get prefix param = Some (VDict sub)
          /\ dict_get nm sub = Some (check_if_number py_int py_float value)).

(** Every value that is not a dictionary was put there by a line whose key
    has no colon. *)
Definition plain_origin (lines : list string) (param : odict pyval) : Prop :=
  forall k x,
    dict_get k param = Some x -> (forall sub, x <> VDict sub) ->
    exists line, In line lines /\ line_key line = k /\ colons k = 0.

(** Every line that no later line overrides has its entry. *)
Definition entries_hold (lines : list string) (param : odict pyval) : Prop :=
  forall l1 line l2 key value,
    lines = (l1 ++ line :: l2)%list ->
    PyStr.split line = [key; value] ->
    (forall later, In later l2 -> ~ overrides later line) ->
    holds_entry param key value.

(** The reading of a file of key and value lines, for every such file. *)
Definition key_value_reading (text : string) : Prop :=
  Forall key_value_line (PyStr.splitlines text) ->
  exists param,
    read_parameters_txt py_int py_float text = Ok param
    /\ forall line key value,
         In line (PyStr.splitlines text) ->
         PyStr.split line = [key; value] ->
         holds_entry param key value.

(** A line with a single token is refused. *)
Definition single_token_refused (line : string) : Prop :=
  forall token, PyStr.split line = [token] ->
  is_runtime_error (read_parameters_txt py_int py_float line) = true.

End ParametersClaims.

(* ===================================================================== *)
(** * Conditions on names, paths and trees *)
(* ===================================================================== *)

(** A file name stem: not empty, without dot and without slash. *)
Definition plain_char (c : ascii) : bool :=
  negb (Ascii.eqb c "."%char || Ascii.eqb c "/"%char).

Definition is_stem (s : string) : bool :=
  PyStr.nonempty s && string_forall plain_char s.

(** A file name extension: a dot followed by something, without slash. *)
Definition is_ext (s : string) : bool :=
  String.prefix "." s && (1 <? String.length s)%nat
  && negb (Pathlib.contains "/" s).

(** A name that stands for an entry of a directory. *)
Definition ordinary (name : string) : bool :=
  PyStr.nonempty name && negb (String.eqb name ".")
  && negb (String.eqb name "..").

(** A name, and a path, that the kernel takes: no name of more than
    [NAME_MAX] bytes, and fewer than [PATH_MAX] bytes in all. *)
Definition short_name (name : string) : bool :=
  (length (OS.fsencode name) <=? OS.NAME_MAX)%nat.

Definition short_path (p : Path) : bool :=
  forallb short_name (PurePath.parts p)
  && (length (OS.fsencode (PurePath.to_string p)) <? OS.PATH_MAX)%nat.

(** The trees of a file system: what holds an entry is a directory, and
    the working directory is one, given by ordinary names. *)
Definition tree_wf (t : tree) : Prop :=
  (forall here k, nodes t !! here = Some k ->
     OS.node_at t (List.removelast here) = Some Directory)
  /\ OS.node_at t (cwd t) = Some Directory
  /\ forallb ordinary (cwd t) = true.

(** A tree without regular files. *)
Definition dirs_only (t : tree) : Prop :=
  forall here k, nodes t !! here = Some k -> k = Directory.

(** The two conditions, decided. *)
Definition is_directory (o : option kind) : bool :=
  match o with Some Directory => true | _ => false end.

Definition tree_wfb (t : tree) : bool :=
  forallb (fun entry => is_directory (OS.node_at t (List.removelast (fst entry))))
          (map_to_list (nodes t))
  && is_directory (OS.node_at t (cwd t))
  && forallb ordinary (cwd t).

Definition dirs_onlyb (t : tree) : bool :=
  forallb (fun entry => is_directory (Some (snd entry))) (map_to_list (nodes t)).

(** [t'] has the working directory and the entries of [t], and
    directories besides. *)
Definition extends (t t' : tree) : Prop :=
  cwd t' = cwd t
  /\ nodes t ⊆ nodes t'
  /\ forall here k, nodes t' !! here = Some k -> nodes t !! here = None ->
       k = Directory.

(* ===================================================================== *)
(** * Conditions on values, names and texts *)
(* ===================================================================== *)

(** ** Stems *)

(** A character that is neither a dot nor a blank. *)
Definition clean_char (c : ascii) : bool :=
  negb (Ascii.eqb c "."%char || Ascii.eqb c " "%char).

(** ** Dictionaries without [None], at every level *)

(** No key of the dictionary holds [None], and so for the dictionaries it
    holds and for the dictionaries in the lists, sets and tuples it holds:
    the levels [drop_nones] goes through. *)
Fixpoint none_free (v : pyval) : bool :=
  match v with
  | VDict items =>
      forallb (fun kv => negb (is_none (snd kv)) && none_free (snd kv)) items
  | VList l | VSet l | VTuple l =>
      forallb (fun vv => match vv with VDict _ => none_free vv | _ => true end) l
  | _ => true
  end.

(** Pairwise distinct strings. *)
Fixpoint distinct (l : list string) : bool :=
  match l with
  | [] => true
  | x :: r => negb (existsb (String.eqb x) r) && distinct r
  end.

(** The keys are distinct, at the same levels. *)
Fixpoint deep_wf (v : pyval) : bool :=
  match v with
  | VDict items =>
      distinct (keys items) && forallb (fun kv => deep_wf (snd kv)) items
  | VList l | VSet l | VTuple l =>
      forallb (fun vv => match vv with VDict _ => deep_wf vv | _ => true end) l
  | _ => true
  end.

(** What [drop_nones] keeps under a key: a value that is not [None], has
    none below and has distinct keys; and what it leaves in a list, a set
    or a tuple: such a dictionary, or anything that is no dictionary. *)
Definition kept (v : pyval) : bool := negb (is_none v) && none_free v && deep_wf v.

Definition kept_elem (v : pyval) : bool :=
  match v with VDict _ => none_free v && deep_wf v | _ => true end.

(** ** Substrings *)

(** [old in s] *)
Fixpoint occurs (old s : string) : bool :=
  String.prefix old s
  || match s with
     | EmptyString => false
     | String _ r => occurs old r
     end.

(** ** The hexadecimal form of a UUID *)

(** The [k] hexadecimal digits of a number below [16 ^ k], most
    significant first. *)
Fixpoint hex_digits (k : nat) (n : Z) : string :=
  match k with
  | 0 => EmptyString
  | S k' =>
      String (MD5.hex_char (n / 16 ^ Z.of_nat k'))
             (hex_digits k' (n mod 16 ^ Z.of_nat k'))
  end.

(** [u.hex], which is ['%032x' % u.int]; the number of a UUID is below
    [16 ^ 32]. *)
Definition UUID_hex (u : UUID) : string := hex_digits 32 (uuid_int u).

(** ** The shape of a dictionary of parameters *)

(** A number or a string. *)
Definition is_scalar (v : pyval) : bool :=
  match v with
  | VInt _ | VFloat _ | VStr _ => true
  | _ => false
  end.

(** Numbers and strings under distinct keys. *)
Definition flat (d : odict pyval) : bool :=
  forallb (fun kv => is_scalar (snd kv)) d && distinct (keys d).

(** Under distinct keys, numbers, strings and flat dictionaries. *)
Definition scalar_or_flat (v : pyval) : bool :=
  match v with
  | VDict sub => flat sub
  | _ => is_scalar v
  end.

Definition two_level (d : odict pyval) : bool :=
  forallb (fun kv => scalar_or_flat (snd kv)) d && distinct (keys d).

(** The first field of a line, and the strings of a list in the order in
    which they come first. *)
Definition first_field (line : string) : string :=
  hd EmptyString (line_fields line).

Definition see (seen : list string) (k : string) : list string :=
  if existsb (String.eqb k) seen then seen else seen ++ [k].

Definition first_seen (l : list string) : list string := fold_left see l [].

(** ** Lines and their ends *)

(** The three usual line ends: line feed, carriage return and line feed,
    carriage return. *)
Definition is_eol (e : string) : bool :=
  String.eqb e (String PyStr.LF EmptyString)
  || String.eqb e (String PyStr.CR (String PyStr.LF EmptyString))
  || String.eqb e (String PyStr.CR EmptyString).

(** A text given by its lines, each with its line end. *)
Fixpoint with_eols (lines : list (string * string)) : string :=
  match lines with
  | [] => EmptyString
  | (line, eol) :: rest => line +:+ eol +:+ with_eols rest
  end.

(** The lines are not empty and hold no line boundary, and every line has
    one of the three line ends; the last one may have none. *)
Fixpoint lines_ok (lines : list (string * string)) : bool :=
  match lines with
  | [] => true
  | (line, eol) :: rest =>
      PyStr.nonempty line
      && string_forall (fun c => negb (PyStr.is_linebreak c)) line
      && (is_eol eol
          || (negb (PyStr.nonempty eol) && match rest with [] => true | _ => false end))
      && lines_ok rest
  end.

(* ===================================================================== *)
(** * Properties of [construct_filename] *)
(* ===================================================================== *)

Lemma replace_char_nil (c d : ascii) :
  PyStr.replace (String c EmptyString) (String d EmptyString) EmptyString
  = EmptyString.
Proof. reflexivity. Qed.

Lemma replace_char_cons (c d x : ascii) (r : string) :
  PyStr.replace (String c EmptyString) (String d EmptyString) (String x r)
  = String (if Ascii.eqb x c then d else x)
           (PyStr.replace (String c EmptyString) (String d EmptyString) r).
Proof.
  unfold PyStr.replace. simpl.
  destruct (ascii_dec c x) as [->|Hne].
  - rewrite Ascii.eqb_refl. now destruct r.
  - destruct (Ascii.eqb x c) eqn:E; [|reflexivity].
    apply Ascii.eqb_eq in E. congruence.
Qed.

Lemma sanitize_replace (s : string) :
  PyStr.replace " " "_" (PyStr.replace "." "_" s) = sanitize s.
Proof.
  induction s as [|x r IH]; [reflexivity|].
  rewrite replace_char_cons, replace_char_cons, IH. simpl. f_equal.
  unfold sanitize_char.
  destruct (Ascii.eqb x ".") eqn:E; simpl; reflexivity.
Qed.

Lemma folder_of_chain (P : Type) (f : string -> P) (loc : string) :
  (if String.eqb loc "surface" then f "maps"
   else if String.eqb loc "grid" then f "grids"
   else if String.eqb loc "table" then f "tables"
   else if String.eqb loc "polygons" then f "polygons"
   else if String.eqb loc "cube" then f "cubes"
   else f "other") = f (folder_of loc).
Proof.
  unfold folder_of, folders. simpl.
  repeat (match goal with |- context [String.eqb loc ?k] =>
            destruct (String.eqb loc k) end; [reflexivity|]).
  reflexivity.
Qed.
Lemma sanitize_scan (s : string) :
  PyStr.replace_scan " " "_" 0 (PyStr.replace_scan "." "_" 0 s) = sanitize s.
Proof. exact (sanitize_replace s). Qed.

(** What the call returns and leaves, by the two cases of [fmu]. *)
Lemma construct_filename_cases (a : filename_args) (v : loglevel) (w : world) :
  snd (construct_filename a v w) = setLevel v w
  /\ if (fmu a =? 1)%Z
     then exists s d, fst (construct_filename a v w) = Ok (s, d)
     else fst (construct_filename a v w) = Raise (UnboundLocalError "dest").
Proof.
  unfold construct_filename. destruct (fmu a =? 1)%Z; cbv beta iota zeta.
  - destruct (subfolder a) as [sub|]; [destruct (PyStr.nonempty sub)|];
      cbn [fst snd]; eauto.
  - cbn [fst snd]. auto.
Qed.

(** The stem computed by the body is the stem of the convention. *)
Lemma stem_convention (a : filename_args) (v : loglevel) (w : world)
    (d : Path) (s : string) :
  fst (construct_filename a v w) = Ok (s, d) -> fmu a = 1%Z -> s = convention_stem a.
Proof.
  unfold construct_filename, convention_stem. intros H Hfmu.
  rewrite Hfmu in H. change (1 =? 1)%Z with true in H. cbv beta iota zeta in H.
  cbn [fst] in H. injection H as <- _.
  rewrite sanitize_scan. f_equal.
  unfold given_name, given_time, truthy_str, truthy_tstamp, opt_lower, tstamp_lower.
  destruct (tagname a) as [tag|]; [destruct (PyStr.nonempty tag)|];
    (destruct (pretagname a) as [pre|]; [destruct (PyStr.nonempty pre)|]);
    (destruct (t1 a) as [x1|]; [destruct (tstamp_truthy x1)|]);
    (destruct (t2 a) as [x2|]; [destruct (tstamp_truthy x2)|]);
    reflexivity.
Qed.

Lemma truediv_folder (p : Path) (loc : string) :
  p // folder_of loc
  = PurePath.mk (PurePath.root p) (PurePath.parts p ++ [folder_of loc]).
Proof.
  unfold folder_of, folders. cbn [dict_get].
  repeat (match goal with |- context [String.eqb loc ?k] =>
            destruct (String.eqb loc k) end; [reflexivity|]).
  reflexivity.
Qed.

(** Joining a path that does not start with a slash appends its
    components. *)
Lemma truediv_relative (p : Path) (sub : string) :
  PurePath.leading_slashes sub = 0 ->
  p // sub
  = PurePath.mk (PurePath.root p) (PurePath.parts p ++ PurePath.components sub).
Proof.
  intros H. unfold PurePath.truediv, PurePath.of_string, PurePath.splitroot.
  now rewrite H.
Qed.

(** The destination computed by the body is that of the convention. *)
Lemma dest_convention (a : filename_args) (v : loglevel) (w : world)
    (d : Path) (s : string) :
  fst (construct_filename a v w) = Ok (s, d) -> fmu a = 1%Z -> d = convention_dest a.
Proof.
  unfold construct_filename. intros E Hfmu. rewrite Hfmu in E.
  change (1 =? 1)%Z with true in E. cbv beta iota zeta in E.
  cbn [fst] in E. injection E as _ <-. unfold convention_dest.
  rewrite (folder_of_chain Path (fun f => PurePath.of_string (outroot a) // f)).
  now rewrite truediv_folder.
Qed.

(** C1. With [fmu = 1] the call returns the stem of the naming convention
    (lowercased name, ["--"] and the lowercased tagname when one is given,
    the lowercased pretagname and ["--"] in front when one is given,
    ["--t1"] when only [t1] is given and ["--t2_t1"] when both are, dots
    and blanks replaced by underscores) and the destination made of
    [outroot], the folder of [loc] and the subfolder when one is given;
    a subfolder that does not start with a slash adds its components after
    the folder. *)
Theorem construct_filename_convention (a : filename_args) (v : loglevel) (w : world) :
  fmu a = 1%Z ->
  fst (construct_filename a v w) = Ok (convention_stem a, convention_dest a)
  /\ forall sub,
       subfolder a = Some sub -> PurePath.leading_slashes sub = 0 ->
       convention_dest a
       = PurePath.mk
           (PurePath.root (PurePath.of_string (outroot a)))
           (PurePath.parts (PurePath.of_string (outroot a))
              ++ folder_of (loc a) :: PurePath.components sub).
Proof.
  intros Hfmu. split.
  - destruct (construct_filename_cases a v w) as [_ Hret].
    rewrite Hfmu in Hret. change (1 =? 1)%Z with true in Hret.
    destruct Hret as (s & d & E). rewrite E.
    rewrite (stem_convention a v w d s E Hfmu). do 2 f_equal.
    unfold construct_filename in E. rewrite Hfmu in E.
    change (1 =? 1)%Z with true in E. cbv beta iota zeta in E.
    cbn [fst] in E. injection E as _ <-. unfold convention_dest.
    rewrite (folder_of_chain Path (fun f => PurePath.of_string (outroot a) // f)).
    now rewrite truediv_folder.
  - intros sub Hsub Hrel. unfold convention_dest. rewrite Hsub.
    destruct sub as [|c r]; cbn [PyStr.nonempty].
    + reflexivity.
    + rewrite truediv_relative by exact Hrel. cbn [PurePath.root PurePath.parts].
      now rewrite <- List.app_assoc.
Qed.

Lemma construct_filename_convention_witness :
  let a := FilenameArgs "Top.Volantis" (Some "Pre") (Some "what Descr")
             (Some (TInt 20200101)) (Some (TStr "2018A")) (Some "sub")
             1 "../../share/results/" "cube" in
  fmu a = 1%Z /\
  fst (construct_filename a INFO (World WARNING [] (Tree [] ∅)))
  = Ok ("pre--top_volantis--what_descr--2018a_20200101",
        PurePath.mk "" [".."; ".."; "share"; "results"; "cubes"; "sub"]).
Proof.
  intros a. split; [reflexivity|].
  rewrite (proj1 (construct_filename_convention a INFO (World WARNING [] (Tree [] ∅)) eq_refl)).
  reflexivity.
Defined.

(** C2. The returned pair is a function of the arguments [name],
    [pretagname], [tagname], [t1], [t2], [subfolder], [fmu], [outroot] and
    [loc] alone: two calls with equal arguments give equal results whatever
    the verbosity and the state they run in, and the only thing a call
    changes is the level of the logger. *)
Theorem construct_filename_deterministic
    (a : filename_args) (v1 v2 : loglevel) (w1 w2 : world) :
  fst (construct_filename a v1 w1) = fst (construct_filename a v2 w2)
  /\ snd (construct_filename a v1 w1) = setLevel v1 w1
  /\ files (snd (construct_filename a v1 w1)) = files w1
  /\ log_records (snd (construct_filename a v1 w1)) = log_records w1.
Proof.
  destruct (construct_filename_cases a v1 w1) as [S1 R1].
  destruct (construct_filename_cases a v2 w2) as [_ R2].
  rewrite S1. repeat split.
  destruct (Z.eqb_spec (fmu a) 1) as [Hfmu|_]; [|congruence].
  destruct R1 as (s1 & d1 & E1). destruct R2 as (s2 & d2 & E2).
  rewrite E1, E2.
  pose proof (stem_convention a v1 w1 d1 s1 E1 Hfmu).
  pose proof (stem_convention a v2 w2 d2 s2 E2 Hfmu). subst s1 s2.
  do 2 f_equal.
  unfold construct_filename in E1, E2. rewrite Hfmu in E1, E2.
  change (1 =? 1)%Z with true in E1, E2. cbv beta iota zeta in E1, E2.
  cbn [fst] in E1, E2. injection E1 as _ <-. injection E2 as _ <-. reflexivity.
Qed.

(** C9. The call is only defined for [fmu = 1]. With any other [fmu] no
    branch assigns [dest]: the call raises [UnboundLocalError] at its
    [return] and gives back no pair, in particular not the initial stem
    ["unset"] with a destination. *)
Theorem construct_filename_unbound (a : filename_args) (v : loglevel) (w : world) :
  (fmu a <> 1%Z ->
   fst (construct_filename a v w) = Raise (UnboundLocalError "dest")
   /\ forall (stem : string) (dest : Path),
        fst (construct_filename a v w) <> Ok (stem, dest))
  /\ ((exists r, fst (construct_filename a v w) = Ok r) <-> fmu a = 1%Z).
Proof.
  destruct (construct_filename_cases a v w) as [_ Hret].
  destruct (Z.eqb_spec (fmu a) 1) as [E|E].
  - split; [contradiction|]. split; [auto|]. intros _.
    destruct Hret as (s & d & ->). eauto.
  - rewrite Hret. split.
    + intros _. split; [reflexivity | intros s d; discriminate].
    + split; [intros [r H]; discriminate H | contradiction].
Qed.

Lemma construct_filename_unbound_witness :
  let a := FilenameArgs "Volantis" None (Some "tag") None None None
             2 "../../share/results/" "surface" in
  fmu a <> 1%Z /\
  fst (construct_filename a WARNING (World WARNING [] (Tree [] ∅)))
  = Raise (UnboundLocalError "dest").
Proof.
  intros a. split; [discriminate|].
  apply (proj1 (construct_filename_unbound a WARNING (World WARNING [] (Tree [] ∅)))).
  discriminate.
Defined.

(* ===================================================================== *)
(** * Properties of dictionaries *)
(* ===================================================================== *)

Section Dict.

Context {V : Type}.
Implicit Types (d : odict V) (k : string) (v : V).

Lemma dict_get_not_in k d : ~ In k (keys d) -> dict_get k d = None.
Proof.
  induction d as [|[k' v'] r IH]; simpl; [reflexivity|]. intros Hn.
  destruct (String.eqb_spec k k') as [->|_]; [tauto|]. apply IH. tauto.
Qed.

Lemma dict_get_in k d : In k (keys d) -> exists v, dict_get k d = Some v.
Proof.
  induction d as [|[k' v'] r IH]; simpl; [tauto|]. intros Hin.
  destruct (String.eqb_spec k k') as [->|Hne]; [eauto|].
  apply IH. destruct Hin; congruence.
Qed.

Lemma dict_get_some_in k v d : dict_get k d = Some v -> In k (keys d).
Proof.
  induction d as [|[k' v'] r IH]; simpl; [discriminate|].
  destruct (String.eqb_spec k k') as [->|_]; auto.
Qed.

(** A new key goes last. *)
Lemma dict_set_fresh k v d : ~ In k (keys d) -> dict_set k v d = (d ++ [(k, v)])%list.
Proof.
  induction d as [|[k' v'] r IH]; simpl; [reflexivity|]. intros Hn.
  destruct (String.eqb_spec k k') as [->|_]; [tauto|]. rewrite IH; tauto.
Qed.

Lemma dict_get_set_same k v d : dict_get k (dict_set k v d) = Some v.
Proof.
  induction d as [|[k' v'] r IH]; simpl.
  - now rewrite String.eqb_refl.
  - destruct (String.eqb_spec k k') as [->|Hne]; simpl.
    + now rewrite String.eqb_refl.
    + destruct (String.eqb_spec k k'); [contradiction | exact IH].
Qed.

Lemma dict_get_set_other k k' v d :
  k <> k' -> dict_get k (dict_set k' v d) = dict_get k d.
Proof.
  intros Hne. induction d as [|[k0 v0] r IH]; simpl.
  - destruct (String.eqb_spec k k'); [contradiction | reflexivity].
  - destruct (String.eqb_spec k' k0) as [->|Hne0]; simpl.
    + destruct (String.eqb_spec k k0); [contradiction | reflexivity].
    + destruct (String.eqb_spec k k0); [reflexivity | exact IH].
Qed.

Lemma keys_app d1 d2 : keys (d1 ++ d2)%list = (keys d1 ++ keys d2)%list.
Proof. unfold keys. apply List.map_app. Qed.

End Dict.

(* ===================================================================== *)
(** * Properties of [drop_nones] *)
(* ===================================================================== *)

(** [drop_nones] is its loop, started on the empty dictionary. *)
Lemma drop_nones_loop (dinput : odict pyval) :
  drop_nones dinput = fold_left drop_turn dinput [].
Proof.
  unfold drop_nones. cbn [drop_dict].
  generalize (@nil (string * pyval)) as dd.
  induction dinput as [|[key val] rest IH]; intros dd; [reflexivity|].
  cbn [fold_left]. rewrite <- IH. clear IH.
  assert (Hmap : forall l,
    List.map (fun vv => match vv with
                        | VDict _ => VDict (drop_dict vv)
                        | _ => vv
                        end) l = List.map pruned_elem l).
  { intros l. apply List.map_ext. now intros []. }
  unfold drop_turn. destruct val; cbn [is_none snd fst pruned_value];
    rewrite ?Hmap; reflexivity.
Qed.

Lemma keys_pruned_incl (d : odict pyval) (k : string) :
  In k (keys (pruned d)) -> In k (keys d).
Proof.
  induction d as [|[k' v] r IH]; simpl; [tauto|].
  unfold pruned in *. simpl. destruct (is_none v); simpl; tauto.
Qed.

Lemma fold_drop_turn (items dd : odict pyval) :
  List.NoDup (keys dd ++ keys items)%list ->
  fold_left drop_turn items dd = (dd ++ pruned items)%list.
Proof.
  revert dd. induction items as [|[k v] r IH]; intros dd Hnd; simpl.
  - now rewrite List.app_nil_r.
  - unfold drop_turn at 2. unfold pruned. simpl.
    destruct (is_none v) eqn:E; simpl.
    + apply IH. simpl in Hnd. eapply List.NoDup_remove_1; eauto.
    + assert (Hk : ~ In k (keys dd)).
      { simpl in Hnd. apply List.NoDup_remove_2 in Hnd.
        intros Hin. apply Hnd. apply List.in_or_app. now left. }
      rewrite (dict_set_fresh _ _ _ Hk), IH.
      * now rewrite <- List.app_assoc.
      * rewrite keys_app. simpl. rewrite <- List.app_assoc. exact Hnd.
Qed.

Lemma drop_nones_pruned (dinput : odict pyval) :
  dict_wf dinput -> drop_nones dinput = pruned dinput.
Proof.
  intros Hwf. rewrite drop_nones_loop. now apply (fold_drop_turn dinput []).
Qed.

Lemma keys_pruned (d : odict pyval) :
  keys (pruned d) = keys (List.filter (fun kv => negb (is_none (snd kv))) d).
Proof.
  induction d as [|[k v] r IH]; [reflexivity|].
  unfold pruned in *. simpl. destruct (is_none v); simpl; now rewrite IH.
Qed.

Lemma dict_get_pruned (d : odict pyval) (key : string) :
  dict_wf d ->
  dict_get key (pruned d)
  = match dict_get key d with
    | Some val => if is_none val then None else Some (pruned_value val)
    | None => None
    end.
Proof.
  unfold dict_wf. induction d as [|[k v] r IH]; intros Hwf; [reflexivity|].
  simpl in Hwf. apply List.NoDup_cons_iff in Hwf as [Hk Hr].
  unfold pruned in *. simpl.
  destruct (String.eqb_spec key k) as [->|Hne].
  - destruct (is_none v); simpl.
    + apply dict_get_not_in. intros Hin. apply Hk.
      now apply keys_pruned_incl.
    + now rewrite String.eqb_refl.
  - destruct (is_none v); simpl.
    + now apply IH.
    + destruct (String.eqb_spec key k); [contradiction | now apply IH].
Qed.

Lemma pruned_wf (d : odict pyval) : dict_wf d -> dict_wf (pruned d).
Proof.
  unfold dict_wf. rewrite keys_pruned.
  induction d as [|[k v] r IH]; simpl; intros Hwf; [constructor|].
  apply List.NoDup_cons_iff in Hwf as [Hk Hr].
  destruct (is_none v); simpl; [auto|].
  constructor; [|auto]. intros Hin. apply Hk.
  clear -Hin. induction r as [|[k' v'] r IH]; simpl in *; [tauto|].
  destruct (is_none v'); simpl in *; tauto.
Qed.

(** C5. For a dictionary, [drop_nones] returns a new dictionary whose keys
    are exactly the keys of the input whose value is not [None], in their
    order; a nested dictionary is pruned in turn, a list, set or tuple
    keeps its type and has its dictionary elements pruned while its other
    elements, [None] included, stay; any other value is returned
    unchanged. *)
Theorem drop_nones_prunes (dinput : odict pyval) :
  dict_wf dinput ->
  dict_wf (drop_nones dinput)
  /\ keys (drop_nones dinput)
     = keys (List.filter (fun kv => negb (is_none (snd kv))) dinput)
  /\ (forall key, dict_get key dinput = None \/ dict_get key dinput = Some VNone ->
        dict_get key (drop_nones dinput) = None)
  /\ (forall key d, dict_get key dinput = Some (VDict d) ->
        dict_get key (drop_nones dinput) = Some (VDict (drop_nones d)))
  /\ (forall key l, dict_get key dinput = Some (VList l) ->
        dict_get key (drop_nones dinput) = Some (VList (List.map pruned_elem l)))
  /\ (forall key l, dict_get key dinput = Some (VSet l) ->
        dict_get key (drop_nones dinput) = Some (VSet (List.map pruned_elem l)))
  /\ (forall key l, dict_get key dinput = Some (VTuple l) ->
        dict_get key (drop_nones dinput) = Some (VTuple (List.map pruned_elem l)))
  /\ (forall key val, dict_get key dinput = Some val ->
        match val with
        | VBool _ | VInt _ | VFloat _ | VStr _ =>
            dict_get key (drop_nones dinput) = Some val
        | _ => True
        end)
  /\ (forall d, pruned_elem (VDict d) = VDict (drop_nones d))
  /\ (forall vv, (forall d, vv <> VDict d) -> pruned_elem vv = vv)
  /\ pruned_elem VNone = VNone.
Proof.
  intros Hwf. rewrite (drop_nones_pruned _ Hwf).
  split; [now apply pruned_wf|].
  split; [apply keys_pruned|].
  repeat split.
  - intros key [H|H]; rewrite (dict_get_pruned _ _ Hwf), H; reflexivity.
  - intros key d H. now rewrite (dict_get_pruned _ _ Hwf), H.
  - intros key l H. now rewrite (dict_get_pruned _ _ Hwf), H.
  - intros key l H. now rewrite (dict_get_pruned _ _ Hwf), H.
  - intros key l H. now rewrite (dict_get_pruned _ _ Hwf), H.
  - intros key val H. rewrite (dict_get_pruned _ _ Hwf), H.
    now destruct val.
  - intros vv Hvv. destruct vv; try reflexivity. now elim (Hvv items).
Qed.

Lemma drop_nones_prunes_witness :
  let dinput :=
    [ ("a", VNone);
      ("b", VList [VNone; VDict [("x", VNone); ("y", VInt 1)]]);
      ("c", VDict [("d", VNone); ("e", VTuple [VNone])]);
      ("f", VStr "s") ] in
  dict_wf dinput
  /\ keys (drop_nones dinput) = ["b"; "c"; "f"]
  /\ dict_get "b" (drop_nones dinput)
     = Some (VList [VNone; VDict [("y", VInt 1)]]).
Proof.
  intros dinput.
  assert (Hwf : dict_wf dinput).
  { unfold dict_wf. simpl. repeat constructor; simpl; intuition discriminate. }
  split; [exact Hwf|].
  destruct (drop_nones_prunes dinput Hwf) as (_ & Hk & _ & _ & Hl & _).
  split; [rewrite Hk; reflexivity|].
  rewrite (Hl "b" _ eq_refl). reflexivity.
Defined.

(* ===================================================================== *)
(** * Properties of the MD5 hash object and of [md5sum] *)
(* ===================================================================== *)

Lemma absorb_short (h : MD5.quad) (d : list Byte.byte) :
  length d < 64 -> MD5.absorb h d = (h, d).
Proof.
  intros H. rewrite MD5.absorb_equation_1.
  destruct (le_lt_dec 64 (length d)); simpl; [lia|reflexivity].
Qed.

Lemma absorb_block (h : MD5.quad) (d : list Byte.byte) :
  64 <= length d ->
  MD5.absorb h d = MD5.absorb (MD5.compress h (firstn 64 d)) (skipn 64 d).
Proof.
  intros H. rewrite MD5.absorb_equation_1 at 1.
  destruct (le_lt_dec 64 (length d)); simpl; [reflexivity|lia].
Qed.

(** Induction on the length of a byte string. *)
Lemma bytes_length_ind (P : list Byte.byte -> Prop) :
  (forall d, (forall d', length d' < length d -> P d') -> P d) ->
  forall d, P d.
Proof.
  intros step d. remember (length d) as n eqn:Hn. revert d Hn.
  induction n as [n IH] using lt_wf_ind. intros d ->.
  apply step. intros d' Hlt. exact (IH _ Hlt d' eq_refl).
Qed.

(** What is left pending is shorter than a block. *)
Lemma absorb_rest (h : MD5.quad) (d : list Byte.byte) :
  length (snd (MD5.absorb h d)) < 64.
Proof.
  revert h. induction d as [d IH] using bytes_length_ind. intros h.
  destruct (le_lt_dec 64 (length d)) as [Hge|Hlt].
  - rewrite absorb_block by exact Hge. apply IH.
    rewrite length_skipn. lia.
  - now rewrite absorb_short.
Qed.

(** Feeding [a ++ b] is feeding [a] and then [b] after what [a] left. *)
Lemma absorb_app (h : MD5.quad) (a b : list Byte.byte) :
  MD5.absorb h (a ++ b)
  = MD5.absorb (fst (MD5.absorb h a)) (snd (MD5.absorb h a) ++ b).
Proof.
  revert h. induction a as [a IH] using bytes_length_ind. intros h.
  destruct (le_lt_dec 64 (length a)) as [Hge|Hlt].
  - rewrite (absorb_block h a) by exact Hge.
    rewrite (absorb_block h (a ++ b)) by (rewrite length_app; lia).
    rewrite firstn_app, skipn_app.
    replace (64 - length a) with 0 by lia. simpl firstn. simpl skipn.
    rewrite List.app_nil_r. apply IH. rewrite length_skipn. lia.
  - now rewrite (absorb_short h a).
Qed.

Lemma new_wf : hasher_wf MD5.new.
Proof. unfold hasher_wf. simpl. lia. Qed.

Lemma update_wf (s : MD5.hasher) (data : list Byte.byte) :
  hasher_wf (MD5.update s data).
Proof.
  unfold hasher_wf, MD5.update.
  pose proof (absorb_rest (MD5.chain s) (MD5.pending s ++ data)) as H.
  destruct (MD5.absorb _ _) as [h rest]. exact H.
Qed.

Lemma update_nil (s : MD5.hasher) : hasher_wf s -> MD5.update s [] = s.
Proof.
  unfold hasher_wf, MD5.update. intros H.
  rewrite List.app_nil_r, absorb_short by exact H.
  destruct s as [h p n]. simpl. f_equal. lia.
Qed.

(** Two updates are one update with the concatenation. *)
Lemma update_app (s : MD5.hasher) (a b : list Byte.byte) :
  MD5.update (MD5.update s a) b = MD5.update s (a ++ b).
Proof.
  unfold MD5.update.
  rewrite List.app_assoc, (absorb_app (MD5.chain s) (MD5.pending s ++ a) b).
  destruct (MD5.absorb (MD5.chain s) (MD5.pending s ++ a)) as [h rest]. simpl.
  destruct (MD5.absorb h (rest ++ b)) as [h' rest']. f_equal.
  rewrite length_app. lia.
Qed.

Lemma fold_update (chunks : list (list Byte.byte)) (s : MD5.hasher) :
  hasher_wf s ->
  fold_left MD5.update chunks s = MD5.update s (List.concat chunks).
Proof.
  revert s. induction chunks as [|c cs IH]; intros s Hs; simpl.
  - now rewrite update_nil.
  - rewrite IH by apply update_wf. apply update_app.
Qed.

(** The reading loop feeds the whole file. *)
Lemma md5sum_loop_update (fil : fileobj) (hash_md5 : MD5.hasher) :
  hasher_wf hash_md5 -> md5sum_loop fil hash_md5 = MD5.update hash_md5 fil.
Proof.
  revert hash_md5. induction fil as [fil IH] using bytes_length_ind.
  intros s Hs. rewrite md5sum_loop_equation_1.
  unfold md5sum_loop_unfold_clause_1, Logic.inspect.
  destruct fil as [|b r].
  - simpl. now rewrite update_nil.
  - change (fst (fread 4096 (b :: r))) with (b :: firstn 4095 r).
    cbv beta iota.
    change (b :: firstn 4095 r) with (firstn 4096 (b :: r)).
    rewrite IH.
    + rewrite update_app. unfold fread. cbn [snd].
      now rewrite List.firstn_skipn.
    + unfold fread. cbn [snd]. rewrite length_skipn. simpl. lia.
    + apply update_wf.
Qed.

Lemma padding_length (len : nat) :
  exists q, len + length (MD5.padding len) = 64 * q.
Proof.
  unfold MD5.padding. cbn [length]. rewrite length_app, repeat_length.
  change (length (MD5.le64 _)) with 8.
  exists (Z.to_nat (1 - (55 - Z.of_nat len) / 64)).
  pose proof (Z.div_mod (55 - Z.of_nat len) 64 ltac:(lia)) as Hdm.
  pose proof (Z.mod_pos_bound (55 - Z.of_nat len) 64 ltac:(lia)) as Hb.
  lia.
Qed.

(** On a whole number of blocks, absorbing is compressing block after
    block. *)
Lemma absorb_blocks (d : list Byte.byte) (h : MD5.quad) :
  (exists q, length d = 64 * q) ->
  MD5.absorb h d = (fold_left MD5.compress (MD5.blocks d) h, []).
Proof.
  revert h. induction d as [d IH] using bytes_length_ind. intros h [q Hq].
  destruct d as [|b r].
  - rewrite absorb_short by (simpl; lia). now rewrite MD5.blocks_equation_1.
  - assert (Hge : 64 <= length (b :: r)) by (simpl in *; lia).
    rewrite absorb_block by exact Hge.
    rewrite MD5.blocks_equation_2. cbn [fold_left].
    apply IH.
    + rewrite length_skipn. simpl in *. lia.
    + exists (q - 1). rewrite length_skipn. lia.
Qed.

(** The digest of a hash object fed with [data] is the MD5 of [data]. *)
Lemma digest_update (data : list Byte.byte) :
  MD5.digest (MD5.update MD5.new data) = MD5.md5 data.
Proof.
  unfold MD5.digest, MD5.md5, MD5.update, MD5.new. simpl.
  pose proof (absorb_app MD5.iv data (MD5.padding (length data))) as Happ.
  destruct (MD5.absorb MD5.iv data) as [h rest]. simpl in *.
  rewrite <- Happ, absorb_blocks; [reflexivity|].
  rewrite length_app. apply padding_length.
Qed.

(** C6. [md5sum], which reads the file in chunks of 4096 bytes and updates
    the hash with each, returns the hexadecimal MD5 digest of the whole
    contents computed in one step; and so does every other way of cutting
    the contents into chunks. *)
Theorem md5sum_whole_file (fname : string) (w : world) (data : list Byte.byte) :
  OS.open_rb (files w) fname = Ok data ->
  md5sum fname w = Ok (MD5.md5_hex data)
  /\ forall chunks : list (list Byte.byte),
       List.concat chunks = data ->
       MD5.hexdigest (fold_left MD5.update chunks MD5.new) = MD5.md5_hex data.
Proof.
  intros Hfile. split.
  - unfold md5sum. rewrite Hfile. cbv zeta.
    rewrite md5sum_loop_update by apply new_wf.
    unfold MD5.hexdigest, MD5.md5_hex. now rewrite digest_update.
  - intros chunks <-. rewrite fold_update by apply new_wf.
    unfold MD5.hexdigest, MD5.md5_hex. now rewrite digest_update.
Qed.

Lemma md5sum_whole_file_witness :
  let data := repeat Byte.x61 5000 in
  let w := World WARNING [] (Tree [] {[ ["cube.segy"] := Regular data ]}) in
  OS.open_rb (files w) "cube.segy" = Ok data
  /\ md5sum "cube.segy" w = Ok "7aaa7dec709fa4fa82f3746abfd80bdb".
Proof.
  intros data w.
  assert (H : OS.open_rb (files w) "cube.segy" = Ok data) by (vm_compute; reflexivity).
  split; [exact H|].
  rewrite (proj1 (md5sum_whole_file "cube.segy" w data H)).
  vm_compute. reflexivity.
Defined.

(* ===================================================================== *)
(** * Properties of [uuid_from_string] *)
(* ===================================================================== *)

Lemma string_forall_app (p : ascii -> bool) (s1 s2 : string) :
  string_forall p (s1 +:+ s2) = string_forall p s1 && string_forall p s2.
Proof.
  induction s1 as [|c r IH]; simpl; [reflexivity|].
  now rewrite IH, andb_assoc.
Qed.

Lemma string_forall_impl (p q : ascii -> bool) (s : string) :
  (forall c, p c = true -> q c = true) ->
  string_forall p s = true -> string_forall q s = true.
Proof.
  intros Hpq. induction s as [|c r IH]; simpl; [reflexivity|].
  rewrite !andb_true_iff. intros [Hc Hr]. auto.
Qed.

Lemma length_append (s1 s2 : string) :
  String.length (s1 +:+ s2) = String.length s1 + String.length s2.
Proof. induction s1 as [|c r IH]; simpl; [reflexivity | now rewrite IH]. Qed.

(** A string in which the first character of [old] does not occur has
    nothing to replace. *)
Lemma replace_absent (c0 : ascii) (old' new s : string) :
  string_forall (fun x => negb (Ascii.eqb c0 x)) s = true ->
  PyStr.replace (String c0 old') new s = s.
Proof.
  unfold PyStr.replace. induction s as [|x r IH]; simpl; [reflexivity|].
  rewrite andb_true_iff, negb_true_iff. intros [Hx Hr].
  destruct (ascii_dec c0 x) as [->|_].
  - now rewrite Ascii.eqb_refl in Hx.
  - now rewrite IH.
Qed.

Lemma lstrip_absent (chars : ascii -> bool) (s : string) :
  string_forall (fun x => negb (chars x)) s = true -> PyStr.lstrip chars s = s.
Proof.
  destruct s as [|x r]; simpl; [reflexivity|].
  rewrite andb_true_iff, negb_true_iff. now intros [-> _].
Qed.

Lemma rstrip_absent (chars : ascii -> bool) (s : string) :
  string_forall (fun x => negb (chars x)) s = true -> PyStr.rstrip chars s = s.
Proof.
  induction s as [|x r IH]; simpl; [reflexivity|].
  rewrite andb_true_iff, negb_true_iff. intros [Hx Hr].
  rewrite (IH Hr), Hx. now destruct r.
Qed.

(** The hexadecimal digest is made of 32 digits among [0-9a-f]. *)
Lemma hex_byte_lower (b : Byte.byte) :
  string_forall lower_hex (MD5.hex_byte b) = true.
Proof. destruct b; reflexivity. Qed.

Lemma hex_lower (bs : list Byte.byte) :
  string_forall lower_hex (MD5.hex bs) = true.
Proof.
  induction bs as [|b r IH]; cbn [MD5.hex]; [reflexivity|].
  now rewrite string_forall_app, hex_byte_lower, IH.
Qed.

Lemma hex_length (bs : list Byte.byte) :
  String.length (MD5.hex bs) = 2 * length bs.
Proof.
  induction bs as [|b r IH]; cbn [MD5.hex]; [reflexivity|].
  rewrite length_append, IH. cbn [MD5.hex_byte String.length length]. lia.
Qed.

Lemma digest_length (s : MD5.hasher) : length (MD5.digest s) = 16.
Proof. reflexivity. Qed.

Lemma lower_hex_digit (c : ascii) :
  lower_hex c = true ->
  exists d, hex_digit c = Some d /\ (0 <= d < 16)%Z
            /\ Z.of_N (PyStr.code c) = (if (d <? 10)%Z then d + 48 else d + 87)%Z.
Proof.
  unfold lower_hex, hex_digit. intros H.
  set (n := PyStr.code c) in *.
  destruct ((48 <=? n)%N && (n <=? 57)%N) eqn:E1.
  - apply andb_true_iff in E1 as [A B].
    apply N.leb_le in A, B.
    replace ((48 <=? Z.of_N n)%Z && (Z.of_N n <=? 57)%Z) with true
      by (symmetry; apply andb_true_iff; split; apply Z.leb_le; lia).
    exists (Z.of_N n - 48)%Z. split; [reflexivity|]. split; [lia|].
    destruct (Z.ltb_spec (Z.of_N n - 48) 10); lia.
  - simpl in H. apply andb_true_iff in H as [A B].
    apply N.leb_le in A, B.
    replace ((48 <=? Z.of_N n)%Z && (Z.of_N n <=? 57)%Z) with false
      by (symmetry; apply andb_false_iff; right; apply Z.leb_gt; lia).
    replace ((97 <=? Z.of_N n)%Z && (Z.of_N n <=? 102)%Z) with true
      by (symmetry; apply andb_true_iff; split; apply Z.leb_le; lia).
    exists (Z.of_N n - 87)%Z. split; [reflexivity|]. split; [lia|].
    destruct (Z.ltb_spec (Z.of_N n - 87) 10); lia.
Qed.

Lemma lower_hex_digit_inj (c1 c2 : ascii) (d : Z) :
  lower_hex c1 = true -> lower_hex c2 = true ->
  hex_digit c1 = Some d -> hex_digit c2 = Some d -> c1 = c2.
Proof.
  intros L1 L2 H1 H2.
  destruct (lower_hex_digit c1 L1) as (d1 & E1 & _ & C1).
  destruct (lower_hex_digit c2 L2) as (d2 & E2 & _ & C2).
  assert (d1 = d) by congruence. assert (d2 = d) by congruence. subst d1 d2.
  assert (Hc : PyStr.code c1 = PyStr.code c2) by lia.
  unfold PyStr.code in Hc.
  rewrite <- (ascii_N_embedding c1), <- (ascii_N_embedding c2). now rewrite Hc.
Qed.

Lemma int16_from_total (s : string) (acc : Z) :
  string_forall lower_hex s = true -> exists n, int16_from acc s = Some n.
Proof.
  revert acc. induction s as [|c r IH]; simpl; intros acc; [eauto|].
  rewrite andb_true_iff. intros [Hc Hr].
  destruct (lower_hex_digit c Hc) as (d & -> & _). now apply IH.
Qed.

(** Digit strings of one length with one value are one string. *)
Lemma int16_from_inj (s1 s2 : string) (acc1 acc2 n : Z) :
  String.length s1 = String.length s2 ->
  string_forall lower_hex s1 = true -> string_forall lower_hex s2 = true ->
  int16_from acc1 s1 = Some n -> int16_from acc2 s2 = Some n ->
  acc1 = acc2 /\ s1 = s2.
Proof.
  revert s2 acc1 acc2. induction s1 as [|c1 r1 IH]; intros [|c2 r2] acc1 acc2;
    simpl; try discriminate.
  - intros _ _ _ H1 H2. split; congruence.
  - intros Hlen. rewrite !andb_true_iff. intros [L1 M1] [L2 M2].
    destruct (lower_hex_digit c1 L1) as (d1 & E1 & B1 & _).
    destruct (lower_hex_digit c2 L2) as (d2 & E2 & B2 & _).
    rewrite E1, E2. intros H1 H2.
    destruct (IH r2 _ _ ltac:(lia) M1 M2 H1 H2) as [Hacc ->].
    assert (d1 = d2) by lia. assert (acc1 = acc2) by lia. subst.
    split; [reflexivity|]. f_equal.
    eapply lower_hex_digit_inj; eauto.
Qed.

(** On a digest, the constructor of [UUID] has nothing to strip and reads
    the 32 digits as one number. *)
Lemma UUID_of_digest (hx : string) :
  string_forall lower_hex hx = true -> String.length hx = 32 ->
  exists n, int16 hx = Some n /\ UUID_of_hex hx = Ok (mkUUID n).
Proof.
  intros Hhex Hlen. unfold UUID_of_hex.
  assert (Habs : forall q : ascii -> bool,
             (forall c, lower_hex c = true -> q c = true) ->
             string_forall q hx = true).
  { intros q Hq. now apply (string_forall_impl lower_hex). }
  assert (Hnot : forall c0, lower_hex c0 = false ->
             string_forall (fun x => negb (Ascii.eqb c0 x)) hx = true).
  { intros c0 Hc0. apply Habs. intros c Hc. apply negb_true_iff.
    destruct (Ascii.eqb_spec c0 c) as [->|]; congruence. }
  rewrite (replace_absent "u" "rn:" "" hx) by now apply Hnot.
  rewrite (replace_absent "u" "uid:" "" hx) by now apply Hnot.
  unfold PyStr.strip.
  rewrite lstrip_absent, rstrip_absent.
  - rewrite (replace_absent "-" "" "" hx) by now apply Hnot.
    rewrite Hlen. simpl negb. cbv iota.
    destruct (int16_from_total hx 0 Hhex) as [n Hn].
    exists n. unfold int16.
    destruct hx as [|c r]; [discriminate|]. now rewrite Hn.
  - apply Habs. intros c Hc. unfold is_brace. apply negb_true_iff.
    destruct (Ascii.eqb_spec c "{") as [->|]; [discriminate|].
    destruct (Ascii.eqb_spec c "}") as [->|]; [discriminate|]. reflexivity.
  - apply Habs. intros c Hc. unfold is_brace. apply negb_true_iff.
    destruct (Ascii.eqb_spec c "{") as [->|]; [discriminate|].
    destruct (Ascii.eqb_spec c "}") as [->|]; [discriminate|]. reflexivity.
Qed.

Lemma md5_hex_digits (msg : list Byte.byte) :
  string_forall lower_hex (MD5.md5_hex msg) = true
  /\ String.length (MD5.md5_hex msg) = 32.
Proof.
  unfold MD5.md5_hex. split; [apply hex_lower|].
  rewrite hex_length. reflexivity.
Qed.

Lemma hexdigest_md5_hex (data : list Byte.byte) :
  MD5.hexdigest (MD5.update MD5.new data) = MD5.md5_hex data.
Proof. unfold MD5.hexdigest, MD5.md5_hex. now rewrite digest_update. Qed.

(** C7. For every string the call returns the UUID whose number is the
    hexadecimal MD5 digest of the UTF-8 encoding of the string; equal
    strings give equal UUIDs, and strings whose digests differ give
    different UUIDs. *)
Theorem uuid_from_string_digest :
  (forall s : string,
     exists n, int16 (MD5.md5_hex (PyStr.encode_utf8 s)) = Some n
               /\ uuid_from_string s = Ok (mkUUID n))
  /\ (forall s1 s2 : string, s1 = s2 -> uuid_from_string s1 = uuid_from_string s2)
  /\ (forall s1 s2 : string,
        MD5.md5_hex (PyStr.encode_utf8 s1) <> MD5.md5_hex (PyStr.encode_utf8 s2) ->
        uuid_from_string s1 <> uuid_from_string s2).
Proof.
  assert (Hret : forall s : string,
            exists n, int16 (MD5.md5_hex (PyStr.encode_utf8 s)) = Some n
                      /\ uuid_from_string s = Ok (mkUUID n)).
  { intros s. unfold uuid_from_string. rewrite hexdigest_md5_hex.
    destruct (md5_hex_digits (PyStr.encode_utf8 s)) as [Hhex Hlen].
    exact (UUID_of_digest _ Hhex Hlen). }
  split; [exact Hret|]. split; [now intros s1 s2 ->|].
  intros s1 s2 Hne Heq.
  destruct (Hret s1) as (n1 & I1 & U1). destruct (Hret s2) as (n2 & I2 & U2).
  assert (n1 = n2) by congruence. subst n2. apply Hne.
  destruct (md5_hex_digits (PyStr.encode_utf8 s1)) as [Hhex1 Hlen1].
  destruct (md5_hex_digits (PyStr.encode_utf8 s2)) as [Hhex2 Hlen2].
  unfold int16 in I1, I2.
  destruct (MD5.md5_hex (PyStr.encode_utf8 s1)) as [|c1 r1] eqn:E1; [discriminate|].
  destruct (MD5.md5_hex (PyStr.encode_utf8 s2)) as [|c2 r2] eqn:E2; [discriminate|].
  eapply (int16_from_inj _ _ 0%Z 0%Z n1); eauto. congruence.
Qed.

Lemma uuid_from_string_digest_witness :
  uuid_from_string "abc" = Ok (mkUUID 191415658344158766168031473277922803570)
  /\ uuid_from_string "abc" <> uuid_from_string "abd".
Proof.
  split; [vm_compute; reflexivity|].
  apply (proj2 (proj2 uuid_from_string_digest)). vm_compute. discriminate.
Defined.

(* ===================================================================== *)
(** * Properties of splitting and joining *)
(* ===================================================================== *)

Lemma fields_nonempty (p : ascii -> bool) (s : string) : PyStr.fields p s <> [].
Proof.
  destruct s as [|c r]; simpl; [discriminate|].
  destruct (p c); [discriminate|]. now destruct (PyStr.fields p r).
Qed.

(** A string without separator is one field. *)
Lemma fields_no_sep (p : ascii -> bool) (s : string) :
  string_forall (fun c => negb (p c)) s = true -> PyStr.fields p s = [s].
Proof.
  induction s as [|c r IH]; simpl; [reflexivity|].
  rewrite andb_true_iff, negb_true_iff. intros [-> Hr]. now rewrite IH.
Qed.

(** The fields on both sides of a separator. *)
Lemma fields_app_sep (p : ascii -> bool) (s1 s2 : string) (c : ascii) :
  p c = true ->
  PyStr.fields p (s1 +:+ String c s2)
  = (PyStr.fields p s1 ++ PyStr.fields p s2)%list.
Proof.
  intros Hc. induction s1 as [|x r IH]; simpl.
  - now rewrite Hc.
  - rewrite IH. destruct (p x); [reflexivity|].
    pose proof (fields_nonempty p r) as Hne.
    now destruct (PyStr.fields p r).
Qed.

(** Joining the fields gives the string back. *)
Lemma join_fields (c : ascii) (s : string) :
  PyStr.join (String c EmptyString) (PyStr.split_on c s) = s.
Proof.
  unfold PyStr.join, PyStr.split_on. induction s as [|x r IH]; [reflexivity|].
  cbn [PyStr.fields]. pose proof (fields_nonempty (Ascii.eqb c) r) as Hne.
  destruct (PyStr.fields (Ascii.eqb c) r) as [|t ts] eqn:E; [contradiction|].
  destruct (Ascii.eqb_spec c x) as [->|_].
  - change (String.concat (String x "") ("" :: t :: ts))
      with (String x (String.concat (String x "") (t :: ts))).
    now rewrite IH.
  - rewrite <- IH. now destruct ts.
Qed.

Lemma colons_no_sep (s : string) :
  colons s = 0 -> string_forall (fun c => negb (Ascii.eqb ":" c)) s = true.
Proof.
  induction s as [|c r IH]; cbn [colons string_forall]; [reflexivity|].
  unfold is_colon.
  destruct (Ascii.eqb ":" c); cbn [negb andb Nat.add]; [discriminate | exact IH].
Qed.

Lemma fields_length_colons (s : string) :
  length (PyStr.split_on ":" s) = S (colons s).
Proof.
  unfold PyStr.split_on. induction s as [|c r IH]; [reflexivity|].
  cbn [PyStr.fields colons]. unfold is_colon.
  pose proof (fields_nonempty (Ascii.eqb ":") r) as Hne.
  destruct (Ascii.eqb ":" c); cbn [length]; [now rewrite IH|].
  destruct (PyStr.fields (Ascii.eqb ":") r); [contradiction | exact IH].
Qed.

Lemma split_on_no_colon (s : string) :
  colons s = 0 -> PyStr.split_on ":" s = [s].
Proof. intros H. apply fields_no_sep. now apply colons_no_sep. Qed.

(** The fields of a line of two tokens: the fields of the first token,
    then the fields of the second. *)
Lemma line_fields_two (line key value : string) :
  PyStr.split line = [key; value] ->
  line_fields line
  = (PyStr.split_on ":" key ++ PyStr.split_on ":" value)%list.
Proof.
  unfold line_fields, normalize, PyStr.join. intros ->.
  cbn [String.concat]. unfold PyStr.split_on.
  change (key +:+ ":" +:+ value) with (key +:+ String ":" value).
  apply fields_app_sep. reflexivity.
Qed.

(** ** Lines laid out in columns *)

Lemma append_cons (c : ascii) (r s : string) :
  String c r +:+ s = String c (r +:+ s).
Proof. reflexivity. Qed.

Lemma append_nil_l (s : string) : EmptyString +:+ s = s.
Proof. reflexivity. Qed.

Lemma split_leading_blank (c : ascii) (s : string) :
  PyStr.is_space c = true -> PyStr.split (String c s) = PyStr.split s.
Proof.
  intros Hc. unfold PyStr.split. cbn [PyStr.fields]. now rewrite Hc.
Qed.

Lemma split_leading_blanks (lead s : string) :
  string_forall PyStr.is_space lead = true ->
  PyStr.split (lead +:+ s) = PyStr.split s.
Proof.
  induction lead as [|c r IH]; cbn [string_forall]; [reflexivity|].
  rewrite andb_true_iff. intros [Hc Hr].
  now rewrite append_cons, split_leading_blank, IH.
Qed.

Lemma append_nil_r (s : string) : s +:+ EmptyString = s.
Proof.
  induction s as [|c r IH]; [reflexivity | now rewrite append_cons, IH].
Qed.

Lemma split_blank (lead : string) :
  string_forall PyStr.is_space lead = true -> PyStr.split lead = [].
Proof.
  intros H. rewrite <- (append_nil_r lead).
  now rewrite split_leading_blanks by exact H.
Qed.

(** A string without separator in front of [s] goes into the first field
    of [s]. *)
Lemma fields_token_app (p : ascii -> bool) (token s : string) :
  string_forall (fun c => negb (p c)) token = true ->
  PyStr.fields p (token +:+ s)
  = match PyStr.fields p s with
    | h :: tl => (token +:+ h) :: tl
    | [] => [token]
    end.
Proof.
  induction token as [|x r IH]; cbn [string_forall].
  - intros _. rewrite append_nil_l.
    pose proof (fields_nonempty p s) as Hne.
    now destruct (PyStr.fields p s).
  - rewrite andb_true_iff, negb_true_iff. intros [Hx Hr].
    rewrite append_cons. cbn [PyStr.fields]. rewrite Hx, (IH Hr).
    pose proof (fields_nonempty p s) as Hne.
    now destruct (PyStr.fields p s).
Qed.

(** A token followed by nothing or by a blank is the first token of the
    line. *)
Lemma split_token (token s : string) :
  is_token token = true ->
  match s with
  | EmptyString => True
  | String c _ => PyStr.is_space c = true
  end ->
  PyStr.split (token +:+ s) = token :: PyStr.split s.
Proof.
  unfold is_token. rewrite andb_true_iff. intros [Hne Htok] Hs.
  unfold PyStr.split. rewrite (fields_token_app _ _ _ Htok).
  destruct s as [|c s'].
  - cbn [PyStr.fields List.filter]. rewrite append_nil_r.
    now destruct token.
  - cbn [PyStr.fields]. rewrite Hs. cbn [List.filter PyStr.nonempty].
    rewrite append_nil_r. now destruct token.
Qed.

(** The tokens of a line laid out in columns are its tokens, whatever the
    blanks in front and between the columns. *)
Lemma split_justify (lead : string) (cols : list (string * string)) :
  string_forall PyStr.is_space lead = true -> layout cols = true ->
  PyStr.split (justify lead cols) = List.map fst cols.
Proof.
  revert lead. induction cols as [|[token gap] rest IH]; intros lead Hlead Hcols.
  - now apply split_blank.
  - cbn [layout] in Hcols. rewrite !andb_true_iff in Hcols.
    destruct Hcols as [[[Htok Hgap] Hsep] Hrest].
    cbn [justify List.map fst]. rewrite split_leading_blanks by exact Hlead.
    rewrite split_token, IH; auto.
    destruct rest as [|col rest'].
    + cbn [justify]. destruct gap as [|c g]; [exact I|].
      cbn [string_forall] in Hgap. now apply andb_true_iff in Hgap as [Hc _].
    + destruct gap as [|c g]; [discriminate Hsep|].
      destruct col as [token' gap']. cbn [justify]. rewrite append_cons.
      cbn [string_forall] in Hgap. now apply andb_true_iff in Hgap as [Hc _].
Qed.

(* ===================================================================== *)
(** * Properties of [read_parameters_txt] *)
(* ===================================================================== *)

Section ParametersProperties.

Variable py_int : string -> option Z.
Variable py_float : string -> option pyfloat.

#[local] Abbreviation check_if_number := (check_if_number py_int py_float).
#[local] Abbreviation param_step := (param_step py_int py_float).
#[local] Abbreviation param_loop := (param_loop py_int py_float).
#[local] Abbreviation read_parameters_txt := (read_parameters_txt py_int py_float).

Lemma read_parameters_txt_loop (text : string) :
  read_parameters_txt text
  = param_loop (List.map normalize (PyStr.splitlines text)) [].
Proof. reflexivity. Qed.

(** C4. Two files whose corresponding lines have the same sequences of
    blank-separated tokens are read as equal dictionaries (or raise the
    same error); and two lines with the same tokens in columns have the
    same sequence of tokens, whatever the blanks in front and the number
    and kind of blanks between the columns. *)
Theorem read_parameters_txt_whitespace (text1 text2 : string) :
  List.map PyStr.split (PyStr.splitlines text1)
  = List.map PyStr.split (PyStr.splitlines text2) ->
  read_parameters_txt text1 = read_parameters_txt text2
  /\ forall lead1 lead2 cols1 cols2,
       string_forall PyStr.is_space lead1 = true ->
       string_forall PyStr.is_space lead2 = true ->
       layout cols1 = true -> layout cols2 = true ->
       List.map fst cols1 = List.map fst cols2 ->
       PyStr.split (justify lead1 cols1) = PyStr.split (justify lead2 cols2).
Proof.
  intros Htokens. split.
  - rewrite !read_parameters_txt_loop. f_equal. unfold normalize.
    rewrite <- (List.map_map PyStr.split (PyStr.join ":") (PyStr.splitlines text1)).
    rewrite <- (List.map_map PyStr.split (PyStr.join ":") (PyStr.splitlines text2)).
    now rewrite Htokens.
  - intros lead1 lead2 cols1 cols2 H1 H2 L1 L2 Hcols.
    now rewrite !split_justify, Hcols.
Qed.

(** Whether a turn of the loop raises [RuntimeError] is a matter of the
    number of fields alone. *)
Lemma param_step_runtime_error (param : odict pyval) (line : string) :
  is_runtime_error (param_step param (normalize line)) = bad_line line.
Proof.
  unfold param_step, bad_line, line_fields.
  destruct (PyStr.split_on ":" (normalize line)) as [|a [|b [|c [|d r]]]];
    try reflexivity.
  destruct (dict_get a _) as [[]|]; reflexivity.
Qed.

Lemma param_loop_runtime_error (lines : list string) (param : odict pyval) :
  is_runtime_error (param_loop (List.map normalize lines) param) = true ->
  exists line, In line lines /\ bad_line line = true.
Proof.
  revert param. induction lines as [|line rest IH]; intros param; simpl.
  - discriminate.
  - pose proof (param_step_runtime_error param line) as Hstep.
    destruct (param_step param (normalize line)) as [param'|e].
    + intros H. destruct (IH _ H) as (l & Hin & Hbad). eauto.
    + intros H. exists line. split; [now left|]. now rewrite <- Hstep.
Qed.

(** What a turn of the loop raises is its [RuntimeError], or the
    [TypeError] of the item assignment. *)
Lemma param_step_raise (param : odict pyval) (line : string) (e : exn) :
  param_step param line = Raise e ->
  (exists msg, e = RuntimeError msg) \/ (exists msg, e = TypeError msg).
Proof.
  unfold param_step.
  destruct (PyStr.split_on ":" line) as [|a [|b [|c [|d r]]]];
    try (intros [= <-]; now eauto).
  destruct (dict_get a _) as [[]|]; intros [= <-]; eauto.
Qed.

Lemma param_loop_raise (lines : list string) (param : odict pyval) (e : exn) :
  param_loop lines param = Raise e ->
  (exists msg, e = RuntimeError msg) \/ (exists msg, e = TypeError msg).
Proof.
  revert param. induction lines as [|l rest IH]; intros param; simpl; [discriminate|].
  destruct (param_step param l) as [param'|e0] eqn:E; [apply IH|].
  intros [= <-]. exact (param_step_raise _ _ _ E).
Qed.

Lemma param_loop_bad_line (lines : list string) (param : odict pyval) (line : string) :
  In line lines -> bad_line line = true ->
  exists e, param_loop (List.map normalize lines) param = Raise e
            /\ ((exists msg, e = RuntimeError msg) \/ (exists msg, e = TypeError msg)).
Proof.
  intros Hin Hbad.
  assert (H : exists e, param_loop (List.map normalize lines) param = Raise e).
  { revert param. induction lines as [|l rest IH]; intros param; simpl; [now elim Hin|].
    destruct Hin as [->|Hin].
    - pose proof (param_step_runtime_error param line) as Hstep.
      rewrite Hbad in Hstep.
      destruct (param_step param (normalize line)); [discriminate | eauto].
    - destruct (param_step param (normalize l)); [now apply IH | eauto]. }
  destruct H as [e He]. exists e. split; [exact He|]. exact (param_loop_raise _ _ _ He).
Qed.

(** A blank line has one empty field. *)
Lemma blank_line_fields (line : string) :
  string_forall PyStr.is_space line = true -> line_fields line = [EmptyString].
Proof.
  intros Hblank. unfold line_fields, normalize, PyStr.split.
  replace (List.filter PyStr.nonempty (PyStr.fields PyStr.is_space line))
    with (@nil string); [reflexivity|].
  induction line as [|c r IH]; [reflexivity|].
  simpl in Hblank. apply andb_true_iff in Hblank as [Hc Hr].
  cbn [PyStr.fields]. rewrite Hc. cbn [List.filter PyStr.nonempty]. now apply IH.
Qed.

Lemma dict_set_set {V} (k : string) (v v' : V) (d : odict V) :
  dict_set k v (dict_set k v' d) = dict_set k v d.
Proof.
  induction d as [|[k0 v0] r IH]; cbn [dict_set].
  - now rewrite String.eqb_refl.
  - destruct (String.eqb k k0) eqn:E; cbn [dict_set].
    + now rewrite String.eqb_refl.
    + now rewrite E, IH.
Qed.

Lemma colons_app (s1 s2 : string) : colons (s1 +:+ s2) = colons s1 + colons s2.
Proof.
  induction s1 as [|c r IH]; [now rewrite append_nil_l|].
  rewrite append_cons. cbn [colons]. rewrite IH. lia.
Qed.

(** The fields of a line of three tokens: as many as there are colons in
    the tokens, and three. *)
Lemma three_tokens_fields (line a b c : string) :
  PyStr.split line = [a; b; c] ->
  length (line_fields line) = 3 + (colons a + colons b + colons c).
Proof.
  intros Hsplit. unfold line_fields, normalize. rewrite Hsplit.
  rewrite fields_length_colons. cbn [PyStr.join String.concat].
  rewrite !colons_app. cbn [colons]. unfold is_colon.
  change (Ascii.eqb ":" ":") with true. cbv iota. lia.
Qed.

(** C10, as amended. A turn of the loop raises [RuntimeError] exactly for
    a line whose tokens, joined with [":"], split into fewer than two or
    more than three fields, and the call raises it only for a file with
    such a line and returns no dictionary for such a file. In particular a
    blank line and a line with a single token without colon raise it, and
    so does a line of three tokens with a colon in one of them. A line of
    three tokens [A B C] without colon is not refused as such: it is taken
    as the nested entry of [B] under [A] when [A] is not yet a key or
    holds a dictionary, which keeps its other entries, and it raises
    [TypeError] when [A] holds a number or a string. *)
Theorem read_parameters_txt_runtime_error :
  (forall param line,
     is_runtime_error (param_step param (normalize line)) = bad_line line)
  /\ (forall text,
        is_runtime_error (read_parameters_txt text) = true ->
        exists line, In line (PyStr.splitlines text) /\ bad_line line = true)
  /\ (forall text line,
        In line (PyStr.splitlines text) -> bad_line line = true ->
        exists e,
          read_parameters_txt text = Raise e
          /\ ((exists msg, e = RuntimeError msg) \/ (exists msg, e = TypeError msg)))
  /\ (forall line,
        string_forall PyStr.is_space line = true -> bad_line line = true)
  /\ (forall line token,
        PyStr.split line = [token] -> colons token = 0 -> bad_line line = true)
  /\ (forall line a b c,
        PyStr.split line = [a; b; c] ->
        bad_line line = negb (colons a + colons b + colons c =? 0)%nat)
  /\ (forall param line a b c,
        PyStr.split line = [a; b; c] ->
        colons a = 0 -> colons b = 0 -> colons c = 0 ->
        match dict_get a param with
        | None =>
            param_step param (normalize line)
            = Ok (dict_set a (VDict [(b, check_if_number c)]) param)
        | Some (VDict sub) =>
            param_step param (normalize line)
            = Ok (dict_set a (VDict (dict_set b (check_if_number c) sub)) param)
        | Some _ =>
            exists msg, param_step param (normalize line) = Raise (TypeError msg)
        end)
  /\ (forall text line a b c,
        PyStr.splitlines text = [line] -> PyStr.split line = [a; b; c] ->
        colons a = 0 -> colons b = 0 -> colons c = 0 ->
        read_parameters_txt text = Ok [(a, VDict [(b, check_if_number c)])]).
Proof.
  assert (Hthree : forall param line a b c,
            PyStr.split line = [a; b; c] ->
            colons a = 0 -> colons b = 0 -> colons c = 0 ->
            match dict_get a param with
            | None =>
                param_step param (normalize line)
                = Ok (dict_set a (VDict [(b, check_if_number c)]) param)
            | Some (VDict sub) =>
                param_step param (normalize line)
                = Ok (dict_set a (VDict (dict_set b (check_if_number c) sub)) param)
            | Some _ =>
                exists msg, param_step param (normalize line) = Raise (TypeError msg)
            end).
  { intros param line a b c Hsplit Ha Hb Hc.
    unfold param_step, normalize. rewrite Hsplit.
    cbn [PyStr.join String.concat]. unfold PyStr.split_on.
    change (a +:+ ":" +:+ b +:+ ":" +:+ c) with (a +:+ String ":" (b +:+ String ":" c)).
    rewrite !fields_app_sep by reflexivity.
    fold (PyStr.split_on ":" a) (PyStr.split_on ":" b) (PyStr.split_on ":" c).
    rewrite !split_on_no_colon by assumption. cbn [app].
    unfold dict_mem. destruct (dict_get a param) as [v|] eqn:Hget; cbn [negb].
    - rewrite Hget. destruct v; eauto.
    - rewrite dict_get_set_same. f_equal. apply dict_set_set. }
  split; [exact param_step_runtime_error|].
  split; [intros text; rewrite read_parameters_txt_loop;
          apply param_loop_runtime_error|].
  split; [intros text line; rewrite read_parameters_txt_loop;
          apply param_loop_bad_line|].
  split.
  { intros line Hblank. unfold bad_line. now rewrite blank_line_fields. }
  split.
  { intros line token Hsplit Hc. unfold bad_line, line_fields, normalize.
    rewrite Hsplit. cbn [PyStr.join String.concat].
    now rewrite split_on_no_colon. }
  split.
  { intros line a b c Hsplit. unfold bad_line.
    rewrite (three_tokens_fields line a b c Hsplit).
    destruct (colons a + colons b + colons c) as [|n]; reflexivity. }
  split; [exact Hthree|].
  intros text line a b c Hl Hsplit Ha Hb Hc.
  rewrite read_parameters_txt_loop, Hl. cbn [List.map param_loop].
  pose proof (Hthree [] line a b c Hsplit Ha Hb Hc) as H. cbn [dict_get] in H.
  now rewrite H.
Qed.

(** ** Files of key and value lines *)

Lemma param_loop_app (l1 l2 : list string) (param : odict pyval) :
  param_loop (l1 ++ l2) param
  = match param_loop l1 param with
    | Ok param' => param_loop l2 param'
    | Raise e => Raise e
    end.
Proof.
  revert param. induction l1 as [|l r IH]; intros param; simpl; [reflexivity|].
  destruct (param_step param l); [apply IH | reflexivity].
Qed.

Lemma check_if_number_not_dict (value : string) (sub : odict pyval) :
  check_if_number value <> VDict sub.
Proof.
  unfold check_if_number.
  destruct (py_int value); [discriminate|].
  destruct (py_float value); discriminate.
Qed.

(** The fields of an entry line: the fields of its key, then its value. *)
Lemma entry_fields (line key value : string) :
  PyStr.split line = [key; value] -> colons value = 0 ->
  PyStr.split_on ":" (normalize line) = (PyStr.split_on ":" key ++ [value])%list.
Proof.
  intros Hsplit Hv. fold (line_fields line).
  now rewrite (line_fields_two _ _ _ Hsplit), (split_on_no_colon value Hv).
Qed.

Lemma line_key_split (line key value : string) :
  PyStr.split line = [key; value] -> line_key line = key.
Proof. unfold line_key. now intros ->. Qed.

Lemma key_top_plain (key : string) : colons key = 0 -> key_top key = key.
Proof. intros H. unfold key_top. now rewrite split_on_no_colon. Qed.

Lemma key_top_nested (key p n : string) :
  PyStr.split_on ":" key = [p; n] -> key_top key = p /\ colons key = 1.
Proof.
  intros H. unfold key_top. rewrite H. split; [reflexivity|].
  pose proof (fields_length_colons key) as L. rewrite H in L. simpl in L. lia.
Qed.

Lemma one_colon_fields (key : string) :
  colons key = 1 -> exists p n, PyStr.split_on ":" key = [p; n].
Proof.
  intros H. pose proof (fields_length_colons key) as L. rewrite H in L.
  destruct (PyStr.split_on ":" key) as [|p [|n [|x r]]]; try discriminate.
  eauto.
Qed.

Lemma split_on_inj (k1 k2 : string) :
  PyStr.split_on ":" k1 = PyStr.split_on ":" k2 -> k1 = k2.
Proof.
  intros H. rewrite <- (join_fields ":" k1), <- (join_fields ":" k2).
  now rewrite H.
Qed.

(** A turn of the loop on an entry line whose key has no colon. *)
Lemma param_step_plain (param : odict pyval) (line key value : string) :
  PyStr.split line = [key; value] -> colons key = 0 -> colons value = 0 ->
  param_step param (normalize line)
  = Ok (dict_set key (check_if_number value) param).
Proof.
  intros Hsplit Hk Hv. unfold param_step.
  rewrite (entry_fields _ _ _ Hsplit Hv), (split_on_no_colon key Hk).
  reflexivity.
Qed.

(** A turn of the loop on an entry line with a key [p:n], when the
    dictionary has nothing or a dictionary under [p]. *)
Lemma param_step_nested (param : odict pyval) (line key value p n : string) :
  PyStr.split line = [key; value] -> colons value = 0 ->
  PyStr.split_on ":" key = [p; n] ->
  (forall x, dict_get p param = Some x -> exists sub, x = VDict sub) ->
  exists sub param1,
    param_step param (normalize line)
    = Ok (dict_set p (VDict (dict_set n (check_if_number value) sub)) param1)
    /\ (forall k, k <> p -> dict_get k param1 = dict_get k param)
    /\ (forall sub0, dict_get p param = Some (VDict sub0) ->
          sub = sub0 /\ param1 = param).
Proof.
  intros Hsplit Hv Hkey Hdict. unfold param_step.
  rewrite (entry_fields _ _ _ Hsplit Hv), Hkey. cbn [app].
  unfold dict_mem. destruct (dict_get p param) as [x|] eqn:E.
  - destruct (Hdict x eq_refl) as [sub ->]. cbn [negb]. rewrite E.
    exists sub, param. split; [reflexivity|]. split; [reflexivity|].
    intros sub0 H. injection H as <-. now split.
  - cbn [negb]. rewrite dict_get_set_same.
    exists [], (dict_set p (VDict []) param). split; [reflexivity|].
    split; [intros k Hne; now apply dict_get_set_other | discriminate].
Qed.

Lemma snoc_split (lines l1 l2 : list string) (last line : string) :
  (lines ++ [last])%list = (l1 ++ line :: l2)%list ->
  (l2 = [] /\ l1 = lines /\ line = last)
  \/ (exists l2', l2 = (l2' ++ [last])%list /\ lines = (l1 ++ line :: l2')%list).
Proof.
  intros H. induction l2 as [|x l2' _] using List.rev_ind.
  - left. apply List.app_inj_tail in H as [-> ->]. auto.
  - right. exists l2'.
    change (l1 ++ line :: l2' ++ [x])%list
      with (l1 ++ (line :: l2') ++ [x])%list in H.
    rewrite List.app_assoc in H. apply List.app_inj_tail in H as [-> ->]. auto.
Qed.

Lemma no_clash_prefix (lines : list string) (last : string) :
  no_clash (lines ++ [last]) -> no_clash lines.
Proof.
  intros H l1 a l2 b l3 ->. apply (H l1 a l2 b (l3 ++ [last])%list).
  now rewrite <- !List.app_assoc, <- !List.app_comm_cons, <- !List.app_assoc.
Qed.

(** With the last line [last] of key [klast], no earlier line has its
    colon-free key equal to [p] when [klast] is [p:n]. *)
Lemma no_clash_last (lines : list string) (last line p n : string) :
  no_clash (lines ++ [last]) -> In line lines ->
  PyStr.split_on ":" (line_key last) = [p; n] ->
  colons (line_key line) = 0 -> line_key line <> p.
Proof.
  intros Hnc Hin Hkey Hplain Heq.
  apply List.in_split in Hin as (l1 & l2 & ->).
  apply (Hnc l1 line l2 last []).
  - now rewrite <- List.app_assoc, <- List.app_comm_cons.
  - destruct (key_top_nested _ _ _ Hkey) as [Htop Hone].
    unfold clash. rewrite Htop. auto.
Qed.

(** The loop over a file of entry lines without clash: it ends with a
    dictionary in which every line that is not overridden has its entry. *)
Lemma param_loop_entries (lines : list string) :
  Forall entry_line lines -> no_clash lines ->
  exists param,
    param_loop (List.map normalize lines) [] = Ok param
    /\ plain_origin lines param
    /\ entries_hold py_int py_float lines param.
Proof.
  induction lines as [|last lines IH] using List.rev_ind; intros Hall Hnc.
  - exists []. split; [reflexivity|]. split.
    + intros k x H. discriminate H.
    + intros l1 line l2 key value H. now destruct l1.
  - apply List.Forall_app in Hall as [Hall Hlast].
    apply List.Forall_inv in Hlast. destruct Hlast as (key & value & Hsplit & Hk & Hv).
    destruct (IH Hall (no_clash_prefix _ _ Hnc)) as (param & Hloop & Hplain & Hhold).
    rewrite List.map_app, param_loop_app, Hloop. cbn [List.map param_loop].
    pose proof (line_key_split _ _ _ Hsplit) as Hlk.
    destruct (Nat.eq_dec (colons key) 0) as [Hk0|Hk0].
    + (* a key without colon *)
      rewrite (param_step_plain param last key value Hsplit Hk0 Hv).
      eexists. split; [reflexivity|]. split.
      * intros k x Hget Hnd.
        destruct (String.eqb_spec k key) as [->|Hne].
        -- exists last. rewrite List.in_app_iff. simpl. auto.
        -- rewrite dict_get_set_other in Hget by exact Hne.
           destruct (Hplain k x Hget Hnd) as (l & Hin & Hl).
           exists l. rewrite List.in_app_iff. auto.
      * intros l1 line l2 key' value' Hdec Hsplit' Hlater.
        apply snoc_split in Hdec as [(-> & -> & ->)|(l2' & -> & ->)].
        -- rewrite Hsplit in Hsplit'. injection Hsplit' as <- <-. split.
           ++ intros _. apply dict_get_set_same.
           ++ intros prefix nm Hf. destruct (key_top_nested _ _ _ Hf). lia.
        -- assert (Hno : ~ overrides last line).
           { apply Hlater. rewrite List.in_app_iff. simpl. auto. }
           assert (Hh : holds_entry py_int py_float param key' value').
           { apply (Hhold l1 line l2' key' value' eq_refl Hsplit').
             intros later Hin. apply Hlater. rewrite List.in_app_iff. auto. }
           unfold overrides in Hno. rewrite Hlk in Hno.
           rewrite (line_key_split _ _ _ Hsplit') in Hno.
           destruct Hh as [Hp Hn]. split.
           ++ intros Hc. rewrite dict_get_set_other; [now apply Hp|].
              intros ->. tauto.
           ++ intros prefix nm Hf.
              destruct (Hn prefix nm Hf) as (sub & Hsub & Hnm).
              exists sub. split; [|exact Hnm].
              rewrite dict_get_set_other; [exact Hsub|].
              destruct (key_top_nested _ _ _ Hf) as [Htop _].
              intros <-. rewrite Htop in Hno. tauto.
    + (* a key with one colon *)
      assert (Hk1 : colons key = 1) by lia.
      destruct (one_colon_fields key Hk1) as (p & n & Hf).
      assert (Hdict : forall x, dict_get p param = Some x -> exists sub, x = VDict sub).
      { intros x Hget. destruct x; try (now eauto); exfalso;
          (destruct (Hplain p _ Hget ltac:(discriminate)) as (l & Hin & Hl & Hc);
           apply (no_clash_last lines last l p n Hnc Hin);
           [now rewrite Hlk | now rewrite Hl | exact Hl]). }
      destruct (param_step_nested param last key value p n Hsplit Hv Hf Hdict)
        as (sub & param1 & -> & Hother & Hsame).
      eexists. split; [reflexivity|]. split.
      * intros k x Hget Hnd.
        destruct (String.eqb_spec k p) as [->|Hne].
        -- rewrite dict_get_set_same in Hget. injection Hget as <-.
           now elim (Hnd (dict_set n (check_if_number value) sub)).
        -- rewrite dict_get_set_other, Hother in Hget by exact Hne.
           destruct (Hplain k x Hget Hnd) as (l & Hin & Hl).
           exists l. rewrite List.in_app_iff. auto.
      * intros l1 line l2 key' value' Hdec Hsplit' Hlater.
        apply snoc_split in Hdec as [(-> & -> & ->)|(l2' & -> & ->)].
        -- rewrite Hsplit in Hsplit'. injection Hsplit' as <- <-. split.
           ++ intros Hc. lia.
           ++ intros prefix nm Hf'. rewrite Hf in Hf'. injection Hf' as <- <-.
              eexists. split; [apply dict_get_set_same|].
              apply dict_get_set_same.
        -- assert (Hno : ~ overrides last line).
           { apply Hlater. rewrite List.in_app_iff. simpl. auto. }
           assert (Hh : holds_entry py_int py_float param key' value').
           { apply (Hhold l1 line l2' key' value' eq_refl Hsplit').
             intros later Hin. apply Hlater. rewrite List.in_app_iff. auto. }
           pose proof (line_key_split _ _ _ Hsplit') as Hlk'.
           unfold overrides in Hno. rewrite Hlk, Hlk' in Hno.
           destruct Hh as [Hp Hn]. split.
           ++ intros Hc.
              assert (Hne : key' <> p).
              { rewrite <- Hlk'.
                apply (no_clash_last (l1 ++ line :: l2') last line p n Hnc).
                - rewrite List.in_app_iff. simpl. auto.
                - now rewrite Hlk.
                - now rewrite Hlk'. }
              rewrite dict_get_set_other, Hother by exact Hne. now apply Hp.
           ++ intros prefix nm Hf'.
              destruct (Hn prefix nm Hf') as (sub' & Hsub & Hnm).
              destruct (String.eqb_spec prefix p) as [->|Hne].
              ** destruct (Hsame sub' Hsub) as [-> ->].
                 eexists. split; [apply dict_get_set_same|].
                 rewrite dict_get_set_other; [exact Hnm|].
                 intros ->. apply Hno. left. apply split_on_inj. congruence.
              ** exists sub'. split; [|exact Hnm].
                 now rewrite dict_get_set_other, Hother by exact Hne.
Qed.

(** C3, as amended. For a file whose every line is a key token with at
    most one colon followed by a value token without colon, and in which
    no ['PREFIX:NAME'] line comes after a line whose key is that [PREFIX]
    alone, the call returns a dictionary in which, for every line that no
    later line overrides, a key without colon maps to its value and a key
    ['PREFIX:NAME'] maps to the nested entry; the value is the [int] when
    the token converts to one, else the [float] when it converts to one,
    else the token itself. *)
Theorem read_parameters_txt_entries (text : string) :
  Forall entry_line (PyStr.splitlines text) ->
  no_clash (PyStr.splitlines text) ->
  (exists param,
     read_parameters_txt text = Ok param
     /\ entries_hold py_int py_float (PyStr.splitlines text) param)
  /\ (forall value n, py_int value = Some n -> check_if_number value = VInt n)
  /\ (forall value f,
        py_int value = None -> py_float value = Some f ->
        check_if_number value = VFloat f)
  /\ (forall value,
        py_int value = None -> py_float value = None ->
        check_if_number value = VStr value).
Proof.
  intros Hall Hnc. split.
  - destruct (param_loop_entries _ Hall Hnc) as (param & Hloop & _ & Hhold).
    exists param. split; [|exact Hhold]. now rewrite read_parameters_txt_loop.
  - unfold check_if_number.
    split; [intros value n ->; reflexivity|].
    split; [intros value f -> ->; reflexivity|].
    intros value -> ->. reflexivity.
Qed.

End ParametersProperties.

Lemma read_parameters_txt_whitespace_witness :
  let LF := String PyStr.LF EmptyString in
  let HT := String (ascii_of_N 9) EmptyString in
  let plain :=
    "SENSNAME rms_seed" +:+ LF +:+ "RMS_SEED 1000" +:+ LF
    +:+ "GLOBVAR:VOLON_PERMH_CHANNEL 1100" +:+ LF in
  let justified :=
    "                   SENSNAME     rms_seed" +:+ LF
    +:+ "                   RMS_SEED" +:+ HT +:+ HT +:+ "1000" +:+ LF
    +:+ "    GLOBVAR:VOLON_PERMH_CHANNEL    1100" in
  List.map PyStr.split (PyStr.splitlines plain)
  = List.map PyStr.split (PyStr.splitlines justified)
  /\ read_parameters_txt PyNum.int PyNum.float justified
     = Ok [ ("SENSNAME", VStr "rms_seed"); ("RMS_SEED", VInt 1000);
            ("GLOBVAR", VDict [("VOLON_PERMH_CHANNEL", VInt 1100)]) ].
Proof.
  intros LF HT plain justified.
  assert (H : List.map PyStr.split (PyStr.splitlines plain)
              = List.map PyStr.split (PyStr.splitlines justified))
    by (vm_compute; reflexivity).
  split; [exact H|].
  rewrite <- (proj1 (read_parameters_txt_whitespace PyNum.int PyNum.float _ _ H)).
  vm_compute. reflexivity.
Defined.

(** The claim C10 as stated fails on a single token with a colon: the
    line [A:B] is read as the entry [A] with value [B]. *)
Lemma single_token_accepted :
  ~ (forall line, single_token_refused PyNum.int PyNum.float line).
Proof.
  intros H. specialize (H "A:B" "A:B" eq_refl). vm_compute in H. discriminate H.
Qed.

Lemma read_parameters_txt_runtime_error_witness :
  string_forall PyStr.is_space "   " = true
  /\ bad_line "   " = true
  /\ is_runtime_error (read_parameters_txt PyNum.int PyNum.float "   ") = true
  /\ read_parameters_txt PyNum.int PyNum.float "A B C"
     = Ok [("A", VDict [("B", VStr "C")])]
  /\ is_runtime_error (read_parameters_txt PyNum.int PyNum.float "A:X B C") = true
  /\ read_parameters_txt PyNum.int PyNum.float
       ("A 1" +:+ String PyStr.LF "A B C")
     = Raise (TypeError "object does not support item assignment")
  /\ read_parameters_txt PyNum.int PyNum.float
       ("A:X 1" +:+ String PyStr.LF "A B C")
     = Ok [("A", VDict [("X", VInt 1); ("B", VStr "C")])].
Proof.
  split; [reflexivity|].
  split; [|split; [|split; [|split; [|split]]]; vm_compute; reflexivity].
  apply (read_parameters_txt_runtime_error PyNum.int PyNum.float). reflexivity.
Defined.

(** ** Deciding the conditions on a file *)

Lemma entry_lineb_sound (line : string) :
  entry_lineb line = true -> entry_line line.
Proof.
  unfold entry_lineb, entry_line.
  destruct (PyStr.split line) as [|key [|value [|x r]]]; try discriminate.
  rewrite andb_true_iff, Nat.leb_le, Nat.eqb_eq. eauto.
Qed.

Lemma entry_lines_sound (lines : list string) :
  forallb entry_lineb lines = true -> Forall entry_line lines.
Proof.
  rewrite forallb_forall, List.Forall_forall.
  intros H line Hin. apply entry_lineb_sound. now apply H.
Qed.

Lemma clashb_complete (a b : string) : clash a b -> clashb a b = true.
Proof.
  unfold clash, clashb. intros (-> & -> & ->). now rewrite String.eqb_refl.
Qed.

Lemma no_clashb_sound (lines : list string) :
  no_clashb lines = true -> no_clash lines.
Proof.
  induction lines as [|x rest IH]; intros H l1 a l2 b l3 Hdec Hclash.
  - now destruct l1.
  - cbn [no_clashb] in H. apply andb_true_iff in H as [Hx Hrest].
    destruct l1 as [|y l1]; injection Hdec as -> ->.
    + rewrite forallb_forall in Hx.
      specialize (Hx b ltac:(rewrite List.in_app_iff; simpl; auto)).
      now rewrite (clashb_complete _ _ Hclash) in Hx.
    + exact (IH Hrest l1 a l2 b l3 eq_refl Hclash).
Qed.

Lemma read_parameters_txt_entries_witness :
  let LF := String PyStr.LF EmptyString in
  let text :=
    "SENSNAME rms_seed" +:+ LF +:+ "RMS_SEED 1000" +:+ LF
    +:+ "GLOBVAR:VOLON_PERMH_CHANNEL 1100" +:+ LF
    +:+ "KVKH_CHANNEL 0.6" +:+ LF in
  Forall entry_line (PyStr.splitlines text)
  /\ no_clash (PyStr.splitlines text)
  /\ exists param,
       read_parameters_txt PyNum.int PyNum.float text = Ok param
       /\ dict_get "RMS_SEED" param = Some (VInt 1000).
Proof.
  intros LF text.
  assert (Hall : Forall entry_line (PyStr.splitlines text))
    by (apply entry_lines_sound; vm_compute; reflexivity).
  assert (Hnc : no_clash (PyStr.splitlines text))
    by (apply no_clashb_sound; vm_compute; reflexivity).
  split; [exact Hall|]. split; [exact Hnc|].
  destruct (read_parameters_txt_entries PyNum.int PyNum.float text Hall Hnc)
    as [(param & Hread & Hhold) _].
  exists param. split; [exact Hread|].
  assert (Hentry : holds_entry PyNum.int PyNum.float param "RMS_SEED" "1000").
  { apply (Hhold ["SENSNAME rms_seed"] "RMS_SEED 1000"
                 ["GLOBVAR:VOLON_PERMH_CHANNEL 1100"; "KVKH_CHANNEL 0.6"]).
    - vm_compute. reflexivity.
    - vm_compute. reflexivity.
    - intros later [<-|[<-|[]]]; vm_compute; intros [H|H]; discriminate H. }
  exact (proj1 Hentry eq_refl).
Defined.

(** The claim C3 as stated fails on a value token with a colon: the line
    [KEY a:b] is read as the nested entry [a] of [KEY], not as the value
    [a:b] under [KEY]. *)
Lemma value_with_colon_nested :
  ~ key_value_reading PyNum.int PyNum.float "KEY a:b".
Proof.
  intros H. destruct H as (param & Hread & Hentry).
  - repeat constructor. exists "KEY", "a:b". reflexivity.
  - vm_compute in Hread. injection Hread as <-.
    destruct (Hentry "KEY a:b" "KEY" "a:b") as [Hplain _].
    + now left.
    + reflexivity.
    + specialize (Hplain eq_refl). vm_compute in Hplain. discriminate Hplain.
Qed.

(** The file of the docstring, in its two layouts, is read as the
    docstring says. *)
Example read_parameters_txt_docstring :
  let LF := String PyStr.LF EmptyString in
  read_parameters_txt PyNum.int PyNum.float
    ("SENSNAME rms_seed" +:+ LF +:+ "SENSCASE p10_p90" +:+ LF
     +:+ "RMS_SEED 1000" +:+ LF +:+ "KVKH_CHANNEL 0.6" +:+ LF
     +:+ "GLOBVAR:VOLON_PERMH_CHANNEL 1100" +:+ LF
     +:+ "GLOBVAR:VOLON_PORO_CHANNEL 0.2" +:+ LF)
  = Ok [ ("SENSNAME", VStr "rms_seed"); ("SENSCASE", VStr "p10_p90");
         ("RMS_SEED", VInt 1000);
         ("KVKH_CHANNEL",
          VFloat (SpecFloat.S754_finite false 5404319552844595 (-53)));
         ("GLOBVAR",
          VDict [ ("VOLON_PERMH_CHANNEL", VInt 1100);
                  ("VOLON_PORO_CHANNEL",
                   VFloat (SpecFloat.S754_finite false 7205759403792794 (-55))) ]) ].
Proof. vm_compute. reflexivity. Qed.

(* ===================================================================== *)
(** * Properties of names and suffixes *)
(* ===================================================================== *)

Lemma lower_char_plain (c : ascii) :
  plain_char (PyStr.lower_char c) = plain_char c.
Proof.
  destruct c as [[] [] [] [] [] [] [] []]; vm_compute; reflexivity.
Qed.

Lemma lower_char_idem (c : ascii) :
  PyStr.lower_char (PyStr.lower_char c) = PyStr.lower_char c.
Proof.
  destruct c as [[] [] [] [] [] [] [] []]; vm_compute; reflexivity.
Qed.

Lemma lower_idem (s : string) : PyStr.lower (PyStr.lower s) = PyStr.lower s.
Proof.
  induction s as [|c r IH]; simpl; [reflexivity|].
  now rewrite lower_char_idem, IH.
Qed.

Lemma lower_app (s1 s2 : string) :
  PyStr.lower (s1 +:+ s2) = PyStr.lower s1 +:+ PyStr.lower s2.
Proof.
  induction s1 as [|c r IH]; [now rewrite !append_nil_l|].
  rewrite append_cons. cbn [PyStr.lower]. now rewrite append_cons, IH.
Qed.

Lemma lower_stem (s : string) : is_stem (PyStr.lower s) = is_stem s.
Proof.
  unfold is_stem. f_equal; [now destruct s|].
  induction s as [|c r IH]; simpl; [reflexivity|].
  now rewrite lower_char_plain, IH.
Qed.

Lemma stem_no_slash (s : string) :
  string_forall plain_char s = true ->
  string_forall (fun c => negb (Ascii.eqb "/" c)) s = true.
Proof.
  apply string_forall_impl. intros c. unfold plain_char.
  rewrite negb_true_iff, orb_false_iff. intros [_ H].
  rewrite Ascii.eqb_sym. now rewrite H.
Qed.

Lemma stem_no_dot (s : string) :
  string_forall plain_char s = true -> Pathlib.rfind "." s = None.
Proof.
  induction s as [|c r IH]; simpl; [reflexivity|].
  rewrite andb_true_iff. intros [Hc Hr]. rewrite (IH Hr).
  unfold plain_char in Hc. rewrite negb_true_iff, orb_false_iff in Hc.
  now rewrite (proj1 Hc).
Qed.

(** A name without slash that is not a dot is one component. *)
Lemma of_string_name (n : string) :
  PyStr.nonempty n = true ->
  string_forall (fun c => negb (Ascii.eqb "/" c)) n = true ->
  n <> "." ->
  PurePath.of_string n = PurePath.mk "" [n].
Proof.
  intros Hne Hns Hdot. unfold PurePath.of_string, PurePath.splitroot.
  assert (Hl : PurePath.leading_slashes n = 0).
  { destruct n as [|c r]; [reflexivity|].
    cbn [string_forall PurePath.leading_slashes] in *.
    apply andb_true_iff in Hns as [Hc _]. unfold PurePath.is_slash.
    apply negb_true_iff in Hc. now rewrite Hc. }
  rewrite Hl. unfold PurePath.components, PyStr.split_on.
  rewrite fields_no_sep by exact Hns. cbn [List.filter].
  unfold PurePath.keep_component. rewrite Hne.
  destruct (String.eqb_spec n "."); [contradiction | reflexivity].
Qed.

Lemma truediv_name (p : Path) (n : string) :
  PyStr.nonempty n = true ->
  string_forall (fun c => negb (Ascii.eqb "/" c)) n = true ->
  n <> "." ->
  p // n = PurePath.mk (PurePath.root p) (PurePath.parts p ++ [n]).
Proof.
  intros Hne Hns Hdot. unfold PurePath.truediv.
  now rewrite (of_string_name n Hne Hns Hdot).
Qed.

Lemma last_snoc {A} (l : list A) (x d : A) : List.last (l ++ [x]) d = x.
Proof. induction l as [|y l IH]; [reflexivity|]. simpl. rewrite IH. now destruct l. Qed.

Lemma removelast_snoc {A} (l : list A) (x : A) : List.removelast (l ++ [x]) = l.
Proof. now rewrite List.removelast_app, app_nil_r by discriminate. Qed.

Lemma contains_app (c : ascii) (s1 s2 : string) :
  Pathlib.contains c (s1 +:+ s2) = Pathlib.contains c s1 || Pathlib.contains c s2.
Proof.
  induction s1 as [|x r IH]; [now rewrite append_nil_l|].
  rewrite append_cons. simpl. now rewrite IH, orb_assoc.
Qed.

Lemma nonempty_app (s1 s2 : string) :
  PyStr.nonempty (s1 +:+ s2) = PyStr.nonempty s1 || PyStr.nonempty s2.
Proof. destruct s1; [now rewrite append_nil_l | now rewrite append_cons]. Qed.

(** The name of a stem followed by an extension has no old suffix: the
    extension is added. *)
Lemma with_suffix_stem (p : Path) (stem ext : string) :
  is_stem stem = true -> is_ext ext = true ->
  Pathlib.with_suffix (p // stem) (Pathlib.suffix (p // stem) +:+ ext)
  = Ok (PurePath.mk (PurePath.root p) (PurePath.parts p ++ [stem +:+ ext])).
Proof.
  unfold is_stem, is_ext. rewrite !andb_true_iff, negb_true_iff.
  intros [Hne Hplain] [[Hdot Hlen] Hslash].
  assert (Hn : stem <> ".").
  { intros ->. discriminate Hplain. }
  rewrite (truediv_name p stem Hne (stem_no_slash _ Hplain) Hn).
  unfold Pathlib.with_suffix, Pathlib.suffix, Pathlib.name.
  cbn [PurePath.parts PurePath.root]. rewrite last_snoc, removelast_snoc.
  rewrite (stem_no_dot _ Hplain), append_nil_l, Hslash, Hdot, Hne.
  rewrite andb_false_r. cbn [orb negb PyStr.nonempty].
  destruct (String.eqb_spec ext ".") as [->|_]; [discriminate Hlen | reflexivity].
Qed.

(** The name of the metadata file: a dot, the stem, the extension and
    [".yml"]. *)
Lemma with_suffix_hidden (p : Path) (stem ext : string) :
  is_stem stem = true -> is_ext ext = true ->
  Pathlib.with_suffix (p // ("." +:+ stem)) (ext +:+ ".yml")
  = Ok (PurePath.mk (PurePath.root p)
                    (PurePath.parts p ++ ["." +:+ stem +:+ ext +:+ ".yml"])).
Proof.
  unfold is_stem, is_ext. rewrite !andb_true_iff, negb_true_iff.
  intros [Hne Hplain] [[Hdot Hlen] Hslash].
  assert (Hn : "." +:+ stem <> ".").
  { rewrite append_cons, append_nil_l. destruct stem; [discriminate Hne | discriminate]. }
  rewrite (truediv_name p ("." +:+ stem)); [| reflexivity | | exact Hn].
  2:{ rewrite append_cons, append_nil_l. cbn [string_forall].
      now rewrite (stem_no_slash _ Hplain). }
  assert (Hc : Pathlib.contains "/" (ext +:+ ".yml") = false).
  { rewrite contains_app, Hslash. reflexivity. }
  assert (Hp : String.prefix "." (ext +:+ ".yml") = true).
  { destruct ext as [|c e]; [discriminate|]. rewrite append_cons.
    cbn [String.prefix] in *. destruct (ascii_dec "." c); [|discriminate].
    now destruct (e +:+ ".yml"). }
  assert (He : String.eqb (ext +:+ ".yml") "." = false).
  { destruct ext as [|c e]; [discriminate|]. rewrite append_cons.
    destruct e as [|x e]; [rewrite append_nil_l | rewrite append_cons];
      cbn [String.eqb]; apply andb_false_r. }
  assert (Hs : Pathlib.suffix
                 (PurePath.mk (PurePath.root p) (PurePath.parts p ++ ["." +:+ stem]))
               = "").
  { unfold Pathlib.suffix, Pathlib.name. cbn [PurePath.parts].
    rewrite last_snoc, append_cons, append_nil_l. cbn [Pathlib.rfind].
    rewrite (stem_no_dot _ Hplain). reflexivity. }
  unfold Pathlib.with_suffix. rewrite Hc, Hp, He, Hs.
  unfold Pathlib.name. cbn [PurePath.parts PurePath.root].
  rewrite last_snoc, removelast_snoc, andb_false_r.
  rewrite (append_cons "." "" stem), append_nil_l.
  cbn [orb negb PyStr.nonempty]. rewrite !append_cons, !append_nil_l.
  reflexivity.
Qed.

(* ===================================================================== *)
(** * Properties of the lookup of paths *)
(* ===================================================================== *)

Lemma path_eta (p : Path) : PurePath.mk (PurePath.root p) (PurePath.parts p) = p.
Proof. now destruct p. Qed.

Lemma append_assoc (s1 s2 s3 : string) : (s1 +:+ s2) +:+ s3 = s1 +:+ (s2 +:+ s3).
Proof.
  induction s1 as [|c r IH]; [now rewrite !append_nil_l|].
  now rewrite !append_cons, IH.
Qed.

Lemma ordinary_spec (n : string) :
  ordinary n = true ->
  negb (PyStr.nonempty n) || String.eqb n "." = false /\ String.eqb n ".." = false.
Proof.
  unfold ordinary. rewrite !andb_true_iff, !negb_true_iff.
  intros [[-> ->] ->]. auto.
Qed.

Lemma short_name_spec (n : string) :
  (OS.NAME_MAX <? length (OS.fsencode n))%nat = negb (short_name n).
Proof. unfold short_name. apply Nat.ltb_antisym. Qed.

Lemma resolve_names_app (path l1 l2 : list string) :
  PosixPath.resolve_names path (l1 ++ l2)
  = PosixPath.resolve_names (PosixPath.resolve_names path l1) l2.
Proof.
  revert path. induction l1 as [|n l1 IH]; intros path; [reflexivity|].
  cbn [app PosixPath.resolve_names].
  destruct (negb (PyStr.nonempty n) || String.eqb n "."); [apply IH|].
  destruct (String.eqb n ".."); apply IH.
Qed.

Lemma resolve_names_snoc (path l : list string) (n : string) :
  ordinary n = true ->
  PosixPath.resolve_names path (l ++ [n])
  = (PosixPath.resolve_names path l ++ [n])%list.
Proof.
  intros Hn. destruct (ordinary_spec n Hn) as [H1 H2].
  rewrite resolve_names_app. cbn [PosixPath.resolve_names].
  now rewrite H1, H2.
Qed.

Lemma forallb_removelast {A} (f : A -> bool) (l : list A) :
  forallb f l = true -> forallb f (List.removelast l) = true.
Proof.
  induction l as [|x l IH]; [reflexivity|]. cbn [forallb].
  rewrite andb_true_iff. intros [Hx Hl]. destruct l as [|y l]; [reflexivity|].
  cbn [List.removelast forallb]. rewrite Hx. exact (IH Hl).
Qed.

(** Resolving gives ordinary names only. *)
Lemma resolve_names_ordinary (path names : list string) :
  forallb ordinary path = true ->
  forallb ordinary (PosixPath.resolve_names path names) = true.
Proof.
  revert path. induction names as [|n names IH]; intros path Hp; [exact Hp|].
  cbn [PosixPath.resolve_names].
  destruct (negb (PyStr.nonempty n) || String.eqb n ".") eqn:E1; [now apply IH|].
  destruct (String.eqb n "..") eqn:E2.
  - apply IH. now apply forallb_removelast.
  - apply IH. rewrite forallb_app, Hp. cbn [forallb]. unfold ordinary.
    apply orb_false_iff in E1 as [E1 E1']. apply negb_false_iff in E1.
    now rewrite E1, E1', E2.
Qed.

Lemma resolve_cwd (t1 t2 : tree) (p : Path) :
  cwd t1 = cwd t2 -> PosixPath.resolve t1 p = PosixPath.resolve t2 p.
Proof. unfold PosixPath.resolve. now intros ->. Qed.

(** A stem followed by an extension is an ordinary name. *)
Lemma stem_ext_ordinary (stem ext : string) :
  is_stem stem = true -> ordinary (stem +:+ ext) = true.
Proof.
  unfold is_stem, ordinary. rewrite andb_true_iff. intros [Hne Hplain].
  destruct stem as [|c r]; [discriminate|]. rewrite append_cons.
  cbn [string_forall] in Hplain. apply andb_true_iff in Hplain as [Hc _].
  unfold plain_char in Hc. rewrite negb_true_iff, orb_false_iff in Hc.
  destruct Hc as [Hc _]. cbn [PyStr.nonempty String.eqb]. now rewrite Hc.
Qed.

(** ** The character U+0000 in a path *)

Lemma has_nul_app (s1 s2 : string) :
  OS.has_nul (s1 +:+ s2) = OS.has_nul s1 || OS.has_nul s2.
Proof. apply contains_app. Qed.

Lemma has_nul_lower (s : string) : OS.has_nul (PyStr.lower s) = OS.has_nul s.
Proof.
  unfold OS.has_nul. induction s as [|c r IH]; [reflexivity|].
  cbn [PyStr.lower Pathlib.contains]. rewrite IH. f_equal.
  destruct c as [[] [] [] [] [] [] [] []]; vm_compute; reflexivity.
Qed.

Lemma join_cons (x y : string) (l : list string) :
  PyStr.join "/" (x :: y :: l) = x +:+ "/" +:+ PyStr.join "/" (y :: l).
Proof. reflexivity. Qed.

Lemma has_nul_join (l : list string) :
  OS.has_nul (PyStr.join "/" l) = existsb OS.has_nul l.
Proof.
  induction l as [|x l IH]; [reflexivity|].
  destruct l as [|y l].
  - cbn [existsb]. now rewrite orb_false_r.
  - rewrite join_cons, !has_nul_app, IH. reflexivity.
Qed.

Lemma to_string_cases (p : Path) :
  PurePath.to_string p = PurePath.root p +:+ PyStr.join "/" (PurePath.parts p)
  \/ (PurePath.to_string p = "." /\ PurePath.root p = "" /\ PurePath.parts p = []).
Proof.
  destruct p as [r ps]. unfold PurePath.to_string. cbn [PurePath.root PurePath.parts].
  destruct r; [destruct ps|]; auto.
Qed.

Lemma has_nul_to_string (p : Path) :
  OS.has_nul (PurePath.to_string p)
  = OS.has_nul (PurePath.root p) || existsb OS.has_nul (PurePath.parts p).
Proof.
  destruct (to_string_cases p) as [-> | (-> & -> & ->)]; [|reflexivity].
  now rewrite has_nul_app, has_nul_join.
Qed.

Lemma existsb_removelast {A} (f : A -> bool) (l : list A) :
  existsb f l = false -> existsb f (List.removelast l) = false.
Proof.
  induction l as [|x l IH]; [reflexivity|]. cbn [existsb].
  rewrite orb_false_iff. intros [Hx Hl]. destruct l as [|y l]; [reflexivity|].
  cbn [List.removelast existsb]. rewrite Hx. exact (IH Hl).
Qed.

Lemma has_nul_snoc (r : string) (ps : list string) (n : string) :
  OS.has_nul (PurePath.to_string (PurePath.mk r (ps ++ [n])))
  = OS.has_nul (PurePath.to_string (PurePath.mk r ps)) || OS.has_nul n.
Proof.
  rewrite !has_nul_to_string. cbn [PurePath.root PurePath.parts].
  rewrite existsb_app. cbn [existsb]. now rewrite orb_false_r, orb_assoc.
Qed.

Lemma has_nul_parent (p : Path) :
  OS.has_nul (PurePath.to_string p) = false ->
  OS.has_nul (PurePath.to_string (Pathlib.parent p)) = false.
Proof.
  rewrite !has_nul_to_string, !orb_false_iff. unfold Pathlib.parent.
  cbn [PurePath.root PurePath.parts]. intros [H1 H2].
  split; [exact H1 | now apply existsb_removelast].
Qed.

(** [resolve] raises for U+0000 and for nothing else. *)
Lemma resolve_ok (t : tree) (p : Path) :
  OS.has_nul (PurePath.to_string p) = false ->
  PosixPath.resolve t p
  = Ok (PurePath.mk "/" (PosixPath.resolve_names (OS.start t p) (PurePath.parts p))).
Proof. unfold PosixPath.resolve, OS.start. now intros ->. Qed.

Lemma resolve_raise (t : tree) (p : Path) (e : exn) :
  PosixPath.resolve t p = Raise e ->
  e = ValueError "embedded null byte" /\ OS.has_nul (PurePath.to_string p) = true.
Proof.
  unfold PosixPath.resolve. destruct (OS.has_nul (PurePath.to_string p));
    [now intros [= <-] | discriminate].
Qed.

Lemma resolve_returns (t : tree) (p q : Path) :
  PosixPath.resolve t p = Ok q ->
  OS.has_nul (PurePath.to_string p) = false
  /\ q = PurePath.mk "/" (PosixPath.resolve_names (OS.start t p) (PurePath.parts p)).
Proof.
  unfold PosixPath.resolve, OS.start. destruct (OS.has_nul (PurePath.to_string p));
    [discriminate | now intros [= <-]].
Qed.

(** ** The length of a path *)

Lemma encode_utf8_app (s1 s2 : string) :
  PyStr.encode_utf8 (s1 +:+ s2) = (PyStr.encode_utf8 s1 ++ PyStr.encode_utf8 s2)%list.
Proof.
  induction s1 as [|c r IH]; [now rewrite append_nil_l|].
  rewrite append_cons. cbn [PyStr.encode_utf8]. now rewrite IH, List.app_assoc.
Qed.

Lemma join_snoc_length (ps : list string) (n : string) :
  (length (PyStr.encode_utf8 (PyStr.join "/" ps))
   <= length (PyStr.encode_utf8 (PyStr.join "/" (ps ++ [n]))))%nat.
Proof.
  induction ps as [|x l IH]; [cbn; lia|].
  destruct l as [|y l].
  - cbn [app]. rewrite join_cons, encode_utf8_app, List.length_app.
    change (PyStr.join "/" [x]) with x. lia.
  - change ((x :: y :: l) ++ [n])%list with (x :: y :: (l ++ [n]))%list.
    rewrite !join_cons, !encode_utf8_app, !List.length_app.
    change (y :: (l ++ [n]))%list with ((y :: l) ++ [n])%list in *. lia.
Qed.

Lemma refused_spec (s : string) :
  OS.refused s = None
  <-> OS.has_nul s = false /\ (length (OS.fsencode s) < OS.PATH_MAX)%nat.
Proof.
  unfold OS.refused. destruct (OS.has_nul s); [split; [discriminate | now intros [? _]]|].
  destruct (Nat.leb_spec OS.PATH_MAX (length (OS.fsencode s))).
  - split; [discriminate | intros [_ ?]; lia].
  - split; auto.
Qed.

(** A path that the kernel takes, without its last name. *)
Lemma refused_snoc (r : string) (ps : list string) (n : string) :
  OS.refused (PurePath.to_string (PurePath.mk r (ps ++ [n]))) = None ->
  OS.refused (PurePath.to_string (PurePath.mk r ps)) = None.
Proof.
  rewrite !refused_spec, has_nul_snoc, orb_false_iff. intros [[Hnul _] Hlen].
  split; [exact Hnul|].
  destruct (to_string_cases (PurePath.mk r ps)) as [E | (E & _ & _)]; rewrite E.
  2:{ apply Nat.ltb_lt. vm_compute. reflexivity. }
  destruct (to_string_cases (PurePath.mk r (ps ++ [n]))) as [E' | (_ & _ & E')].
  2:{ cbn [PurePath.parts] in E'. now destruct ps. }
  rewrite E' in Hlen. cbn [PurePath.root PurePath.parts] in *.
  unfold OS.fsencode in *. rewrite encode_utf8_app, List.length_app in *.
  pose proof (join_snoc_length ps n). lia.
Qed.

Lemma refused_raise (s : string) (e : exn) :
  OS.refused s = Some e ->
  (e = ValueError "embedded null byte" /\ OS.has_nul s = true)
  \/ (e = OSError ENAMETOOLONG s /\ OS.has_nul s = false).
Proof.
  unfold OS.refused. destruct (OS.has_nul s); [intros [= <-]; auto|].
  destruct (_ <=? _)%nat; [intros [= <-]; auto | discriminate].
Qed.

(** ** The lookup in a tree and in a larger tree *)

Lemma is_directory_spec (o : option kind) :
  is_directory o = true -> o = Some Directory.
Proof. now destruct o as [[]|]. Qed.

Lemma tree_wfb_sound (t : tree) : tree_wfb t = true -> tree_wf t.
Proof.
  unfold tree_wfb, tree_wf. rewrite !andb_true_iff, forallb_forall.
  intros [[Hpar Hcwd] Hord]. split; [|split; [now apply is_directory_spec | exact Hord]].
  intros here k H. apply is_directory_spec.
  apply (Hpar (here, k)). apply list_elem_of_In. now apply elem_of_map_to_list.
Qed.

Lemma dirs_onlyb_sound (t : tree) : dirs_onlyb t = true -> dirs_only t.
Proof.
  unfold dirs_onlyb, dirs_only. rewrite forallb_forall. intros Hd here k H.
  assert (Hk : is_directory (Some k) = true).
  { apply (Hd (here, k)). apply list_elem_of_In. now apply elem_of_map_to_list. }
  now destruct k.
Qed.

Lemma extends_refl (t : tree) : extends t t.
Proof.
  split; [reflexivity|]. split; [reflexivity|].
  intros here k H1 H2. congruence.
Qed.

Lemma extends_trans (t1 t2 t3 : tree) :
  extends t1 t2 -> extends t2 t3 -> extends t1 t3.
Proof.
  intros (C1 & S1 & D1) (C2 & S2 & D2). split; [congruence|].
  split; [now transitivity (nodes t2)|].
  intros here k H3 H1. destruct (nodes t2 !! here) as [k2|] eqn:E2.
  - assert (nodes t3 !! here = Some k2) by (eapply lookup_weaken; eauto).
    assert (k = k2) by congruence. subst. eauto.
  - eauto.
Qed.

Lemma node_at_extends (t t' : tree) (here : list string) (k : kind) :
  extends t t' -> OS.node_at t here = Some k -> OS.node_at t' here = Some k.
Proof.
  intros (_ & S & _). unfold OS.node_at. destruct here; [auto|].
  intros H. eapply lookup_weaken; eauto.
Qed.

Lemma walk_extends (t t' : tree) (here names : list string) (there : list string) :
  extends t t' -> OS.walk t here names = inl there ->
  OS.walk t' here names = inl there.
Proof.
  intros Hext. revert here. induction names as [|n names IH]; intros here; [auto|].
  cbn [OS.walk]. destruct (OS.node_at t here) as [[]|] eqn:E; try discriminate.
  rewrite (node_at_extends _ _ _ _ Hext E).
  destruct (negb (PyStr.nonempty n) || String.eqb n "."); [apply IH|].
  destruct (String.eqb n ".."); [apply IH|].
  destruct (_ <? _)%nat; [discriminate | apply IH].
Qed.

Lemma walk_app (t : tree) (here l1 l2 : list string) :
  OS.walk t here (l1 ++ l2)
  = match OS.walk t here l1 with
    | inl there => OS.walk t there l2
    | inr e => inr e
    end.
Proof.
  revert here. induction l1 as [|n l1 IH]; intros here; [reflexivity|].
  cbn [app OS.walk]. destruct (OS.node_at t here) as [[]|]; try reflexivity.
  destruct (negb (PyStr.nonempty n) || String.eqb n "."); [apply IH|].
  destruct (String.eqb n ".."); [apply IH|].
  destruct (_ <? _)%nat; [reflexivity | apply IH].
Qed.

(** Where the lookup arrives is where [resolve] says. *)
Lemma walk_resolve (t : tree) (here names there : list string) :
  OS.walk t here names = inl there -> there = PosixPath.resolve_names here names.
Proof.
  revert here. induction names as [|n names IH]; intros here; cbn [OS.walk].
  - now intros [= <-].
  - destruct (OS.node_at t here) as [[]|]; try discriminate.
    cbn [PosixPath.resolve_names].
    destruct (negb (PyStr.nonempty n) || String.eqb n "."); [apply IH|].
    destruct (String.eqb n ".."); [apply IH|].
    destruct (_ <? _)%nat; [discriminate | apply IH].
Qed.

(** The errors of the lookup. *)
Lemma walk_errno (t : tree) (names here : list string) (e : errno) :
  OS.walk t here names = inr e -> e = ENOENT \/ e = ENOTDIR \/ e = ENAMETOOLONG.
Proof.
  revert here. induction names as [|n names IH]; intros here; cbn [OS.walk];
    [discriminate|].
  destruct (OS.node_at t here) as [[]|]; try (intros [= <-]; now auto).
  destruct (negb (PyStr.nonempty n) || String.eqb n "."); [apply IH|].
  destruct (String.eqb n ".."); [apply IH|].
  destruct (_ <? _)%nat; [intros [= <-]; auto | apply IH].
Qed.

Lemma walk_ordinary (t : tree) (here : list string) (n : string) :
  OS.node_at t here = Some Directory -> ordinary n = true -> short_name n = true ->
  OS.walk t here [n] = inl (here ++ [n])%list.
Proof.
  intros Hd Hn Hs. destruct (ordinary_spec n Hn) as [H1 H2].
  cbn [OS.walk]. now rewrite Hd, H1, H2, short_name_spec, Hs.
Qed.

(** ** [stat], [exists] and [is_dir] *)

Lemma stat_raise (t : tree) (p : Path) (e : exn) :
  OS.stat t p = Raise e ->
  (e = ValueError "embedded null byte" /\ OS.has_nul (PurePath.to_string p) = true)
  \/ exists n, e = OSError n (PurePath.to_string p)
               /\ (n = ENOENT \/ n = ENOTDIR \/ n = ENAMETOOLONG).
Proof.
  unfold OS.stat. destruct (OS.refused _) as [e0|] eqn:R.
  - intros [= <-]. destruct (refused_raise _ _ R) as [[-> H]|[-> _]]; [auto|].
    right. eauto 6.
  - destruct (OS.walk _ _ _) as [here|n] eqn:W.
    + destruct (OS.node_at t here); [discriminate|]. intros [= <-]. right. eauto 6.
    + intros [= <-]. right. exists n. split; [reflexivity|]. eapply walk_errno; eauto.
Qed.

(** [exists] and [is_dir] raise for a name, or a path, that is too long,
    and for nothing else. *)
Lemma exists_raise (t : tree) (p : Path) (e : exn) :
  PosixPath.exists_ t p = Raise e -> e = OSError ENAMETOOLONG (PurePath.to_string p).
Proof.
  unfold PosixPath.exists_. destruct (OS.stat t p) as [k|e0] eqn:S; [discriminate|].
  destruct (stat_raise _ _ _ S) as [[-> _]|(n & -> & [->|[->| ->]])];
    cbn; congruence.
Qed.

Lemma is_dir_raise (t : tree) (p : Path) (e : exn) :
  PosixPath.is_dir t p = Raise e -> e = OSError ENAMETOOLONG (PurePath.to_string p).
Proof.
  unfold PosixPath.is_dir. destruct (OS.stat t p) as [k|e0] eqn:S;
    [destruct k; discriminate|].
  destruct (stat_raise _ _ _ S) as [[-> _]|(n & -> & [->|[->| ->]])];
    cbn; congruence.
Qed.

Lemma is_dir_stat (t : tree) (p : Path) :
  PosixPath.is_dir t p = Ok true <-> OS.stat t p = Ok Directory.
Proof.
  unfold PosixPath.is_dir. destruct (OS.stat t p) as [[]|e]; try (split; congruence).
  split; [|discriminate]. destruct e; try discriminate.
  now destruct (PosixPath.ignore_error e).
Qed.

Lemma is_dir_exists (t : tree) (p : Path) :
  PosixPath.is_dir t p = Ok true -> PosixPath.exists_ t p = Ok true.
Proof. rewrite is_dir_stat. unfold PosixPath.exists_. now intros ->. Qed.

Lemma exists_stat (t : tree) (p : Path) :
  PosixPath.exists_ t p = Ok true <-> exists k, OS.stat t p = Ok k.
Proof.
  unfold PosixPath.exists_. destruct (OS.stat t p) as [k|e].
  - split; eauto.
  - split; [|intros [k H]; discriminate]. destruct e; try discriminate.
    now destruct (PosixPath.ignore_error e).
Qed.

(** What [stat] finds is there. *)
Lemma stat_ok (t : tree) (p : Path) (k : kind) :
  OS.stat t p = Ok k <->
  OS.refused (PurePath.to_string p) = None
  /\ exists here, OS.walk t (OS.start t p) (PurePath.parts p) = inl here
                  /\ OS.node_at t here = Some k.
Proof.
  unfold OS.stat. destruct (OS.refused _).
  - split; [discriminate | now intros [? _]].
  - destruct (OS.walk _ _ _) as [here|n].
    + destruct (OS.node_at t here) as [k'|] eqn:E.
      * split; [intros [= <-]; eauto|]. intros (_ & here' & [= <-] & H). congruence.
      * split; [discriminate|]. intros (_ & here' & [= <-] & H). congruence.
    + split; [discriminate|]. now intros (_ & here' & H & _).
Qed.

Lemma start_extends (t t' : tree) (p : Path) :
  extends t t' -> OS.start t' p = OS.start t p.
Proof. intros (C & _). unfold OS.start. now rewrite C. Qed.

Lemma start_root (t : tree) (r : string) (l1 l2 : list string) :
  OS.start t (PurePath.mk r l1) = OS.start t (PurePath.mk r l2).
Proof. reflexivity. Qed.

Lemma stat_extends (t t' : tree) (p : Path) (k : kind) :
  extends t t' -> OS.stat t p = Ok k -> OS.stat t' p = Ok k.
Proof.
  intros Hext. rewrite !stat_ok. intros (R & here & W & N). split; [exact R|].
  exists here. rewrite (start_extends _ _ _ Hext).
  split; [eapply walk_extends | eapply node_at_extends]; eauto.
Qed.

(** ** Making directories *)

Lemma node_at_snoc (t : tree) (here : list string) (n : string) :
  OS.node_at t (here ++ [n]) = nodes t !! (here ++ [n])%list.
Proof. unfold OS.node_at. now destruct here. Qed.

(** What [os.mkdir] says when it succeeds. *)
Lemma os_mkdir_ok (t t' : tree) (p : Path) :
  OS.mkdir t p = Ok t' ->
  OS.refused (PurePath.to_string p) = None
  /\ exists here name before,
       List.rev (PurePath.parts p) = name :: before
       /\ OS.walk t (OS.start t p) (List.rev before) = inl here
       /\ OS.node_at t here = Some Directory
       /\ ordinary name = true
       /\ short_name name = true
       /\ nodes t !! (here ++ [name])%list = None
       /\ t' = Tree (cwd t) (<[(here ++ [name])%list := Directory]> (nodes t)).
Proof.
  unfold OS.mkdir. destruct (OS.refused _); [discriminate|].
  destruct (List.rev (PurePath.parts p)) as [|name before]; [discriminate|].
  destruct (OS.walk t (OS.start t p) (List.rev before)) as [here|e] eqn:Ewalk;
    [|discriminate].
  destruct (OS.node_at t here) as [[]|] eqn:Ehere; try discriminate.
  destruct (negb (PyStr.nonempty name) || String.eqb name "." || String.eqb name "..")
    eqn:Ename; [discriminate|].
  rewrite short_name_spec. destruct (short_name name) eqn:Eshort; [|discriminate].
  cbn [negb].
  rewrite node_at_snoc. destruct (nodes t !! (here ++ [name])%list) eqn:Enew; [discriminate|].
  intros [= <-]. split; [reflexivity|]. exists here, name, before.
  assert (Hord : ordinary name = true).
  { unfold ordinary. apply orb_false_iff in Ename as [Ename E3].
    apply orb_false_iff in Ename as [E1 E2]. apply negb_false_iff in E1.
    now rewrite E1, E2, E3. }
  auto 10.
Qed.

(** The errors of [os.mkdir]. *)
Lemma os_mkdir_raise (t : tree) (p : Path) (e : exn) :
  OS.mkdir t p = Raise e ->
  (e = ValueError "embedded null byte" /\ OS.has_nul (PurePath.to_string p) = true)
  \/ exists n, e = OSError n (PurePath.to_string p)
               /\ (n = ENOENT \/ n = ENOTDIR \/ n = EEXIST \/ n = ENAMETOOLONG).
Proof.
  unfold OS.mkdir. destruct (OS.refused _) as [e0|] eqn:R.
  - intros [= <-]. destruct (refused_raise _ _ R) as [[-> H]|[-> _]]; [auto|].
    right. eauto 7.
  - destruct (List.rev (PurePath.parts p)) as [|name before];
      [intros [= <-]; right; eauto 7|].
    destruct (OS.walk _ _ _) as [here|n] eqn:W.
    + destruct (OS.node_at t here) as [[]|]; try (intros [= <-]; right; eauto 7).
      destruct (_ || _); [intros [= <-]; right; eauto 7|].
      destruct (_ <? _)%nat; [intros [= <-]; right; eauto 7|].
      destruct (OS.node_at t _); [intros [= <-]; right; eauto 7 | discriminate].
    + intros [= <-]. right. exists n. split; [reflexivity|].
      destruct (walk_errno _ _ _ _ W) as [->|[->| ->]]; auto.
Qed.

Lemma insert_extends (t : tree) (here : list string) :
  nodes t !! here = None ->
  extends t (Tree (cwd t) (<[here := Directory]> (nodes t))).
Proof.
  intros Hnew. split; [reflexivity|]. split.
  - cbn [nodes]. now apply insert_subseteq.
  - cbn [nodes]. intros x k Hx Hold.
    destruct (decide (here = x)) as [->|Hne].
    + rewrite lookup_insert_eq in Hx. congruence.
    + rewrite lookup_insert_ne in Hx by exact Hne. congruence.
Qed.

Lemma parts_rev (p : Path) (name : string) (before : list string) :
  List.rev (PurePath.parts p) = name :: before ->
  PurePath.parts p = (List.rev before ++ [name])%list.
Proof.
  intros H. rewrite <- (List.rev_involutive (PurePath.parts p)), H. reflexivity.
Qed.

Lemma os_mkdir_extends (t t' : tree) (p : Path) :
  OS.mkdir t p = Ok t' -> extends t t' /\ PosixPath.is_dir t' p = Ok true.
Proof.
  intros H. destruct (os_mkdir_ok _ _ _ H)
    as (R & here & name & before & Hrev & Hwalk & Hhere & Hname & Hshort & Hnew & ->).
  pose proof (insert_extends t _ Hnew) as Hext. split; [exact Hext|].
  apply is_dir_stat, stat_ok. split; [exact R|]. exists (here ++ [name])%list.
  rewrite (start_extends _ _ _ Hext), (parts_rev _ _ _ Hrev), walk_app.
  rewrite (walk_extends _ _ _ _ _ Hext Hwalk).
  rewrite (walk_ordinary _ _ _ (node_at_extends _ _ _ _ Hext Hhere) Hname Hshort).
  split; [reflexivity|].
  rewrite node_at_snoc. cbn [nodes]. now rewrite lookup_insert_eq.
Qed.

Lemma tree_wf_insert (t : tree) (here : list string) (name : string) :
  tree_wf t -> OS.node_at t here = Some Directory ->
  nodes t !! (here ++ [name])%list = None ->
  tree_wf (Tree (cwd t) (<[(here ++ [name])%list := Directory]> (nodes t))).
Proof.
  intros (Hpar & Hcwd & Hord) Hhere Hnew.
  pose proof (insert_extends t _ Hnew) as Hext.
  split; [|split].
  - cbn [nodes]. intros x k Hx.
    destruct (decide ((here ++ [name])%list = x)) as [<-|Hne].
    + rewrite removelast_snoc. exact (node_at_extends _ _ _ _ Hext Hhere).
    + rewrite lookup_insert_ne in Hx by exact Hne.
      exact (node_at_extends _ _ _ _ Hext (Hpar _ _ Hx)).
  - exact (node_at_extends _ _ _ _ Hext Hcwd).
  - exact Hord.
Qed.

Lemma os_mkdir_wf (t t' : tree) (p : Path) :
  tree_wf t -> OS.mkdir t p = Ok t' -> tree_wf t'.
Proof.
  intros Hwf H. destruct (os_mkdir_ok _ _ _ H)
    as (_ & here & name & before & Hrev & Hwalk & Hhere & Hname & _ & Hnew & ->).
  now apply tree_wf_insert.
Qed.

(** The handler of [exist_ok=True] changes nothing, lets pass what is a
    directory, and raises the error it was given or the one of
    [is_dir]. *)
Lemma unless_is_dir_spec (t t' : tree) (p : Path) (e : exn) (r : option exn) :
  PosixPath.unless_is_dir t p e = (r, t') ->
  t' = t
  /\ (r = None -> PosixPath.is_dir t p = Ok true)
  /\ (forall e', r = Some e' ->
        e' = e \/ e' = OSError ENAMETOOLONG (PurePath.to_string p)).
Proof.
  unfold PosixPath.unless_is_dir.
  destruct (PosixPath.is_dir t p) as [[]|e0] eqn:D; intros [= <- <-];
    (split; [reflexivity|]); (split; [auto; discriminate|]);
    intros e' [= <-]; auto.
  right. now apply (is_dir_raise t p).
Qed.

Lemma mkdir_result_same (t t' : tree) (p : Path) (r : option exn) (x : exn) :
  (Some x, t) = (r, t') ->
  extends t t' /\ (tree_wf t -> tree_wf t')
  /\ (r = None -> PosixPath.is_dir t' p = Ok true).
Proof.
  intros [= <- <-]. split; [apply extends_refl|]. split; [auto | discriminate].
Qed.

Lemma mkdir_result_handler (t t' : tree) (p : Path) (r : option exn) (x : exn) :
  PosixPath.unless_is_dir t p x = (r, t') ->
  extends t t' /\ (tree_wf t -> tree_wf t')
  /\ (r = None -> PosixPath.is_dir t' p = Ok true).
Proof.
  intros H. destruct (unless_is_dir_spec _ _ _ _ _ H) as (-> & Hd & _).
  split; [apply extends_refl|]. split; [auto | exact Hd].
Qed.

Lemma mkdir_result_made (t t' : tree) (p : Path) :
  OS.mkdir t p = Ok t' ->
  extends t t' /\ (tree_wf t -> tree_wf t')
  /\ (@None exn = None -> PosixPath.is_dir t' p = Ok true).
Proof.
  intros E. destruct (os_mkdir_extends _ _ _ E).
  split; [auto|]. split; [|auto]. intros Hwf. eapply os_mkdir_wf; eauto.
Qed.

Lemma mkdir_here_extends (t t' : tree) (p : Path) (r : option exn) :
  PosixPath.mkdir_here t p = (r, t') ->
  extends t t' /\ (tree_wf t -> tree_wf t')
  /\ (r = None -> PosixPath.is_dir t' p = Ok true).
Proof.
  unfold PosixPath.mkdir_here. destruct (OS.mkdir t p) as [t1|e] eqn:E.
  - intros [= <- <-]. now apply mkdir_result_made.
  - destruct e; try (apply mkdir_result_same).
    destruct e; try (apply mkdir_result_same); apply mkdir_result_handler.
Qed.

(** [mkdir(parents=True, exist_ok=True)] only adds directories, and when
    it returns the path is a directory. *)
Lemma mkdir_parents_extends (root : string) (rparts : list string) :
  forall (t t' : tree) (r : option exn),
    PosixPath.mkdir_parents t root rparts = (r, t') ->
    extends t t' /\ (tree_wf t -> tree_wf t')
    /\ (r = None -> PosixPath.is_dir t' (PurePath.mk root (List.rev rparts)) = Ok true).
Proof.
  induction rparts as [|n rparent IH]; intros t t' r; cbn [PosixPath.mkdir_parents];
    (destruct (OS.mkdir t _) as [t1|e] eqn:E;
     [intros [= <- <-]; now apply mkdir_result_made|]).
  - destruct e; try (apply mkdir_result_same).
    destruct e; try (apply mkdir_result_same); apply mkdir_result_handler.
  - destruct e; try (apply mkdir_result_same).
    destruct e; try (apply mkdir_result_handler).
    destruct (PosixPath.mkdir_parents t root rparent) as [[e1|] t1] eqn:Erec.
    + intros [= <- <-]. destruct (IH _ _ _ Erec) as (Hext & Hwf & _).
      split; [exact Hext|]. split; [exact Hwf | discriminate].
    + intros Hhere. destruct (IH _ _ _ Erec) as (Hext & Hwf & _).
      destruct (mkdir_here_extends _ _ _ _ Hhere) as (Hext' & Hwf' & Hd).
      split; [eapply extends_trans; eauto|]. split; [auto | exact Hd].
Qed.

(** Below a directory, [os.mkdir] does not miss anything. *)
Lemma os_mkdir_below_dir (t : tree) (root n : string) (rparent : list string)
    (filename : string) :
  PosixPath.is_dir t (PurePath.mk root (List.rev rparent)) = Ok true ->
  OS.mkdir t (PurePath.mk root (List.rev (n :: rparent)))
  <> Raise (OSError ENOENT filename).
Proof.
  rewrite is_dir_stat, stat_ok. intros (_ & here & W & N).
  cbn [PurePath.parts] in W.
  unfold OS.mkdir. destruct (OS.refused _) as [e|] eqn:R.
  - destruct (refused_raise _ _ R) as [[-> _]|[-> _]]; discriminate.
  - cbn [PurePath.parts]. rewrite List.rev_involutive.
    rewrite (start_root t root (List.rev (n :: rparent)) (List.rev rparent)), W, N.
    destruct (_ || _); [discriminate|].
    destruct (_ <? _)%nat; [discriminate|].
    destruct (OS.node_at t (here ++ [n])); discriminate.
Qed.

(** The errors of [mkdir(parents=True, exist_ok=True)]: the [ValueError]
    of U+0000, or the [OSError] of a regular file on the way or of a name
    that is too long; no directory is missing. *)
Lemma mkdir_handler_raise (t t' : tree) (p : Path) (n : errno) (e : exn) :
  n = ENOTDIR \/ n = EEXIST \/ n = ENAMETOOLONG ->
  PosixPath.unless_is_dir t p (OSError n (PurePath.to_string p)) = (Some e, t') ->
  exists n', e = OSError n' (PurePath.to_string p)
             /\ (n' = ENOTDIR \/ n' = EEXIST \/ n' = ENAMETOOLONG).
Proof.
  intros Hn H. destruct (unless_is_dir_spec _ _ _ _ _ H) as (_ & _ & He).
  destruct (He e eq_refl) as [-> | ->]; eauto 6.
Qed.

Lemma mkdir_here_raise (t t' : tree) (root n : string) (rparent : list string)
    (e : exn) :
  let self := PurePath.mk root (List.rev (n :: rparent)) in
  PosixPath.is_dir t (PurePath.mk root (List.rev rparent)) = Ok true ->
  PosixPath.mkdir_here t self = (Some e, t') ->
  (e = ValueError "embedded null byte" /\ OS.has_nul (PurePath.to_string self) = true)
  \/ exists n', e = OSError n' (PurePath.to_string self)
                /\ (n' = ENOTDIR \/ n' = EEXIST \/ n' = ENAMETOOLONG).
Proof.
  intros self Hdir. unfold PosixPath.mkdir_here.
  destruct (OS.mkdir t self) as [t1|e0] eqn:E; [discriminate|].
  destruct (os_mkdir_raise _ _ _ E) as [[-> Hnul]|(n0 & -> & Hn0)].
  - intros [= <- <-]. auto.
  - destruct Hn0 as [->|Hn0].
    + now elim (os_mkdir_below_dir t root n rparent (PurePath.to_string self) Hdir).
    + intros H. right.
      assert (H' : PosixPath.unless_is_dir t self (OSError n0 (PurePath.to_string self))
                   = (Some e, t')).
      { destruct Hn0 as [->|[->| ->]]; exact H. }
      eapply mkdir_handler_raise; eauto.
Qed.

Lemma mkdir_parents_raise (root : string) (rparts : list string) :
  forall (t t' : tree) (e : exn),
    PosixPath.mkdir_parents t root rparts = (Some e, t') ->
    (e = ValueError "embedded null byte"
     /\ OS.has_nul (PurePath.to_string (PurePath.mk root (List.rev rparts))) = true)
    \/ exists n filename,
         e = OSError n filename /\ (n = ENOTDIR \/ n = EEXIST \/ n = ENAMETOOLONG).
Proof.
  induction rparts as [|x rparent IH]; intros t t' e; cbn [PosixPath.mkdir_parents];
    (destruct (OS.mkdir t _) as [t1|e0] eqn:E; [discriminate|]);
    (destruct (os_mkdir_raise _ _ _ E) as [[-> Hnul]|(n0 & -> & Hn0)];
     [intros [= <- <-]; now auto|]).
  - destruct Hn0 as [->|Hn0].
    + unfold OS.mkdir in E. destruct (OS.refused _) as [e1|] eqn:R.
      * destruct (refused_raise _ _ R) as [[-> _]|[-> _]]; discriminate.
      * discriminate.
    + intros H. right.
      assert (H' : PosixPath.unless_is_dir t (PurePath.mk root (List.rev []))
                     (OSError n0 (PurePath.to_string (PurePath.mk root (List.rev []))))
                   = (Some e, t')).
      { destruct Hn0 as [->|[->| ->]]; exact H. }
      destruct (mkdir_handler_raise _ _ _ _ _ Hn0 H') as (n' & -> & Hn'). eauto.
  - destruct Hn0 as [->|Hn0].
    + destruct (PosixPath.mkdir_parents t root rparent) as [[e1|] t1] eqn:Erec.
      * intros [= <- <-]. destruct (IH _ _ _ Erec) as [[-> Hnul]|H]; [left|now right].
        split; [reflexivity|]. cbn [List.rev].
        now rewrite has_nul_snoc, Hnul.
      * destruct (mkdir_parents_extends _ _ _ _ _ Erec) as (_ & _ & Hdir).
        intros H.
        destruct (mkdir_here_raise t1 t' root x rparent e (Hdir eq_refl) H)
          as [?|(n' & -> & Hn')]; [now left | right; eauto].
    + intros H. right.
      assert (H' : PosixPath.unless_is_dir t (PurePath.mk root (List.rev (x :: rparent)))
                     (OSError n0 (PurePath.to_string
                                    (PurePath.mk root (List.rev (x :: rparent)))))
                   = (Some e, t')).
      { destruct Hn0 as [->|[->| ->]]; exact H. }
      destruct (mkdir_handler_raise _ _ _ _ _ Hn0 H') as (n' & -> & Hn'). eauto.
Qed.

(** ** Trees without regular files *)

Lemma dirs_only_extends (t t' : tree) :
  extends t t' -> dirs_only t -> dirs_only t'.
Proof.
  intros (_ & Hsub & Hnew) Hd here k H.
  destruct (nodes t !! here) as [k0|] eqn:E; [|eauto].
  pose proof (lookup_weaken _ _ _ _ E Hsub) as H'.
  assert (k = k0) by congruence. subst. eauto.
Qed.

Lemma node_at_dirs_only (t : tree) (here : list string) (k : kind) :
  dirs_only t -> OS.node_at t here = Some k -> k = Directory.
Proof.
  intros Hd. unfold OS.node_at. destruct here; [congruence | apply Hd].
Qed.

Lemma walk_dirs_only (t : tree) (names here : list string) (e : errno) :
  dirs_only t -> forallb short_name names = true ->
  OS.walk t here names = inr e -> e = ENOENT.
Proof.
  intros Hd. revert here. induction names as [|n names IH]; intros here;
    cbn [OS.walk forallb]; [discriminate|].
  rewrite andb_true_iff. intros [Hn Hs].
  destruct (OS.node_at t here) as [k|] eqn:E; [|congruence].
  rewrite (node_at_dirs_only _ _ _ Hd E).
  destruct (negb (PyStr.nonempty n) || String.eqb n "."); [now apply IH|].
  destruct (String.eqb n ".."); [now apply IH|].
  rewrite short_name_spec, Hn. now apply IH.
Qed.

Lemma node_at_parent (t : tree) (here : list string) :
  tree_wf t -> OS.node_at t here = Some Directory ->
  OS.node_at t (List.removelast here) = Some Directory.
Proof.
  intros (Hpar & _) H. destruct here as [|x l]; [exact H|].
  exact (Hpar _ _ H).
Qed.

Lemma start_dir (t : tree) (p : Path) :
  tree_wf t -> OS.node_at t (OS.start t p) = Some Directory.
Proof.
  intros (_ & Hcwd & _). unfold OS.start.
  destruct (Pathlib.is_absolute p); [reflexivity | exact Hcwd].
Qed.

Lemma forallb_rev {A} (f : A -> bool) (l : list A) :
  forallb f (List.rev l) = forallb f l.
Proof.
  induction l as [|x l IH]; [reflexivity|]. cbn [List.rev forallb].
  rewrite forallb_app, IH. cbn [forallb]. rewrite andb_true_r. apply andb_comm.
Qed.

(** In a tree of directories, with names that are not too long, the
    lookup of a path raises nothing. *)
Lemma exists_dirs_only (t : tree) (p : Path) :
  dirs_only t -> OS.has_nul (PurePath.to_string p) = false -> short_path p = true ->
  exists b, PosixPath.exists_ t p = Ok b.
Proof.
  intros Hd Hnul Hshort. unfold short_path in Hshort.
  apply andb_true_iff in Hshort as [Hs Hlen]. apply Nat.ltb_lt in Hlen.
  destruct (PosixPath.exists_ t p) as [b|e] eqn:E; [eauto|].
  pose proof (exists_raise _ _ _ E) as ->.
  unfold PosixPath.exists_, OS.stat in E.
  rewrite (proj2 (refused_spec _) (conj Hnul Hlen)) in E.
  destruct (OS.walk _ _ _) as [here|n] eqn:W.
  - destruct (OS.node_at t here); discriminate.
  - rewrite (walk_dirs_only _ _ _ _ Hd Hs W) in E. discriminate.
Qed.

(** In a tree of directories, whatever [os.mkdir] refuses for another
    reason than a missing directory is a directory. *)
Lemma os_mkdir_is_dir (t : tree) (p : Path) (n : errno) (filename : string) :
  tree_wf t -> dirs_only t ->
  OS.refused (PurePath.to_string p) = None ->
  forallb short_name (PurePath.parts p) = true ->
  OS.mkdir t p = Raise (OSError n filename) -> n <> ENOENT ->
  PosixPath.is_dir t p = Ok true.
Proof.
  intros Hwf Hd R Hs. rewrite is_dir_stat, stat_ok. unfold OS.mkdir. rewrite R.
  destruct (List.rev (PurePath.parts p)) as [|name before] eqn:Hrev.
  - intros _ _. split; [reflexivity|].
    apply (f_equal (@List.rev string)) in Hrev.
    rewrite List.rev_involutive in Hrev. rewrite Hrev. cbn [List.rev].
    exists (OS.start t p). split; [reflexivity | now apply start_dir].
  - pose proof (parts_rev _ _ _ Hrev) as Hparts. rewrite Hparts in Hs |- *.
    rewrite forallb_app in Hs. apply andb_true_iff in Hs as [Hs1 Hs2].
    cbn [forallb] in Hs2. rewrite andb_true_r in Hs2.
    destruct (OS.walk t (OS.start t p) (List.rev before)) as [here|e0] eqn:Ewalk.
    2:{ intros [= <- _] Hne. elim Hne. eapply walk_dirs_only; eauto. }
    destruct (OS.node_at t here) as [k|] eqn:Ehere;
      [|intros [= <- _] Hne; now elim Hne].
    pose proof (node_at_dirs_only _ _ _ Hd Ehere) as ->.
    intros H _. split; [reflexivity|]. rewrite walk_app, Ewalk. cbn [OS.walk].
    rewrite Ehere. revert H.
    destruct (negb (PyStr.nonempty name) || String.eqb name ".") eqn:E1.
    + intros _. exists here. auto.
    + cbn [orb]. destruct (String.eqb name "..") eqn:E2.
      * intros _. exists (List.removelast here). split; [reflexivity|].
        now apply node_at_parent.
      * rewrite short_name_spec, Hs2. cbn [negb].
        destruct (OS.node_at t (here ++ [name])) as [k|] eqn:Enew; [|discriminate].
        intros _. exists (here ++ [name])%list. split; [reflexivity|].
        rewrite Enew. f_equal. eapply node_at_dirs_only; eauto.
Qed.

Lemma handler_dirs_only (t : tree) (p : Path) (e : exn) :
  tree_wf t -> dirs_only t ->
  OS.refused (PurePath.to_string p) = None ->
  forallb short_name (PurePath.parts p) = true ->
  OS.mkdir t p = Raise e ->
  (forall filename, e <> OSError ENOENT filename) ->
  PosixPath.unless_is_dir t p e = (None, t).
Proof.
  intros Hwf Hd R Hs E Hne.
  destruct (os_mkdir_raise _ _ _ E) as [[-> Hnul]|(n0 & -> & Hn0)].
  - apply refused_spec in R as [R _]. congruence.
  - unfold PosixPath.unless_is_dir.
    rewrite (os_mkdir_is_dir t p n0 _ Hwf Hd R Hs E); [reflexivity|].
    intros ->. now apply (Hne (PurePath.to_string p)).
Qed.

Lemma mkdir_here_dirs_only (t : tree) (root n : string) (rparent : list string) :
  let self := PurePath.mk root (List.rev (n :: rparent)) in
  tree_wf t -> dirs_only t ->
  OS.refused (PurePath.to_string self) = None ->
  forallb short_name (n :: rparent) = true ->
  PosixPath.is_dir t (PurePath.mk root (List.rev rparent)) = Ok true ->
  fst (PosixPath.mkdir_here t self) = None.
Proof.
  intros self Hwf Hd R Hs Hdir. unfold PosixPath.mkdir_here.
  pose proof (fun f => os_mkdir_below_dir t root n rparent f Hdir) as Hfound.
  fold self in Hfound.
  destruct (OS.mkdir t self) as [t'|e] eqn:E; [reflexivity|].
  assert (Hs' : forallb short_name (PurePath.parts self) = true).
  { unfold self. cbn [PurePath.parts]. now rewrite forallb_rev. }
  assert (Hne : forall f, e <> OSError ENOENT f) by (intros f ->; now apply (Hfound f)).
  pose proof (handler_dirs_only t self e Hwf Hd R Hs' E Hne) as Hh.
  destruct e; try (destruct (os_mkdir_raise _ _ _ E) as [[? _]|(? & ? & _)]; discriminate).
  - apply refused_spec in R as [R _].
    destruct (os_mkdir_raise _ _ _ E) as [[_ Hnul]|(? & ? & _)]; [congruence | discriminate].
  - destruct e; [now elim (Hne filename) | | | |]; now rewrite Hh.
Qed.

(** In a tree of directories [mkdir(parents=True, exist_ok=True)]
    returns, when no name and no path is too long. *)
Lemma mkdir_parents_dirs_only (root : string) (rparts : list string) :
  forall t : tree,
    tree_wf t -> dirs_only t ->
    OS.refused (PurePath.to_string (PurePath.mk root (List.rev rparts))) = None ->
    forallb short_name rparts = true ->
    fst (PosixPath.mkdir_parents t root rparts) = None.
Proof.
  induction rparts as [|n rparent IH]; intros t Hwf Hd R Hs;
    cbn [PosixPath.mkdir_parents];
    (destruct (OS.mkdir t _) as [t'|e] eqn:E; [reflexivity|]);
    (assert (Hs' : forallb short_name
                     (PurePath.parts (PurePath.mk root (List.rev _))) = true)
       by (cbn [PurePath.parts]; rewrite forallb_rev; exact Hs));
    pose proof (handler_dirs_only t _ e Hwf Hd R Hs' E) as Hh;
    (destruct (os_mkdir_raise _ _ _ E) as [[-> Hnul]|(n0 & -> & Hn0)];
     [apply refused_spec in R as [R _]; congruence|]).
  - destruct n0.
    + unfold OS.mkdir in E. rewrite R in E. discriminate.
    + rewrite Hh; [reflexivity | discriminate].
    + rewrite Hh; [reflexivity | discriminate].
    + rewrite Hh; [reflexivity | discriminate].
    + rewrite Hh; [reflexivity | discriminate].
  - destruct n0; try (rewrite Hh; [reflexivity | discriminate]).
    cbn [forallb] in Hs. pose proof Hs as Hs0.
    apply andb_true_iff in Hs0 as [_ Hsp].
    pose proof R as Rp. cbn [List.rev] in Rp. apply refused_snoc in Rp.
    specialize (IH t Hwf Hd Rp Hsp).
    destruct (PosixPath.mkdir_parents t root rparent) as [r t1] eqn:Erec.
    cbn [fst] in IH. subst r.
    destruct (mkdir_parents_extends _ _ _ _ _ Erec) as (Hext & Hwf' & Hdir).
    apply mkdir_here_dirs_only; auto.
    eapply dirs_only_extends; eauto.
Qed.

(** ** [Path.mkdir] on a path *)

Lemma mkdir_spec (t : tree) (p : Path) :
  let out := PosixPath.mkdir t p in
  extends t (snd out)
  /\ (tree_wf t -> tree_wf (snd out))
  /\ (fst out = None -> PosixPath.is_dir (snd out) p = Ok true)
  /\ (forall e, fst out = Some e ->
        (e = ValueError "embedded null byte"
         /\ OS.has_nul (PurePath.to_string p) = true)
        \/ exists n filename,
             e = OSError n filename /\ (n = ENOTDIR \/ n = EEXIST \/ n = ENAMETOOLONG))
  /\ (tree_wf t -> dirs_only t ->
      OS.has_nul (PurePath.to_string p) = false -> short_path p = true ->
      fst out = None).
Proof.
  unfold PosixPath.mkdir.
  destruct (PosixPath.mkdir_parents t (PurePath.root p) (List.rev (PurePath.parts p)))
    as [r t'] eqn:E.
  cbn [fst snd].
  destruct (mkdir_parents_extends _ _ _ _ _ E) as (Hext & Hwf & Hdir).
  rewrite List.rev_involutive, path_eta in Hdir.
  split; [exact Hext|]. split; [exact Hwf|].
  split; [exact Hdir|]. split.
  - intros e ->. pose proof (mkdir_parents_raise _ _ _ _ _ E) as H.
    now rewrite List.rev_involutive, path_eta in H.
  - intros Hwf0 Hd Hnul Hshort. unfold short_path in Hshort.
    apply andb_true_iff in Hshort as [Hs Hlen]. apply Nat.ltb_lt in Hlen.
    pose proof (mkdir_parents_dirs_only (PurePath.root p)
                  (List.rev (PurePath.parts p)) t Hwf0 Hd) as H.
    rewrite List.rev_involutive, path_eta, forallb_rev, E in H.
    apply H; [|exact Hs]. apply refused_spec. auto.
Qed.

(* ===================================================================== *)
(** * Properties of the opening of files *)
(* ===================================================================== *)

Lemma names_slash (r : string) : OS.names (String "/" r) = "" :: OS.names r.
Proof. reflexivity. Qed.

Lemma names_nonnil (s : string) : OS.names s <> [].
Proof.
  unfold OS.names, PyStr.split_on. induction s as [|c r IH]; cbn [PyStr.fields];
    [discriminate|].
  destruct (Ascii.eqb "/" c); [discriminate|].
  destruct (PyStr.fields _ r); discriminate.
Qed.

(** A path that does not end with a slash ends with a name. *)
Lemma names_last (s : string) :
  PyStr.nonempty s = true -> Pathlib.endswith "/" s = false ->
  PyStr.nonempty (List.last (OS.names s) "") = true.
Proof.
  unfold OS.names, PyStr.split_on.
  induction s as [|c r IH]; [discriminate|]. intros _ Hend.
  cbn [PyStr.fields]. destruct (Ascii.eqb "/" c) eqn:Ec.
  - destruct r as [|c' r'].
    + cbn [Pathlib.endswith] in Hend. rewrite Ascii.eqb_sym in Hend. congruence.
    + pose proof (names_nonnil (String c' r')) as Hnn.
      unfold OS.names, PyStr.split_on in Hnn.
      destruct (PyStr.fields _ (String c' r')) as [|x l] eqn:F; [contradiction|].
      change (List.last ("" :: x :: l) "") with (List.last (x :: l) "").
      apply IH; [reflexivity | exact Hend].
  - destruct (PyStr.fields _ r) as [|x l] eqn:F; [reflexivity|].
    destruct l as [|y l]; [reflexivity|].
    change (List.last (String c x :: y :: l) "") with (List.last (x :: y :: l) "").
    destruct r as [|c' r']; [discriminate F|].
    apply IH; [reflexivity | exact Hend].
Qed.

(** ** Names that stay where they are *)

Section Skipped.

Variable keep : string -> bool.
Hypothesis skipped :
  forall n, keep n = false -> negb (PyStr.nonempty n) || String.eqb n "." = true.

Lemma walk_reached_dir (t : tree) (l here there : list string) :
  OS.walk t here l = inl there -> OS.node_at t there = Some Directory ->
  OS.node_at t here = Some Directory.
Proof.
  destruct l as [|n l]; [now intros [= <-]|]. cbn [OS.walk].
  destruct (OS.node_at t here) as [[]|]; discriminate || auto.
Qed.

Lemma walk_filter_out (t : tree) (l here there : list string) :
  OS.walk t here l = inl there -> OS.walk t here (List.filter keep l) = inl there.
Proof.
  revert here. induction l as [|n l IH]; intros here; [auto|].
  cbn [OS.walk List.filter].
  destruct (OS.node_at t here) as [[]|] eqn:E; try discriminate.
  destruct (keep n) eqn:K.
  - cbn [OS.walk]. rewrite E.
    destruct (negb (PyStr.nonempty n) || String.eqb n "."); [apply IH|].
    destruct (String.eqb n ".."); [apply IH|].
    destruct (_ <? _)%nat; [discriminate | apply IH].
  - rewrite (skipped n K). apply IH.
Qed.

Lemma walk_filter_in (t : tree) (l here there : list string) :
  OS.walk t here (List.filter keep l) = inl there ->
  OS.node_at t there = Some Directory ->
  OS.walk t here l = inl there.
Proof.
  revert here. induction l as [|n l IH]; intros here; [auto|].
  cbn [List.filter]. destruct (keep n) eqn:K.
  - cbn [OS.walk]. destruct (OS.node_at t here) as [[]|]; try discriminate.
    destruct (negb (PyStr.nonempty n) || String.eqb n "."); [apply IH|].
    destruct (String.eqb n ".."); [apply IH|].
    destruct (_ <? _)%nat; [discriminate | apply IH].
  - intros W D. cbn [OS.walk].
    rewrite (walk_reached_dir _ _ _ _ W D), (skipped n K). now apply IH.
Qed.

End Skipped.

Lemma nonempty_skipped (n : string) :
  PyStr.nonempty n = false -> negb (PyStr.nonempty n) || String.eqb n "." = true.
Proof. now intros ->. Qed.

Lemma keep_component_skipped (n : string) :
  PurePath.keep_component n = false ->
  negb (PyStr.nonempty n) || String.eqb n "." = true.
Proof.
  unfold PurePath.keep_component. destruct (PyStr.nonempty n); [|reflexivity].
  cbn. now intros ->%negb_false_iff.
Qed.

(** ** A string and the path [pathlib] makes of it *)

Lemma start_of_string (t : tree) (s : string) :
  OS.start t (PurePath.of_string s) = OS.start_of t s.
Proof.
  unfold OS.start, OS.start_of, Pathlib.is_absolute, PurePath.of_string,
    PurePath.splitroot.
  destruct s as [|c r]; [reflexivity|]. cbn [PurePath.leading_slashes String.prefix].
  unfold PurePath.is_slash. destruct (ascii_dec "/" c) as [<-|Hne].
  - rewrite Ascii.eqb_refl. destruct (PurePath.leading_slashes r) as [|[|k]];
      now destruct r.
  - apply Ascii.eqb_neq in Hne. now rewrite Hne.
Qed.

Lemma components_lstrip (s : string) :
  PurePath.components (PyStr.lstrip PurePath.is_slash s) = PurePath.components s.
Proof.
  unfold PurePath.components, PyStr.split_on.
  induction s as [|c r IH]; [reflexivity|]. cbn [PyStr.lstrip].
  destruct (PurePath.is_slash c) eqn:Ec; [|reflexivity].
  rewrite IH. cbn [PyStr.fields]. unfold PurePath.is_slash in Ec. now rewrite Ec.
Qed.

Lemma parts_of_string (s : string) :
  PurePath.parts (PurePath.of_string s)
  = List.filter PurePath.keep_component (OS.names s).
Proof.
  unfold PurePath.of_string, PurePath.splitroot.
  destruct (PurePath.leading_slashes s) as [|[|[|k]]]; cbn [PurePath.parts];
    try reflexivity; apply components_lstrip.
Qed.

(** ** Writing a file *)

Lemma node_at_insert (t : tree) (loc here : list string) (k : kind) :
  here <> loc ->
  OS.node_at (Tree (cwd t) (<[loc := k]> (nodes t))) here = OS.node_at t here.
Proof.
  intros Hne. unfold OS.node_at. destruct here; [reflexivity|]. cbn [nodes].
  now rewrite lookup_insert_ne by congruence.
Qed.

(** A lookup that does not pass what is written arrives as before. *)
Lemma walk_insert (t : tree) (loc : list string) (k : kind)
    (l here there : list string) :
  OS.node_at t loc <> Some Directory ->
  OS.walk t here l = inl there ->
  OS.walk (Tree (cwd t) (<[loc := k]> (nodes t))) here l = inl there.
Proof.
  intros Hloc. revert here. induction l as [|n l IH]; intros here; [auto|].
  cbn [OS.walk]. destruct (OS.node_at t here) as [[]|] eqn:E; try discriminate.
  rewrite node_at_insert by (intros ->; congruence). rewrite E.
  destruct (negb (PyStr.nonempty n) || String.eqb n "."); [apply IH|].
  destruct (String.eqb n ".."); [apply IH|].
  destruct (_ <? _)%nat; [discriminate | apply IH].
Qed.

(** What [open(s, "w")] has done when it returns: the names of [s] lead
    to a place in a directory, where there was no directory, and the file
    is there. *)
Lemma open_w_ok (t t' : tree) (s : string) (data : list Byte.byte) :
  OS.open_w t s data = Ok t' ->
  OS.refused s = None /\ PyStr.nonempty s = true
  /\ exists here name,
       OS.locate t s = inl (here ++ [name])%list
       /\ OS.node_at t here = Some Directory
       /\ ordinary name = true /\ short_name name = true
       /\ OS.node_at t (here ++ [name]) <> Some Directory
       /\ t' = Tree (cwd t) (<[(here ++ [name])%list := Regular data]> (nodes t)).
Proof.
  unfold OS.open_w. destruct (OS.refused s); [discriminate|].
  destruct (PyStr.nonempty s) eqn:Hs; [|discriminate]. cbn [negb].
  destruct (List.rev (List.filter PyStr.nonempty (OS.names s))) as [|name before]
    eqn:Hrev; [discriminate|].
  destruct (OS.walk t (OS.start_of t s) (List.rev before)) as [here|e] eqn:W;
    [|discriminate].
  destruct (OS.node_at t here) as [[]|] eqn:Ehere; try discriminate.
  destruct (String.eqb name "." || String.eqb name ".." || Pathlib.endswith "/" s)
    eqn:Edir; [discriminate|].
  apply orb_false_iff in Edir as [Edir Hend]. apply orb_false_iff in Edir as [E1 E2].
  rewrite short_name_spec. destruct (short_name name) eqn:Eshort; [|discriminate].
  cbn [negb]. intros H.
  assert (Hnew : OS.node_at t (here ++ [name]) <> Some Directory
                 /\ t' = Tree (cwd t) (<[(here ++ [name])%list := Regular data]> (nodes t))).
  { destruct (OS.node_at t (here ++ [name])) as [[]|]; [discriminate| |];
      injection H as <-; split; congruence. }
  clear H. destruct Hnew as [Hnew ->].
  split; [reflexivity|]. split; [reflexivity|]. exists here, name.
  pose proof (names_last s Hs Hend) as Hlast.
  pose proof (app_removelast_last "" (names_nonnil s)) as Hsplit.
  set (pre := List.removelast (OS.names s)) in *.
  set (last := List.last (OS.names s) "") in *.
  rewrite Hsplit, List.filter_app in Hrev. cbn [List.filter] in Hrev.
  rewrite Hlast, List.rev_app_distr in Hrev. cbn [List.rev app] in Hrev.
  injection Hrev as Hname Hbefore. subst name before.
  rewrite List.rev_involutive in W.
  assert (Hord : ordinary last = true).
  { unfold ordinary. now rewrite Hlast, E1, E2. }
  split; [|auto 6].
  unfold OS.locate. rewrite Hsplit, walk_app.
  rewrite (walk_filter_in PyStr.nonempty nonempty_skipped _ _ _ _ W Ehere).
  now apply walk_ordinary.
Qed.

(** The file that was written is read back. *)
Lemma open_w_read_back (t t' : tree) (s : string) (data : list Byte.byte) :
  OS.open_w t s data = Ok t' -> OS.open_rb t' s = Ok data.
Proof.
  intros H. destruct (open_w_ok _ _ _ _ H)
    as (R & Hs & here & name & L & _ & _ & _ & Hnew & ->).
  unfold OS.open_rb. rewrite R, Hs. cbn [negb].
  unfold OS.locate, OS.start_of in *. cbn [cwd].
  rewrite (walk_insert _ _ _ _ _ _ Hnew L), node_at_snoc. cbn [nodes].
  now rewrite lookup_insert_eq.
Qed.

(** So it is under any other spelling of its path. *)
Lemma open_w_alias (t t' : tree) (s other : string) (data : list Byte.byte)
    (loc : list string) :
  OS.open_w t s data = Ok t' ->
  OS.locate t s = inl loc -> OS.locate t other = inl loc ->
  OS.refused other = None ->
  OS.open_rb t' other = Ok data.
Proof.
  intros H Ls Lo Ro. destruct (open_w_ok _ _ _ _ H)
    as (R & Hs & here & name & L & _ & _ & _ & Hnew & ->).
  assert (loc = (here ++ [name])%list) by congruence. subst loc.
  assert (Hne : PyStr.nonempty other = true).
  { destruct other; [|reflexivity]. exfalso. apply Hnew.
    unfold OS.locate in Lo. change (OS.names "") with [""] in Lo.
    cbn [OS.walk] in Lo.
    destruct (OS.node_at t (OS.start_of t "")) as [[]|] eqn:E; try discriminate.
    cbn in Lo. injection Lo as <-. exact E. }
  unfold OS.open_rb. rewrite Ro, Hne. cbn [negb].
  unfold OS.locate, OS.start_of in *. cbn [cwd].
  rewrite (walk_insert _ _ _ _ _ _ Hnew Lo), node_at_snoc. cbn [nodes].
  now rewrite lookup_insert_eq.
Qed.

(** What was reached elsewhere is read as before. *)
Lemma open_w_frame (t t' : tree) (s other : string) (data : list Byte.byte)
    (loc : list string) :
  OS.open_w t s data = Ok t' ->
  OS.locate t other = inl loc -> OS.locate t s <> inl loc ->
  OS.locate t' other = inl loc /\ OS.open_rb t' other = OS.open_rb t other.
Proof.
  intros H Lo Hne. destruct (open_w_ok _ _ _ _ H)
    as (R & Hs & here & name & L & _ & _ & _ & Hnew & ->).
  assert (Lo' : OS.locate (Tree (cwd t) (<[(here ++ [name])%list := Regular data]>
                                           (nodes t))) other = inl loc).
  { unfold OS.locate, OS.start_of in *. cbn [cwd]. now apply walk_insert. }
  split; [exact Lo'|]. unfold OS.open_rb. rewrite Lo', Lo.
  rewrite node_at_insert by congruence. reflexivity.
Qed.

(** [Path(s).stat()] finds the file that was written. *)
Lemma open_w_stat (t t' : tree) (s : string) (data : list Byte.byte) :
  OS.open_w t s data = Ok t' ->
  PurePath.to_string (PurePath.of_string s) = s ->
  OS.stat t' (PurePath.of_string s) = Ok (Regular data).
Proof.
  intros H Hstr. destruct (open_w_ok _ _ _ _ H)
    as (R & Hs & here & name & L & _ & _ & _ & Hnew & ->).
  apply stat_ok. rewrite Hstr. split; [exact R|]. exists (here ++ [name])%list.
  rewrite start_of_string, parts_of_string. unfold OS.locate, OS.start_of in *.
  cbn [cwd]. split.
  - apply (walk_filter_out _ keep_component_skipped). now apply walk_insert.
  - rewrite node_at_snoc. cbn [nodes]. now rewrite lookup_insert_eq.
Qed.

(* ===================================================================== *)
(** * Properties of [export_metadata_file] *)
(* ===================================================================== *)

Lemma truthy_dict (d : odict pyval) : truthy (VDict d) = false <-> d = [].
Proof. destruct d; simpl; split; congruence. Qed.

Lemma log_files (l : loglevel) (msg : string) (w : world) :
  files (log l msg w) = files w.
Proof. unfold log. now destruct (_ <=? _)%Z. Qed.

(** The call on metadata that are a dictionary and not empty: the text of
    the serialiser goes to the file, and what the serialiser or the
    opening of the file raises is raised. *)
Lemma export_metadata_file_dict
    (safe_dump json_dumps : odict pyval -> result string)
    (yfile : string) (d : odict pyval) (savefmt : string)
    (verbosity : loglevel) (w : world) :
  d <> [] ->
  let target :=
    if String.eqb savefmt "yaml" then yfile
    else PyStr.replace ".yml" ".json" yfile in
  let dump := if String.eqb savefmt "yaml" then safe_dump else json_dumps in
  export_metadata_file safe_dump json_dumps yfile (VDict d) savefmt verbosity w
  = match dump (drop_nones d) with
    | Ok text =>
        match OS.open_w (files w) target (PyStr.encode_utf8 text) with
        | Ok t' =>
            (Ok tt,
             log INFO ("Yaml file on: " +:+ yfile)
               (World verbosity (log_records w) t'))
        | Raise e => (Raise e, setLevel verbosity w)
        end
    | Raise e => (Raise e, setLevel verbosity w)
    end.
Proof.
  intros Hd. unfold export_metadata_file. destruct d as [|kv d]; [contradiction|].
  cbn [truthy]. unfold write_text.
  destruct (String.eqb savefmt "yaml"); cbv zeta;
    (match goal with |- context [match ?x with Ok _ => _ | Raise _ => _ end] =>
       destruct x as [text|e]; [|reflexivity] end);
    cbn [setLevel files log_level log_records];
    now destruct (OS.open_w _ _ _).
Qed.

(** Whatever the call raises, no file has changed. *)
Lemma export_metadata_file_raise
    (safe_dump json_dumps : odict pyval -> result string)
    (yfile : string) (metadata : pyval) (savefmt : string)
    (verbosity : loglevel) (w : world) (e : exn) :
  fst (export_metadata_file safe_dump json_dumps yfile metadata savefmt verbosity w)
  = Raise e ->
  snd (export_metadata_file safe_dump json_dumps yfile metadata savefmt verbosity w)
  = setLevel verbosity w.
Proof.
  destruct (truthy metadata) eqn:T.
  2:{ unfold export_metadata_file. now rewrite T. }
  destruct metadata as [| ? | ? | ? | ? | d | ? | ? | ?];
    try (unfold export_metadata_file; rewrite T; reflexivity).
  assert (Hd : d <> []) by (intros ->; discriminate T).
  rewrite (export_metadata_file_dict _ _ _ _ _ _ _ Hd).
  destruct (if String.eqb savefmt "yaml" then safe_dump else json_dumps) as [text|e0];
    [|reflexivity].
  destruct (OS.open_w _ _ _); [discriminate | reflexivity].
Qed.

(** C8, as amended. The call raises its [RuntimeError] when the metadata
    are falsy, and then leaves the files alone; with serialisers that raise no
    [RuntimeError] of their own, it raises [RuntimeError] exactly when the
    metadata are falsy, for a dictionary exactly when it is empty. A call
    that raises, whatever it raises, has written no file. Otherwise the
    pruned metadata are serialised, as YAML for [savefmt = "yaml"] and as
    JSON for any other format, and the file [yfile], or for JSON [yfile]
    with [".yml"] replaced by [".json"], is opened for writing. When the
    opening succeeds the call returns, the file holds the encoded text
    and is read back, and nothing else has changed; when the opening
    raises (a missing folder, a directory in the place of the file, a name
    that is too long), or the serialiser does, the call raises the same. *)
Theorem export_metadata_file_writes
    (safe_dump json_dumps : odict pyval -> result string)
    (yfile : string) (metadata : pyval) (savefmt : string)
    (verbosity : loglevel) (w : world) :
  let out := export_metadata_file safe_dump json_dumps yfile metadata
               savefmt verbosity w in
  let target :=
    if String.eqb savefmt "yaml" then yfile
    else PyStr.replace ".yml" ".json" yfile in
  let dump := if String.eqb savefmt "yaml" then safe_dump else json_dumps in
  (truthy metadata = false ->
   fst out = Raise (RuntimeError
                      "Export of metadata was requested, but no metadata are present.")
   /\ files (snd out) = files w)
  /\ ((forall d, is_runtime_error (safe_dump d) = false) ->
      (forall d, is_runtime_error (json_dumps d) = false) ->
      (is_runtime_error (fst out) = true <-> truthy metadata = false)
      /\ forall d, metadata = VDict d ->
           (is_runtime_error (fst out) = true <-> d = []))
  /\ (forall e, fst out = Raise e -> files (snd out) = files w)
  /\ (forall d text,
        metadata = VDict d -> d <> [] -> dump (drop_nones d) = Ok text ->
        match OS.open_w (files w) target (PyStr.encode_utf8 text) with
        | Ok t' =>
            fst out = Ok tt /\ files (snd out) = t'
            /\ OS.open_rb t' target = Ok (PyStr.encode_utf8 text)
            /\ cwd t' = cwd (files w)
            /\ exists loc,
                 OS.locate (files w) target = inl loc
                 /\ nodes t'
                    = <[loc := Regular (PyStr.encode_utf8 text)]> (nodes (files w))
        | Raise e => fst out = Raise e
        end)
  /\ (forall d e,
        metadata = VDict d -> d <> [] -> dump (drop_nones d) = Raise e ->
        fst out = Raise e).
Proof.
  intros out target dump.
  assert (Hfalsy : truthy metadata = false ->
            out = (Raise (RuntimeError
                     "Export of metadata was requested, but no metadata are present."),
                   setLevel verbosity w)).
  { intros T. subst out. unfold export_metadata_file. now rewrite T. }
  split; [intros T; now rewrite (Hfalsy T)|].
  split.
  { intros Hy Hj.
    assert (Hrt : is_runtime_error (fst out) = true <-> truthy metadata = false).
    { split; [|intros T; now rewrite (Hfalsy T)].
      destruct (truthy metadata) eqn:T; [|reflexivity]. intros H. exfalso. revert H.
      destruct metadata as [| ? | ? | ? | ? | d | ? | ? | ?];
        try (subst out; unfold export_metadata_file; rewrite T; discriminate).
      assert (Hd : d <> []) by (intros ->; discriminate T).
      subst out. rewrite (export_metadata_file_dict _ _ _ _ _ _ _ Hd).
      assert (Hdump : is_runtime_error
                        ((if String.eqb savefmt "yaml" then safe_dump else json_dumps)
                           (drop_nones d)) = false)
        by (destruct (String.eqb savefmt "yaml"); auto).
      destruct ((if String.eqb savefmt "yaml" then safe_dump else json_dumps)
                  (drop_nones d)) as [text|e0] eqn:E.
      - destruct (OS.open_w _ _ _) as [t'|e1] eqn:O; [discriminate|].
        cbn [fst is_runtime_error]. unfold OS.open_w in O.
        destruct e1; try discriminate.
        exfalso. revert O.
        destruct (OS.refused _) as [e2|] eqn:R.
        { destruct (refused_raise _ _ R) as [[-> _]|[-> _]]; discriminate. }
        destruct (negb _); [discriminate|].
        destruct (List.rev _); [discriminate|].
        destruct (OS.walk _ _ _); [|discriminate].
        destruct (OS.node_at _ _) as [[]|]; try discriminate.
        destruct (_ || _); [discriminate|].
        destruct (_ <? _)%nat; [discriminate|].
        destruct (OS.node_at _ _) as [[]|]; discriminate.
      - cbn [fst]. destruct e0; cbn [is_runtime_error] in *; congruence. }
    split; [exact Hrt|]. intros d ->. now rewrite Hrt, truthy_dict. }
  split.
  { intros e He. subst out. now rewrite (export_metadata_file_raise _ _ _ _ _ _ _ _ He). }
  split.
  - intros d text -> Hd Hdump. subst out.
    rewrite (export_metadata_file_dict _ _ _ _ _ _ _ Hd). fold target dump.
    rewrite Hdump.
    destruct (OS.open_w (files w) target (PyStr.encode_utf8 text)) as [t'|e] eqn:O;
      [|reflexivity].
    cbn [fst snd]. rewrite log_files. cbn [files].
    split; [reflexivity|]. split; [reflexivity|].
    split; [now apply (open_w_read_back _ _ _ _ O)|].
    destruct (open_w_ok _ _ _ _ O) as (_ & _ & here & name & L & _ & _ & _ & _ & ->).
    split; [reflexivity|]. exists (here ++ [name])%list. auto.
  - intros d e -> Hd Hdump. subst out.
    rewrite (export_metadata_file_dict _ _ _ _ _ _ _ Hd). fold dump.
    now rewrite Hdump.
Qed.

(** The claim C8 as stated fails where the folder of the file is missing:
    the opening of [nodir/meta.yml] raises and nothing is written. *)
Lemma export_missing_folder :
  ~ (forall yfile d w, metadata_written dump_keys dump_keys yfile d w).
Proof.
  intros H.
  destruct (H "nodir/meta.yml" [("name", VStr "volantis")]
              (World WARNING [] (Tree [] ∅)) "name") as [Hret _];
    [discriminate | reflexivity|].
  vm_compute in Hret. discriminate Hret.
Qed.

Lemma export_metadata_file_writes_witness :
  let w := World WARNING [] (Tree ["run"] {[ ["run"] := Directory ]}) in
  let metadata := VDict [("name", VStr "volantis"); ("unit", VNone)] in
  fst (export_metadata_file dump_keys dump_keys ".volantis.segy.yml"
         metadata "json" INFO w) = Ok tt
  /\ OS.open_rb
       (files (snd (export_metadata_file dump_keys dump_keys ".volantis.segy.yml"
                      metadata "json" INFO w)))
       "/run/.volantis.segy.json"
     = Ok (PyStr.encode_utf8 "name")
  /\ fst (export_metadata_file dump_keys dump_keys "nodir/.volantis.segy.yml"
            metadata "yaml" INFO w)
     = Raise (FileNotFoundError "nodir/.volantis.segy.yml")
  /\ is_runtime_error
       (fst (export_metadata_file dump_keys dump_keys ".volantis.segy.yml"
               (VDict []) "yaml" INFO w)) = true.
Proof.
  intros w metadata.
  destruct (export_metadata_file_writes dump_keys dump_keys
              ".volantis.segy.yml" metadata "json" INFO w)
    as (_ & _ & _ & Hjson & _).
  specialize (Hjson [("name", VStr "volantis"); ("unit", VNone)] "name" eq_refl
                ltac:(discriminate) eq_refl).
  destruct (export_metadata_file_writes dump_keys dump_keys
              "nodir/.volantis.segy.yml" metadata "yaml" INFO w)
    as (_ & _ & _ & Hyaml & _).
  specialize (Hyaml [("name", VStr "volantis"); ("unit", VNone)] "name" eq_refl
                ltac:(discriminate) eq_refl).
  destruct (export_metadata_file_writes dump_keys dump_keys
              ".volantis.segy.yml" (VDict []) "yaml" INFO w)
    as (Hempty & _).
  destruct (OS.open_w _ _ _) as [t'|e] eqn:O in Hjson; [|vm_compute in O; discriminate O].
  destruct Hjson as (Hret & Hfiles & _).
  split; [exact Hret|]. split.
  { rewrite Hfiles. vm_compute in O. injection O as <-. vm_compute. reflexivity. }
  split.
  - destruct (OS.open_w _ _ _) as [t1|e] eqn:O1 in Hyaml;
      [vm_compute in O1; discriminate O1|].
    rewrite Hyaml. vm_compute in O1. injection O1 as <-. reflexivity.
  - rewrite (proj1 (Hempty eq_refl)). reflexivity.
Defined.

(* ===================================================================== *)
(** * Properties of [verify_path] *)
(* ===================================================================== *)

Lemma with_suffix_raise (p : Path) (s : string) (e : exn) :
  Pathlib.with_suffix p s = Raise e -> exists msg, e = ValueError msg.
Proof.
  unfold Pathlib.with_suffix.
  destruct (Pathlib.contains "/" s); [intros [= <-]; eauto|].
  destruct (_ || _); [intros [= <-]; eauto|].
  destruct (negb _); [intros [= <-]; eauto | discriminate].
Qed.

Lemma with_suffix_root (p q : Path) (s : string) :
  Pathlib.with_suffix p s = Ok q -> PurePath.root q = PurePath.root p.
Proof.
  unfold Pathlib.with_suffix.
  destruct (Pathlib.contains "/" s); [discriminate|].
  destruct (_ || _); [discriminate|].
  destruct (negb _); [discriminate|]. now intros [= <-].
Qed.

(** The check of the folder, by what [exists] answers. *)
Lemma verify_folder_cases (dataio : ExportData) (path : Path) (w : world) :
  let parent := Pathlib.parent path in
  let out := verify_folder dataio path w in
  match PosixPath.exists_ (files w) parent with
  | Ok true => fst out = None /\ files (snd out) = files w
  | Raise e =>
      fst out = Some (Builtin e) /\ files (snd out) = files w
      /\ e = OSError ENAMETOOLONG (PurePath.to_string parent)
  | Ok false =>
      if createfolder dataio then
        fst out = option_map Builtin (fst (PosixPath.mkdir (files w) parent))
        /\ files (snd out) = snd (PosixPath.mkdir (files w) parent)
      else
        fst out = Some (IOError ("Folder " +:+ PurePath.to_string parent
                                 +:+ " is not present."))
        /\ files (snd out) = files w
  end.
Proof.
  intros parent out. subst out. unfold verify_folder. fold parent.
  destruct (PosixPath.exists_ (files w) parent) as [[]|e] eqn:Ex.
  - cbn [fst snd]. now rewrite log_files.
  - destruct (createfolder dataio); [|auto]. rewrite log_files.
    now destruct (PosixPath.mkdir (files w) parent) as [[e|] t'].
  - cbn [fst snd]. split; [reflexivity|]. split; [reflexivity|].
    now apply (exists_raise (files w) parent).
Qed.

Lemma verify_folder_spec (dataio : ExportData) (path : Path) (w : world) :
  let out := verify_folder dataio path w in
  extends (files w) (files (snd out))
  /\ (tree_wf (files w) -> tree_wf (files (snd out)))
  /\ (createfolder dataio = false -> files (snd out) = files w).
Proof.
  intros out. pose proof (verify_folder_cases dataio path w) as H.
  cbv zeta in H. fold out in H.
  destruct (PosixPath.exists_ (files w) (Pathlib.parent path)) as [[]|e].
  - destruct H as [_ ->]. split; [apply extends_refl | auto].
  - destruct (createfolder dataio).
    + destruct H as [_ ->].
      destruct (mkdir_spec (files w) (Pathlib.parent path)) as (Hext & Hwf & _).
      split; [exact Hext|]. split; [exact Hwf | discriminate].
    + destruct H as [_ ->]. split; [apply extends_refl | auto].
  - destruct H as (_ & -> & _). split; [apply extends_refl | auto].
Qed.

(** What the check raises for a path without U+0000: the [IOError] of the
    call, or an [OSError]. *)
Lemma verify_folder_raises (dataio : ExportData) (path : Path) (w : world)
    (e : raised) :
  OS.has_nul (PurePath.to_string path) = false ->
  fst (verify_folder dataio path w) = Some e ->
  PosixPath.exists_ (files w) (Pathlib.parent path) <> Ok true
  /\ if createfolder dataio
     then exists n filename,
            e = Builtin (OSError n filename)
            /\ (n = ENOTDIR \/ n = EEXIST \/ n = ENAMETOOLONG)
     else e = IOError ("Folder " +:+ PurePath.to_string (Pathlib.parent path)
                       +:+ " is not present.")
          \/ e = Builtin (OSError ENAMETOOLONG
                            (PurePath.to_string (Pathlib.parent path))).
Proof.
  intros Hnul He. pose proof (verify_folder_cases dataio path w) as H. cbv zeta in H.
  destruct (PosixPath.exists_ (files w) (Pathlib.parent path)) as [[]|e0].
  - destruct H as [H _]. congruence.
  - split; [discriminate|]. destruct (createfolder dataio).
    + destruct H as [H _]. rewrite H in He.
      destruct (mkdir_spec (files w) (Pathlib.parent path)) as (_ & _ & _ & Herr & _).
      destruct (fst (PosixPath.mkdir (files w) (Pathlib.parent path))) as [e1|];
        [|discriminate].
      cbn [option_map] in He. injection He as <-.
      destruct (Herr e1 eq_refl) as [[_ Hbad]|(n & f & -> & Hn)]; [|eauto].
      now rewrite (has_nul_parent _ Hnul) in Hbad.
    + destruct H as [H _]. rewrite H in He. injection He as <-. auto.
  - split; [discriminate|]. destruct H as (H & _ & ->). rewrite H in He.
    injection He as <-. destruct (createfolder dataio); eauto 6.
Qed.

Lemma hidden_name_ordinary (stem rest : string) :
  is_stem stem = true -> ordinary ("." +:+ stem +:+ rest) = true.
Proof.
  unfold is_stem, ordinary. rewrite andb_true_iff. intros [Hne Hplain].
  destruct stem as [|c r]; [discriminate|].
  rewrite (append_cons "." "" _), append_nil_l, append_cons.
  cbn [string_forall] in Hplain. apply andb_true_iff in Hplain as [Hc _].
  unfold plain_char in Hc. rewrite negb_true_iff, orb_false_iff in Hc.
  destruct Hc as [Hc _]. cbn [PyStr.nonempty String.eqb].
  rewrite Hc. reflexivity.
Qed.

Lemma resolve_snoc (t : tree) (p : Path) (n : string) :
  OS.has_nul (PurePath.to_string p) = false -> OS.has_nul n = false ->
  ordinary n = true ->
  PosixPath.resolve t (PurePath.mk (PurePath.root p) (PurePath.parts p ++ [n]))
  = Ok (PurePath.mk "/"
          (PosixPath.resolve_names (OS.start t p) (PurePath.parts p) ++ [n])).
Proof.
  intros Hp Hn Hord. rewrite resolve_ok.
  - cbn [PurePath.parts]. rewrite (resolve_names_snoc _ _ _ Hord). reflexivity.
  - now rewrite has_nul_snoc, path_eta, Hp, Hn.
Qed.

(** The call, unfolded for a stem and an extension without U+0000: the
    three paths are the folder, or the resolved folder, followed by the
    name of the file or of the metadata file. *)
Lemma verify_path_stem (dataio : ExportData) (filedest : pathlike)
    (filename ext : string) (dryrun : bool) (w : world) :
  is_stem filename = true -> is_ext ext = true ->
  OS.has_nul (PurePath.to_string (_pwd dataio // pathlike_str filedest)) = false ->
  OS.has_nul filename = false -> OS.has_nul ext = false ->
  let folder := _pwd dataio // pathlike_str filedest in
  let name := PyStr.lower filename +:+ ext in
  let path := PurePath.mk (PurePath.root folder) (PurePath.parts folder ++ [name]) in
  let out := verify_path dataio filedest filename ext dryrun w in
  exists w1 relpath rfolder,
    let chk := if negb dryrun then verify_folder dataio path w1 else (None, w1) in
    files w1 = files w
    /\ PosixPath.resolve (files w) folder = Ok rfolder
    /\ files (snd out) = files (snd chk)
    /\ fst out
       = match fst chk with
         | Some e => Raised e
         | None =>
             Returned
               (path,
                PurePath.mk "/" (PurePath.parts rfolder ++ ["." +:+ name +:+ ".yml"]),
                relpath,
                PurePath.mk "/" (PurePath.parts rfolder ++ [name]))
         end.
Proof.
  intros Hstem Hext Hnf Hnn Hne folder name path out.
  assert (Hs : is_stem (PyStr.lower filename) = true) by now rewrite lower_stem.
  assert (Hn1 : ordinary name = true) by now apply stem_ext_ordinary.
  assert (Hn2 : ordinary ("." +:+ name +:+ ".yml") = true).
  { unfold name. rewrite append_assoc. now apply hidden_name_ordinary. }
  assert (Hz1 : OS.has_nul name = false).
  { unfold name. now rewrite has_nul_app, has_nul_lower, Hnn, Hne. }
  assert (Hz2 : OS.has_nul ("." +:+ name +:+ ".yml") = false).
  { now rewrite !has_nul_app, Hz1. }
  subst out. unfold verify_path. cbv zeta. fold folder.
  rewrite (with_suffix_stem folder _ _ Hs Hext).
  rewrite (with_suffix_hidden folder _ _ Hs Hext).
  rewrite <- (append_assoc (PyStr.lower filename) ext ".yml").
  fold name. fold path.
  set (w0 := log DEBUG _ (log DEBUG _ (log DEBUG _ (setLevel _ w)))).
  assert (Hw0 : files w0 = files w) by (unfold w0; now rewrite !log_files).
  set (rparts := PosixPath.resolve_names (OS.start (files w) folder)
                   (PurePath.parts folder)).
  assert (Hres : PosixPath.resolve (files w0) path
                 = Ok (PurePath.mk "/" (rparts ++ [name]))).
  { rewrite Hw0. now apply resolve_snoc. }
  rewrite Hres.
  set (w1 := log DEBUG ("path is " +:+ PurePath.to_string path) w0).
  assert (Hw1 : files w1 = files w) by (unfold w1; now rewrite log_files).
  exists w1.
  assert (Hmeta : forall w', cwd (files w') = cwd (files w) ->
            PosixPath.resolve (files w')
              (PurePath.mk (PurePath.root folder)
                 (PurePath.parts folder ++ ["." +:+ name +:+ ".yml"]))
            = Ok (PurePath.mk "/" (rparts ++ ["." +:+ name +:+ ".yml"]))).
  { intros w' Hcwd. rewrite (resolve_cwd (files w') (files w) _ Hcwd).
    now apply resolve_snoc. }
  destruct dryrun; eexists; exists (PurePath.mk "/" rparts); cbn [negb].
  - cbn [fst snd]. rewrite (Hmeta w1) by now rewrite Hw1. cbn [fst snd].
    rewrite !log_files. split; [exact Hw1|].
    split; [now apply resolve_ok|]. split; reflexivity.
  - pose proof (verify_folder_spec dataio path w1) as Hspec.
    destruct (verify_folder dataio path w1) as [failure w'] eqn:E.
    cbn [fst snd] in Hspec. destruct Hspec as ((Hcwd & _) & _).
    split; [exact Hw1|]. split; [now apply resolve_ok|].
    destruct failure as [e|]; cbn [fst snd]; [split; reflexivity|].
    rewrite (Hmeta w') by now rewrite Hcwd, Hw1. cbn [fst snd].
    rewrite !log_files. split; reflexivity.
Qed.

(** X1. What [verify_path] returns for a stem (a name without dot and
    slash, as [construct_filename] makes them from names without slash)
    and an extension, where the folder, the stem and the extension hold
    no U+0000: [path] is the folder [_pwd / filedest] followed by the
    lowercased stem with the extension, [abspath] is the resolved folder
    followed by the same name, and [metapath] lies beside it under the
    name with a dot in front and [".yml"] behind. *)
Theorem verify_path_names (dataio : ExportData) (filedest : pathlike)
    (filename ext : string) (w : world) :
  is_stem filename = true -> is_ext ext = true ->
  OS.has_nul (PurePath.to_string (_pwd dataio // pathlike_str filedest)) = false ->
  OS.has_nul filename = false -> OS.has_nul ext = false ->
  let folder := _pwd dataio // pathlike_str filedest in
  let name := PyStr.lower filename +:+ ext in
  exists path metapath relpath abspath,
    fst (verify_path dataio filedest filename ext true w)
    = Returned (path, metapath, relpath, abspath)
    /\ Pathlib.parent path = folder
    /\ Pathlib.name path = name
    /\ PosixPath.resolve (files w) path = Ok abspath
    /\ PosixPath.resolve (files w) folder = Ok (Pathlib.parent abspath)
    /\ Pathlib.name abspath = name
    /\ Pathlib.parent metapath = Pathlib.parent abspath
    /\ Pathlib.name metapath = "." +:+ name +:+ ".yml".
Proof.
  intros Hstem Hext Hnf Hnn Hne folder name.
  destruct (verify_path_stem dataio filedest filename ext true w Hstem Hext Hnf Hnn Hne)
    as (w1 & relpath & rfolder & _ & Hres & _ & Hret).
  cbn [negb fst snd] in Hret. fold folder name in Hret, Hres.
  do 4 eexists. split; [exact Hret|].
  unfold Pathlib.parent, Pathlib.name. cbn [PurePath.parts PurePath.root].
  rewrite !removelast_snoc, !last_snoc, path_eta.
  destruct (resolve_returns _ _ _ Hres) as [_ Hrf].
  assert (Hroot : PurePath.mk "/" (PurePath.parts rfolder) = rfolder)
    by (rewrite Hrf; reflexivity).
  rewrite Hroot. repeat split; [|exact Hres].
  rewrite Hrf. cbn [PurePath.parts]. apply resolve_snoc; [exact Hnf | |].
  - unfold name. now rewrite has_nul_app, has_nul_lower, Hnn, Hne.
  - now apply stem_ext_ordinary; rewrite lower_stem.
Qed.

Lemma verify_path_names_witness :
  let dataio := mkExportData WARNING (PurePath.of_string "/scratch/case/realization-0/iter-0/rms/model")
                  false (Some "realization-0") (Some "iter-0") in
  let w := World WARNING []
             (Tree ["scratch"; "case"; "realization-0"; "iter-0"; "rms"; "model"] ∅) in
  is_stem "Volantis--what_descr" = true /\ is_ext ".segy" = true
  /\ exists path relpath,
       fst (verify_path dataio (AsStr "../../share/results/cubes")
              "Volantis--what_descr" ".segy" true w)
       = Returned
           (path,
            PurePath.of_string
              "/scratch/case/realization-0/iter-0/share/results/cubes/.volantis--what_descr.segy.yml",
            relpath,
            PurePath.of_string
              "/scratch/case/realization-0/iter-0/share/results/cubes/volantis--what_descr.segy").
Proof.
  intros dataio w. split; [reflexivity|]. split; [reflexivity|].
  destruct (verify_path_names dataio (AsStr "../../share/results/cubes")
              "Volantis--what_descr" ".segy" w eq_refl eq_refl eq_refl eq_refl eq_refl)
    as (path & metapath & relpath & abspath & Hret & _).
  exists path, relpath. rewrite Hret.
  vm_compute in Hret. injection Hret as <- <- <- <-. reflexivity.
Defined.

(** X2. A dry run leaves the files alone and raises nothing but a
    [ValueError]: that of an invalid suffix, of an empty name, or of a
    U+0000 in the path. It returns what the call that checks the folder
    returns, whenever that one returns; and where the dry run returns,
    the other call returns the same, or raises the [IOError] of the
    missing folder, or an [OSError] of the lookup or the making of the
    folder. *)
Theorem verify_path_dry_run (dataio : ExportData) (filedest : pathlike)
    (filename ext : string) (w : world) :
  let dry := verify_path dataio filedest filename ext true w in
  let wet := verify_path dataio filedest filename ext false w in
  files (snd dry) = files w
  /\ (forall e, fst dry = Raised e -> exists msg, e = Builtin (ValueError msg))
  /\ (forall r, fst wet = Returned r -> fst dry = Returned r)
  /\ (forall r, fst dry = Returned r ->
        fst wet = Returned r
        \/ (exists msg, fst wet = Raised (IOError msg))
        \/ (exists n filename, fst wet = Raised (Builtin (OSError n filename)))).
Proof.
  unfold verify_path. cbv zeta.
  set (folder := _pwd dataio // pathlike_str filedest).
  set (w0 := log DEBUG _ (log DEBUG _ (log DEBUG _ (setLevel _ w)))).
  assert (Hw0 : files w0 = files w) by (unfold w0; now rewrite !log_files).
  destruct (Pathlib.with_suffix (folder // PyStr.lower filename) _) as [path|e1] eqn:E1.
  2:{ cbn [fst snd]. destruct (with_suffix_raise _ _ _ E1) as [msg ->].
      split; [exact Hw0|]. repeat split; try discriminate. intros e [= <-]. eauto. }
  destruct (PosixPath.resolve (files w0) path) as [abspath|e0] eqn:R1.
  2:{ cbn [fst snd]. destruct (resolve_raise _ _ _ R1) as [-> _].
      split; [exact Hw0|]. repeat split; try discriminate. intros e [= <-]. eauto. }
  destruct (resolve_returns _ _ _ R1) as [Hnul _].
  cbn [negb].
  set (w1 := log DEBUG _ w0).
  assert (Hw1 : files w1 = files w) by (unfold w1; now rewrite log_files).
  pose proof (verify_folder_spec dataio path w1) as Hspec.
  pose proof (verify_folder_raises dataio path w1) as Hfail.
  destruct (verify_folder dataio path w1) as [failure w'].
  cbn [fst snd] in Hspec, Hfail. destruct Hspec as ((Hcwd & _) & _).
  destruct (Pathlib.with_suffix (folder // ("." +:+ PyStr.lower filename)) _)
    as [metapath|e2] eqn:E2.
  2:{ cbn [fst snd]. destruct (with_suffix_raise _ _ _ E2) as [msg ->].
      split; [exact Hw1|]. split; [intros e [= <-]; eauto|].
      split; [|discriminate]. destruct failure; discriminate. }
  rewrite (resolve_cwd (files w') (files w1) metapath Hcwd).
  destruct (PosixPath.resolve (files w1) metapath) as [m|e3] eqn:R2.
  2:{ cbn [fst snd]. destruct (resolve_raise _ _ _ R2) as [-> _].
      split; [exact Hw1|]. split; [intros e [= <-]; eauto|].
      split; [|discriminate]. destruct failure; discriminate. }
  cbn [fst snd]. rewrite !log_files. split; [exact Hw1|]. split; [discriminate|].
  destruct failure as [e|]; cbn [fst snd].
  - split; [discriminate|]. intros r _. right.
    destruct (Hfail e Hnul eq_refl) as [_ He]. destruct (createfolder dataio).
    + destruct He as (n & f & -> & _). eauto.
    + destruct He as [-> | ->]; eauto.
  - split; [auto | intros r ->; auto].
Qed.

(** X3. An extension that holds a slash, or that is not empty and does not
    start with a dot, is refused: the call returns nothing, and with a
    slash in the extension it raises [ValueError] before it looks at the
    folder. *)
Theorem verify_path_bad_ext (dataio : ExportData) (filedest : pathlike)
    (filename ext : string) (dryrun : bool) (w : world) :
  Pathlib.contains "/" ext = true
  \/ (PyStr.nonempty ext = true /\ String.prefix "." ext = false) ->
  let out := verify_path dataio filedest filename ext dryrun w in
  (forall r, fst out <> Returned r)
  /\ (Pathlib.contains "/" ext = true ->
      files (snd out) = files w
      /\ exists msg, fst out = Raised (Builtin (ValueError msg))).
Proof.
  intros Hbad. unfold verify_path. cbv zeta.
  set (folder := _pwd dataio // pathlike_str filedest).
  set (w0 := log DEBUG _ (log DEBUG _ (log DEBUG _ (setLevel _ w)))).
  assert (Hw0 : files w0 = files w) by (unfold w0; now rewrite !log_files).
  destruct (Pathlib.contains "/" ext) eqn:Hslash.
  - assert (E1 : exists msg,
              Pathlib.with_suffix (folder // PyStr.lower filename)
                (Pathlib.suffix (folder // PyStr.lower filename) +:+ ext)
              = Raise (ValueError msg)).
    { unfold Pathlib.with_suffix. rewrite contains_app, Hslash, orb_true_r. eauto. }
    destruct E1 as [msg ->]. cbn [fst snd].
    split; [discriminate|]. intros _. eauto.
  - destruct Hbad as [Hbad|[Hne Hdot]]; [discriminate|].
    split; [|discriminate].
    assert (E2 : exists msg,
              Pathlib.with_suffix (folder // ("." +:+ PyStr.lower filename))
                (ext +:+ ".yml")
              = Raise (ValueError msg)).
    { unfold Pathlib.with_suffix. rewrite contains_app, Hslash.
      change (Pathlib.contains "/" ".yml") with false. cbn [orb].
      destruct ext as [|c e]; [discriminate|]. rewrite append_cons.
      cbn [PyStr.nonempty String.prefix] in *.
      destruct (ascii_dec "." c); [|cbn; eauto].
      destruct e; discriminate. }
    destruct E2 as [msg ->].
    destruct (Pathlib.with_suffix (folder // PyStr.lower filename) _); [|discriminate].
    destruct (PosixPath.resolve _ _); [|discriminate].
    destruct (if negb dryrun then _ else _) as [[e|] w']; discriminate.
Qed.

Lemma verify_path_bad_ext_witness :
  let dataio := mkExportData WARNING (PurePath.of_string "/run") true None None in
  (Pathlib.contains "/" "segy" = true
   \/ (PyStr.nonempty "segy" = true /\ String.prefix "." "segy" = false))
  /\ forall r,
       fst (verify_path dataio (AsStr "maps") "top" "segy" false
              (World WARNING [] (Tree ["run"] ∅)))
       <> Returned r.
Proof.
  intros dataio.
  assert (H : Pathlib.contains "/" "segy" = true
              \/ (PyStr.nonempty "segy" = true /\ String.prefix "." "segy" = false))
    by (right; split; reflexivity).
  split; [exact H|].
  apply (verify_path_bad_ext dataio (AsStr "maps") "top" "segy" false
           (World WARNING [] (Tree ["run"] ∅)) H).
Defined.

Lemma parent_snoc (p : Path) (n : string) :
  Pathlib.parent (PurePath.mk (PurePath.root p) (PurePath.parts p ++ [n])) = p.
Proof.
  unfold Pathlib.parent. cbn [PurePath.parts PurePath.root].
  now rewrite removelast_snoc, path_eta.
Qed.

(** X4. Without [createfolder] the call never changes the files. For a
    stem and an extension, with no U+0000 in them and in the folder, it
    returns when the folder [_pwd / filedest] exists, raises the [IOError]
    that names the folder when it does not, and raises the [OSError] of
    [exists] when the folder cannot be looked up, which is that of a name
    too long. *)
Theorem verify_path_folder_check (dataio : ExportData) (filedest : pathlike)
    (filename ext : string) (w : world) :
  createfolder dataio = false ->
  is_stem filename = true -> is_ext ext = true ->
  OS.has_nul (PurePath.to_string (_pwd dataio // pathlike_str filedest)) = false ->
  OS.has_nul filename = false -> OS.has_nul ext = false ->
  let folder := _pwd dataio // pathlike_str filedest in
  let out := verify_path dataio filedest filename ext false w in
  files (snd out) = files w
  /\ (PosixPath.exists_ (files w) folder = Ok true -> exists r, fst out = Returned r)
  /\ (PosixPath.exists_ (files w) folder = Ok false ->
      fst out
      = Raised (IOError ("Folder " +:+ PurePath.to_string folder
                         +:+ " is not present.")))
  /\ (forall e, PosixPath.exists_ (files w) folder = Raise e ->
        fst out = Raised (Builtin e)
        /\ e = OSError ENAMETOOLONG (PurePath.to_string folder)).
Proof.
  intros Hcreate Hstem Hext Hnf Hnn Hne folder out.
  destruct (verify_path_stem dataio filedest filename ext false w Hstem Hext Hnf Hnn Hne)
    as (w1 & relpath & rfolder & Hw1 & _ & Htree & Hret).
  fold folder out in Htree, Hret. cbn [negb] in Htree, Hret.
  set (path := PurePath.mk (PurePath.root folder)
                 (PurePath.parts folder ++ [PyStr.lower filename +:+ ext])) in *.
  pose proof (verify_folder_cases dataio path w1) as Hcases.
  assert (Hpar : Pathlib.parent path = folder) by apply parent_snoc.
  cbv zeta in Hcases. rewrite !Hpar, Hcreate, Hw1 in Hcases.
  rewrite Htree, Hret.
  destruct (PosixPath.exists_ (files w) folder) as [[]|e0].
  - destruct Hcases as [-> ->]. split; [reflexivity|].
    split; [eauto|]. split; discriminate.
  - destruct Hcases as [-> ->]. split; [reflexivity|].
    split; [discriminate|]. split; [reflexivity | discriminate].
  - destruct Hcases as (-> & -> & ->). split; [reflexivity|].
    split; [discriminate|]. split; [discriminate|]. intros e [= <-]. auto.
Qed.

Lemma verify_path_folder_check_witness :
  let dataio := mkExportData WARNING (PurePath.of_string "/run") false None None in
  let w := World WARNING [] (Tree ["run"] {[ ["run"] := Directory ]}) in
  createfolder dataio = false /\ is_stem "top" = true /\ is_ext ".gri" = true
  /\ fst (verify_path dataio (AsStr "maps") "top" ".gri" false w)
     = Raised (IOError "Folder /run/maps is not present.").
Proof.
  intros dataio w. repeat (split; [reflexivity|]).
  destruct (verify_path_folder_check dataio (AsStr "maps") "top" ".gri"
              w eq_refl eq_refl eq_refl eq_refl eq_refl eq_refl) as (_ & _ & H & _).
  rewrite H; reflexivity.
Defined.

(** X5. With [createfolder], for a stem and an extension on a well-formed
    tree, with no U+0000 in them and in the folder: the call only adds
    directories to the tree; when it returns, the folder
    [_pwd / filedest] exists, as a directory if it was made; it never
    raises the [IOError] of a missing folder, what it raises is an
    [OSError]: the [NotADirectoryError] or the [FileExistsError] of a
    regular file met on the way, or the error of a name that is too long;
    and on a tree without regular files, for a folder whose names and
    whose length the kernel takes, it returns. *)
Theorem verify_path_creates_folder (dataio : ExportData) (filedest : pathlike)
    (filename ext : string) (w : world) :
  createfolder dataio = true ->
  is_stem filename = true -> is_ext ext = true -> tree_wf (files w) ->
  OS.has_nul (PurePath.to_string (_pwd dataio // pathlike_str filedest)) = false ->
  OS.has_nul filename = false -> OS.has_nul ext = false ->
  let folder := _pwd dataio // pathlike_str filedest in
  let out := verify_path dataio filedest filename ext false w in
  extends (files w) (files (snd out)) /\ tree_wf (files (snd out))
  /\ (forall r, fst out = Returned r ->
        PosixPath.exists_ (files (snd out)) folder = Ok true
        /\ (PosixPath.exists_ (files w) folder = Ok false ->
            PosixPath.is_dir (files (snd out)) folder = Ok true))
  /\ (forall e, fst out = Raised e ->
        PosixPath.exists_ (files w) folder <> Ok true
        /\ exists n filename,
             e = Builtin (OSError n filename)
             /\ (n = ENOTDIR \/ n = EEXIST \/ n = ENAMETOOLONG))
  /\ (dirs_only (files w) -> short_path folder = true ->
      exists r, fst out = Returned r).
Proof.
  intros Hcreate Hstem Hext Hwf Hnf Hnn Hne folder out.
  destruct (verify_path_stem dataio filedest filename ext false w Hstem Hext Hnf Hnn Hne)
    as (w1 & relpath & rfolder & Hw1 & _ & Htree & Hret).
  fold folder out in Htree, Hret. cbn [negb] in Htree, Hret.
  set (path := PurePath.mk (PurePath.root folder)
                 (PurePath.parts folder ++ [PyStr.lower filename +:+ ext])) in *.
  assert (Hpar : Pathlib.parent path = folder) by apply parent_snoc.
  assert (Hnp : OS.has_nul (PurePath.to_string path) = false).
  { unfold path. rewrite has_nul_snoc, path_eta, has_nul_app, has_nul_lower, Hnn, Hne.
    unfold folder. now rewrite Hnf. }
  pose proof (verify_folder_spec dataio path w1) as (Hext' & Hwf' & _).
  pose proof (verify_folder_cases dataio path w1) as Hcases.
  pose proof (verify_folder_raises dataio path w1) as Hfail.
  cbv zeta in Hcases. rewrite !Hpar, Hcreate, Hw1 in Hcases, Hfail.
  rewrite Hw1 in Hext', Hwf'.
  rewrite Htree, Hret. split; [exact Hext'|]. split; [auto|].
  destruct (mkdir_spec (files w) folder) as (_ & _ & Hdir & _ & Hmk).
  destruct (fst (verify_folder dataio path w1)) as [e|] eqn:Efst.
  - split; [discriminate|]. split; [intros e' [= <-]; now apply Hfail|].
    intros Hd Hshort. exfalso.
    destruct (exists_dirs_only (files w) folder Hd Hnf Hshort) as [b Hb].
    rewrite Hb in Hcases. destruct b; [destruct Hcases; discriminate|].
    destruct Hcases as [Hc _]. rewrite (Hmk Hwf Hd Hnf Hshort) in Hc. discriminate.
  - split; [|split; [discriminate | eauto]].
    intros r _.
    destruct (PosixPath.exists_ (files w) folder) as [[]|e0] eqn:Ex.
    + destruct Hcases as [_ ->]. split; [exact Ex | discriminate].
    + destruct Hcases as [Hc ->].
      destruct (fst (PosixPath.mkdir (files w) folder)); [discriminate|].
      split; [apply is_dir_exists|]; auto.
    + destruct Hcases as [Hc _]. discriminate.
Qed.

Lemma verify_path_creates_folder_witness :
  let dataio := mkExportData WARNING
                  (PurePath.of_string "/case/realization-0/iter-0/rms/model")
                  true None None in
  let t := Tree ["case"; "realization-0"; "iter-0"; "rms"; "model"]
             {[ ["case"] := Directory;
                ["case"; "realization-0"] := Directory;
                ["case"; "realization-0"; "iter-0"] := Directory;
                ["case"; "realization-0"; "iter-0"; "rms"] := Directory;
                ["case"; "realization-0"; "iter-0"; "rms"; "model"] := Directory ]} in
  let out := verify_path dataio (AsStr "../../share/results/maps") "top" ".gri"
               false (World WARNING [] t) in
  createfolder dataio = true /\ is_stem "top" = true /\ is_ext ".gri" = true
  /\ tree_wf t
  /\ (exists r, fst out = Returned r)
  /\ nodes (files (snd out))
       !! ["case"; "realization-0"; "iter-0"; "share"; "results"; "maps"]
     = Some Directory.
Proof.
  intros dataio t out. repeat (split; [reflexivity|]).
  assert (Hwf : tree_wf t) by (apply tree_wfb_sound; vm_compute; reflexivity).
  split; [exact Hwf|].
  destruct (verify_path_creates_folder dataio (AsStr "../../share/results/maps")
              "top" ".gri" (World WARNING [] t) eq_refl eq_refl eq_refl Hwf
              eq_refl eq_refl eq_refl)
    as (_ & _ & _ & _ & Hret).
  split; [|vm_compute; reflexivity].
  apply Hret; [apply dirs_onlyb_sound; vm_compute; reflexivity | reflexivity].
Defined.

Lemma resolve_ordinary (t : tree) (p q : Path) :
  forallb ordinary (cwd t) = true ->
  PosixPath.resolve t p = Ok q ->
  PurePath.root q = "/" /\ forallb ordinary (PurePath.parts q) = true.
Proof.
  intros Hcwd H. destruct (resolve_returns _ _ _ H) as [_ ->].
  cbn [PurePath.root PurePath.parts].
  split; [reflexivity|]. apply resolve_names_ordinary.
  unfold OS.start. now destruct (Pathlib.is_absolute p).
Qed.

(** What the call returns, whatever the arguments. *)
Lemma verify_path_returned (dataio : ExportData) (filedest : pathlike)
    (filename ext : string) (dryrun : bool) (w : world)
    (path metapath abspath : Path) (relpath : string) :
  fst (verify_path dataio filedest filename ext dryrun w)
  = Returned (path, metapath, relpath, abspath) ->
  let folder := _pwd dataio // pathlike_str filedest in
  Pathlib.with_suffix (folder // PyStr.lower filename)
    (Pathlib.suffix (folder // PyStr.lower filename) +:+ ext) = Ok path
  /\ PosixPath.resolve (files w) path = Ok abspath
  /\ (exists m,
        Pathlib.with_suffix (folder // ("." +:+ PyStr.lower filename)) (ext +:+ ".yml")
        = Ok m
        /\ PosixPath.resolve (files w) m = Ok metapath)
  /\ relpath
     = match _realfolder dataio, _iterfolder dataio with
       | Some realfolder, Some iterfolder =>
           Pathlib.join (realfolder +:+ "/" +:+ iterfolder)
                        (PyStr.replace "../" "" (pathlike_str filedest))
       | _, _ => PyStr.replace "../" "" (pathlike_str filedest)
       end +:+ "/" +:+ PyStr.lower filename +:+ ext.
Proof.
  unfold verify_path. cbv zeta.
  set (folder := _pwd dataio // pathlike_str filedest).
  set (w0 := log DEBUG _ (log DEBUG _ (log DEBUG _ (setLevel _ w)))).
  assert (Hw0 : files w0 = files w) by (unfold w0; now rewrite !log_files).
  destruct (Pathlib.with_suffix (folder // PyStr.lower filename) _) as [p|e1];
    [|discriminate].
  rewrite Hw0.
  destruct (PosixPath.resolve (files w) p) as [a|e0] eqn:R1; [|discriminate].
  set (w1 := log DEBUG _ w0).
  assert (Hcwd : cwd (files (snd (if negb dryrun then verify_folder dataio p w1
                                  else (None, w1)))) = cwd (files w)).
  { destruct dryrun; cbn [negb snd]; [unfold w1; now rewrite log_files, Hw0|].
    destruct (verify_folder_spec dataio p w1) as ((Hcwd & _) & _).
    rewrite Hcwd. unfold w1. now rewrite log_files, Hw0. }
  destruct (if negb dryrun then _ else _) as [failure w'].
  cbn [snd] in Hcwd. destruct failure; [discriminate|].
  destruct (Pathlib.with_suffix (folder // ("." +:+ PyStr.lower filename)) _)
    as [m|e2]; [|discriminate].
  rewrite (resolve_cwd (files w') (files w) m Hcwd).
  destruct (PosixPath.resolve (files w) m) as [m'|e3] eqn:R2; [|discriminate].
  cbn [fst]. intros [= <- <- <- <-].
  split; [reflexivity|]. split; [exact R1|].
  split; [exists m; split; [reflexivity | exact R2]|].
  reflexivity.
Qed.

(** X6. The two paths the call returns for the file and for its metadata
    are absolute and made of ordinary names (no empty name, no [.], no
    [..]), when the working directory is; and where the kernel finds
    [path], it is at [abspath]. *)
Theorem verify_path_absolute (dataio : ExportData) (filedest : pathlike)
    (filename ext : string) (dryrun : bool) (w : world)
    (path metapath abspath : Path) (relpath : string) :
  forallb ordinary (cwd (files w)) = true ->
  fst (verify_path dataio filedest filename ext dryrun w)
  = Returned (path, metapath, relpath, abspath) ->
  PurePath.root abspath = "/"
  /\ forallb ordinary (PurePath.parts abspath) = true
  /\ PurePath.root metapath = "/"
  /\ forallb ordinary (PurePath.parts metapath) = true
  /\ forall there,
       OS.walk (files w) (OS.start (files w) path) (PurePath.parts path) = inl there ->
       there = PurePath.parts abspath.
Proof.
  intros Hcwd Hret.
  destruct (verify_path_returned _ _ _ _ _ _ _ _ _ _ Hret)
    as (_ & Ha & (m & _ & Hm) & _).
  destruct (resolve_ordinary _ _ _ Hcwd Ha) as [R1 O1].
  destruct (resolve_ordinary _ _ _ Hcwd Hm) as [R2 O2].
  repeat (split; [assumption|]).
  intros there Hwalk. apply walk_resolve in Hwalk.
  destruct (resolve_returns _ _ _ Ha) as [_ ->]. exact Hwalk.
Qed.

Lemma verify_path_absolute_witness :
  let dataio := mkExportData WARNING (PurePath.of_string "x/../y") false None None in
  let w := World WARNING [] (Tree ["case"; "rms"] ∅) in
  forallb ordinary (cwd (files w)) = true
  /\ exists path metapath relpath abspath,
       fst (verify_path dataio (AsStr "../.././maps//") "Top.Volantis" ".gri" true w)
       = Returned (path, metapath, relpath, abspath)
       /\ PurePath.to_string path = "x/../y/../../maps/top.volantis.gri"
       /\ PurePath.to_string abspath = "/case/maps/top.volantis.gri"
       /\ forallb ordinary (PurePath.parts abspath) = true.
Proof.
  intros dataio w. split; [reflexivity|].
  eexists _, _, _, _. split; [vm_compute; reflexivity|].
  split; [reflexivity|]. split; [reflexivity|].
  refine (proj1 (proj2 (verify_path_absolute dataio (AsStr "../.././maps//")
                          "Top.Volantis" ".gri" true w
                          _ _ _ _ eq_refl _))).
  vm_compute. reflexivity.
Defined.

Lemma prefix_slash_root (s : string) :
  String.prefix "/" s = true ->
  PyStr.nonempty (PurePath.root (PurePath.of_string s)) = true.
Proof.
  destruct s as [|c r]; [discriminate|]. cbn [String.prefix].
  destruct (ascii_dec "/" c) as [<-|]; [|discriminate]. intros _.
  unfold PurePath.of_string, PurePath.splitroot.
  cbn [PurePath.leading_slashes]. change (PurePath.is_slash "/") with true.
  cbv iota. destruct (PurePath.leading_slashes r) as [|[|n]]; reflexivity.
Qed.

Lemma truediv_absolute (p : Path) (s : string) :
  Pathlib.is_absolute p = true \/ String.prefix "/" s = true ->
  Pathlib.is_absolute (p // s) = true.
Proof.
  unfold Pathlib.is_absolute, PurePath.truediv.
  destruct (PurePath.root (PurePath.of_string s)) as [|c r] eqn:E.
  - intros [H|H]; [exact H|]. apply prefix_slash_root in H. now rewrite E in H.
  - intros _. now rewrite E.
Qed.

Lemma replace_rooted (old' new s : string) :
  String.prefix "/" s = true ->
  String.prefix "/" (PyStr.replace (String "." old') new s) = true.
Proof.
  destruct s as [|c r]; [discriminate|]. cbn [String.prefix].
  destruct (ascii_dec "/" c) as [<-|]; [|discriminate]. intros _.
  unfold PyStr.replace. cbn [PyStr.replace_scan String.prefix].
  destruct (ascii_dec "." "/"); [discriminate|].
  cbn [String.prefix]. destruct (ascii_dec "/" "/"); [|contradiction].
  now destruct (PyStr.replace_scan _ _ _ _).
Qed.

Lemma join_rooted (a b : string) : String.prefix "/" b = true -> Pathlib.join a b = b.
Proof. unfold Pathlib.join. now intros ->. Qed.

Lemma prefix_app (p s1 s2 : string) :
  String.prefix p s1 = true -> String.prefix p (s1 +:+ s2) = true.
Proof.
  revert s1. induction p as [|c p IH]; intros s1; [now destruct (s1 +:+ s2)|].
  destruct s1 as [|x s1]; [discriminate|]. rewrite append_cons.
  cbn [String.prefix]. destruct (ascii_dec c x); [apply IH | discriminate].
Qed.

(** X7. A [filedest] that starts with a slash takes the place of [_pwd]
    and of the folders of the realization and the iteration: [path] is
    absolute whatever [_pwd] is, and the relative path the call returns
    starts with a slash. *)
Theorem verify_path_rooted (dataio : ExportData) (filedest : pathlike)
    (filename ext : string) (dryrun : bool) (w : world)
    (path metapath abspath : Path) (relpath : string) :
  String.prefix "/" (pathlike_str filedest) = true ->
  fst (verify_path dataio filedest filename ext dryrun w)
  = Returned (path, metapath, relpath, abspath) ->
  Pathlib.is_absolute path = true
  /\ relpath = PyStr.replace "../" "" (pathlike_str filedest)
               +:+ "/" +:+ PyStr.lower filename +:+ ext
  /\ String.prefix "/" relpath = true.
Proof.
  intros Hroot Hret.
  destruct (verify_path_returned _ _ _ _ _ _ _ _ _ _ Hret)
    as (Hpath & _ & _ & Hrel).
  pose proof (replace_rooted "./" "" _ Hroot) as Hclean.
  assert (Hrel' : relpath = PyStr.replace "../" "" (pathlike_str filedest)
                            +:+ "/" +:+ PyStr.lower filename +:+ ext).
  { rewrite Hrel. destruct (_realfolder dataio), (_iterfolder dataio);
      try reflexivity. now rewrite join_rooted. }
  split; [|split; [exact Hrel' | rewrite Hrel'; now apply prefix_app]].
  unfold Pathlib.is_absolute. rewrite (with_suffix_root _ _ _ Hpath).
  apply truediv_absolute. left. apply truediv_absolute. now right.
Qed.

Lemma verify_path_rooted_witness :
  let dataio := mkExportData WARNING (PurePath.of_string "/case/rms")
                  false (Some "realization-0") (Some "iter-0") in
  let w := World WARNING [] (Tree ["case"; "rms"] ∅) in
  String.prefix "/" (pathlike_str (AsStr "/tmp/out/cubes")) = true
  /\ exists path metapath abspath,
       fst (verify_path dataio (AsStr "/tmp/out/cubes") "testcube" ".segy" true w)
       = Returned (path, metapath, "/tmp/out/cubes/testcube.segy", abspath)
       /\ Pathlib.is_absolute path = true.
Proof.
  intros dataio w. split; [reflexivity|].
  eexists _, _, _. split; [vm_compute; reflexivity|].
  refine (proj1 (verify_path_rooted dataio (AsStr "/tmp/out/cubes") "testcube"
                   ".segy" true w _ _ _ _ eq_refl _)).
  vm_compute. reflexivity.
Defined.

(* ===================================================================== *)
(** * More properties of [construct_filename] *)
(* ===================================================================== *)

Lemma construct_filename_ok (a : filename_args) (v : loglevel) (w : world)
    (stem : string) (dest : Path) :
  fst (construct_filename a v w) = Ok (stem, dest) ->
  fmu a = 1%Z /\ stem = convention_stem a /\ dest = convention_dest a.
Proof.
  intros H. destruct (construct_filename_cases a v w) as [_ Hret].
  destruct (Z.eqb_spec (fmu a) 1) as [Hfmu|_]; [|rewrite Hret in H; discriminate H].
  split; [exact Hfmu|].
  split; [exact (stem_convention a v w dest stem H Hfmu)
         | exact (dest_convention a v w dest stem H Hfmu)].
Qed.

Lemma sanitize_clean (s : string) : string_forall clean_char (sanitize s) = true.
Proof.
  induction s as [|c r IH]; [reflexivity|]. cbn [sanitize string_forall].
  rewrite IH, andb_true_r. unfold sanitize_char, clean_char.
  destruct (Ascii.eqb c "." || Ascii.eqb c " ") eqn:E; [reflexivity|].
  now rewrite E.
Qed.

Lemma lower_sanitize (s : string) :
  PyStr.lower (sanitize s) = sanitize (PyStr.lower s).
Proof.
  induction s as [|c r IH]; [reflexivity|]. cbn [sanitize PyStr.lower].
  rewrite IH. f_equal. clear.
  destruct c as [[] [] [] [] [] [] [] []]; vm_compute; reflexivity.
Qed.

(** The stem before dots and blanks are replaced is made of lowercased
    pieces. *)
Lemma convention_stem_lower (a : filename_args) :
  PyStr.lower (convention_stem a) = convention_stem a.
Proof.
  unfold convention_stem. rewrite lower_sanitize. f_equal.
  unfold given_name, given_time.
  destruct (tagname a) as [tag|]; [destruct (PyStr.nonempty tag)|];
    (destruct (pretagname a) as [pre|]; [destruct (PyStr.nonempty pre)|]);
    (destruct (t1 a) as [x1|]; [destruct (tstamp_truthy x1)|]);
    (destruct (t2 a) as [x2|]; [destruct (tstamp_truthy x2)|]);
    rewrite ?lower_app, ?lower_idem; reflexivity.
Qed.

(** X8. The stem [construct_filename] returns holds no dot and no blank,
    whatever the arguments, and no capital letter: [lower] leaves it
    unchanged. *)
Theorem construct_filename_stem_clean
    (a : filename_args) (v : loglevel) (w : world) (stem : string) (dest : Path) :
  fst (construct_filename a v w) = Ok (stem, dest) ->
  string_forall clean_char stem = true /\ PyStr.lower stem = stem.
Proof.
  intros H. destruct (construct_filename_ok a v w stem dest H) as (_ & -> & _).
  split; [apply sanitize_clean | apply convention_stem_lower].
Qed.

Lemma construct_filename_stem_clean_witness :
  let a := FilenameArgs "Top. Volantis" (Some "Pre.Tag") (Some "what Descr")
             (Some (TStr "2020.01.01")) None None 1 "../../share/results/" "surface" in
  fst (construct_filename a WARNING (World WARNING [] (Tree [] ∅)))
  = Ok ("pre_tag--top__volantis--what_descr--2020_01_01",
        PurePath.mk "" [".."; ".."; "share"; "results"; "maps"])
  /\ string_forall clean_char "pre_tag--top__volantis--what_descr--2020_01_01" = true.
Proof.
  intros a.
  assert (H : fst (construct_filename a WARNING (World WARNING [] (Tree [] ∅)))
              = Ok ("pre_tag--top__volantis--what_descr--2020_01_01",
                    PurePath.mk "" [".."; ".."; "share"; "results"; "maps"]))
    by (vm_compute; reflexivity).
  split; [exact H|].
  exact (proj1 (construct_filename_stem_clean a WARNING (World WARNING [] (Tree [] ∅)) _ _ H)).
Defined.

(* ===================================================================== *)
(** * [construct_filename] followed by [verify_path] *)
(* ===================================================================== *)

Lemma folder_of_cases (P : string -> Prop) (loc : string) :
  P "maps" -> P "grids" -> P "tables" -> P "polygons" -> P "cubes" -> P "other" ->
  P (folder_of loc).
Proof.
  intros. rewrite <- (folder_of_chain Prop P loc).
  repeat (match goal with |- context [String.eqb loc ?k] =>
            destruct (String.eqb loc k) end; [assumption|]).
  assumption.
Qed.

Lemma endswith_app (c : ascii) (s1 s2 : string) :
  PyStr.nonempty s2 = true ->
  Pathlib.endswith c (s1 +:+ s2) = Pathlib.endswith c s2.
Proof.
  intros Hne. induction s1 as [|x r IH]; [now rewrite append_nil_l|].
  rewrite append_cons. cbn [Pathlib.endswith]. rewrite IH.
  destruct (r +:+ s2) eqn:E; [|reflexivity].
  destruct r; [rewrite append_nil_l in E; now subst | now rewrite append_cons in E].
Qed.

(** The destination under the default [outroot], as a string and with
    its ["../"] removed. *)
Lemma default_dest_relative (loc : string) :
  PyStr.replace "../" ""
    (PurePath.to_string
       (PurePath.mk "" [".."; ".."; "share"; "results"; folder_of loc]))
  = "share/results/" +:+ folder_of loc
  /\ String.prefix "/" ("share/results/" +:+ folder_of loc) = false.
Proof.
  apply (folder_of_cases
           (fun f =>
              PyStr.replace "../" ""
                (PurePath.to_string (PurePath.mk "" [".."; ".."; "share"; "results"; f]))
              = "share/results/" +:+ f
              /\ String.prefix "/" ("share/results/" +:+ f) = false));
    now vm_compute.
Qed.

(** X9. The stem and the destination of [construct_filename] under the
    default [outroot], given to [verify_path] with the folders of the
    realization and the iteration: the relative path of the file is
    [realization/iteration/share/results/], the folder of the kind of
    object, and the stem with the extension. *)
Theorem export_relative_path
    (a : filename_args) (v : loglevel) (w0 : world) (stem : string) (dest : Path)
    (dataio : ExportData) (realfolder iterfolder ext : string) (dryrun : bool)
    (w : world) (path metapath abspath : Path) (relpath : string) :
  fst (construct_filename a v w0) = Ok (stem, dest) ->
  outroot a = "../../share/results/" -> subfolder a = None ->
  _realfolder dataio = Some realfolder -> _iterfolder dataio = Some iterfolder ->
  PyStr.nonempty iterfolder = true -> Pathlib.endswith "/" iterfolder = false ->
  fst (verify_path dataio (AsPath dest) stem ext dryrun w)
  = Returned (path, metapath, relpath, abspath) ->
  relpath
  = (realfolder +:+ "/" +:+ iterfolder) +:+ "/"
    +:+ ("share/results/" +:+ folder_of (loc a)) +:+ "/" +:+ stem +:+ ext.
Proof.
  intros Hcf Hout Hsub Hreal Hiter Hne Hend Hret.
  destruct (construct_filename_ok a v w0 stem dest Hcf) as (_ & Hstem & Hdest).
  destruct (verify_path_returned _ _ _ _ _ _ _ _ _ _ Hret) as (_ & _ & _ & ->).
  rewrite Hreal, Hiter. cbn [pathlike_str].
  assert (Hlow : PyStr.lower stem = stem)
    by (rewrite Hstem; apply convention_stem_lower).
  rewrite Hlow.
  assert (Hd : dest = PurePath.mk "" [".."; ".."; "share"; "results"; folder_of (loc a)]).
  { rewrite Hdest. unfold convention_dest. now rewrite Hsub, Hout. }
  rewrite Hd. destruct (default_dest_relative (loc a)) as [-> Hrel].
  unfold Pathlib.join. rewrite Hrel.
  rewrite nonempty_app, (endswith_app "/" realfolder ("/" +:+ iterfolder)).
  - rewrite (endswith_app "/" "/" iterfolder Hne), Hend, orb_true_r.
    cbn [negb orb]. now rewrite !append_assoc.
  - reflexivity.
Qed.

Lemma export_relative_path_witness :
  let a := FilenameArgs "Volantis" None (Some "what Descr") None None None
             1 "../../share/results/" "cube" in
  let dataio := mkExportData INFO
                  (PurePath.of_string "/scratch/mycase/realization-0/iter-0/rms/model")
                  true (Some "realization-0") (Some "iter-0") in
  let w := World WARNING []
             (Tree ["scratch"; "mycase"; "realization-0"; "iter-0"; "rms"; "model"] ∅) in
  exists stem dest path metapath abspath,
    fst (construct_filename a INFO w) = Ok (stem, dest)
    /\ fst (verify_path dataio (AsPath dest) stem ".segy" true w)
       = Returned
           (path, metapath,
            "realization-0/iter-0/share/results/cubes/volantis--what_descr.segy",
            abspath).
Proof.
  intros a dataio w.
  destruct (fst (construct_filename a INFO w))
    as [[stem dest]|e] eqn:Hcf; [|discriminate Hcf].
  destruct (fst (verify_path dataio (AsPath dest) stem ".segy" true w))
    as [[[[path metapath] relpath] abspath]|e] eqn:Hret.
  - exists stem, dest, path, metapath, abspath. split; [reflexivity|].
    pose proof (export_relative_path a INFO w stem dest dataio
                  "realization-0" "iter-0" ".segy" true w
                  path metapath abspath relpath Hcf eq_refl eq_refl eq_refl eq_refl
                  eq_refl eq_refl Hret) as Hrel.
    vm_compute in Hcf. injection Hcf as <- _. rewrite Hret, Hrel. reflexivity.
  - vm_compute in Hcf. injection Hcf as <- <-. vm_compute in Hret. discriminate Hret.
Defined.

(* ===================================================================== *)
(** * File names with a dot *)
(* ===================================================================== *)

Lemma rfind_app (c : ascii) (s1 s2 : string) :
  Pathlib.rfind c s2 = None ->
  Pathlib.rfind c (s1 +:+ String c s2) = Some (String.length s1).
Proof.
  intros H2. induction s1 as [|x r IH].
  - rewrite append_nil_l. cbn [Pathlib.rfind String.length].
    now rewrite H2, Ascii.eqb_refl.
  - rewrite append_cons. cbn [Pathlib.rfind String.length]. now rewrite IH.
Qed.

Lemma substring_all (s : string) : String.substring 0 (String.length s) s = s.
Proof. induction s as [|c r IH]; [reflexivity|]. cbn. now rewrite IH. Qed.

Lemma substring_app_l (s1 s2 : string) :
  String.substring 0 (String.length s1) (s1 +:+ s2) = s1.
Proof.
  induction s1 as [|c r IH]; [rewrite append_nil_l; now destruct s2|].
  rewrite append_cons. cbn. now rewrite IH.
Qed.

Lemma substring_app_r (s1 s2 : string) :
  String.substring (String.length s1) (String.length s2) (s1 +:+ s2) = s2.
Proof.
  induction s1 as [|c r IH]; [rewrite append_nil_l; apply substring_all|].
  rewrite append_cons. cbn. exact IH.
Qed.

Lemma nonempty_length (s : string) : PyStr.nonempty s = true -> 0 < String.length s.
Proof. destruct s; [discriminate | cbn; lia]. Qed.

(** The suffix of a name made of a stem, a dot and a stem, with anything
    without dot in front. *)
Lemma suffix_dotted (p : Path) (front stem tail : string) :
  PyStr.nonempty (front +:+ stem) = true ->
  Pathlib.rfind "." tail = None -> PyStr.nonempty tail = true ->
  Pathlib.suffix
    (PurePath.mk (PurePath.root p)
                 (PurePath.parts p ++ [(front +:+ stem) +:+ String "." tail]))
  = String "." tail.
Proof.
  intros Hne Hdot Htail. unfold Pathlib.suffix, Pathlib.name.
  cbn [PurePath.parts]. rewrite last_snoc, (rfind_app "." _ tail Hdot).
  generalize dependent (front +:+ stem). intros A Hne.
  rewrite length_append. cbn [String.length].
  pose proof (nonempty_length _ Hne). pose proof (nonempty_length _ Htail).
  destruct (Nat.ltb_spec 0 (String.length A)); [|lia].
  destruct (Nat.ltb_spec (String.length A)
              (String.length A + S (String.length tail) - 1)); [|lia].
  cbn [andb].
  replace (String.length A + S (String.length tail) - String.length A)
    with (String.length (String "." tail)) by (cbn [String.length]; lia).
  apply substring_app_r.
Qed.

Lemma with_suffix_dotted (p : Path) (front stem tail new : string) :
  PyStr.nonempty (front +:+ stem) = true ->
  Pathlib.rfind "." tail = None -> PyStr.nonempty tail = true ->
  Pathlib.contains "/" new = false -> String.prefix "." new = true ->
  String.eqb new "." = false ->
  Pathlib.with_suffix
    (PurePath.mk (PurePath.root p)
                 (PurePath.parts p ++ [(front +:+ stem) +:+ String "." tail]))
    new
  = Ok (PurePath.mk (PurePath.root p) (PurePath.parts p ++ [(front +:+ stem) +:+ new])).
Proof.
  intros Hne Hdot Htail Hslash Hpre Hnew. unfold Pathlib.with_suffix.
  rewrite Hslash, Hpre, Hnew, andb_false_r. cbn [orb].
  rewrite (suffix_dotted p front stem tail Hne Hdot Htail).
  unfold Pathlib.name. cbn [PurePath.parts PurePath.root].
  rewrite last_snoc, removelast_snoc, nonempty_app, Hne.
  cbn [orb negb PyStr.nonempty].
  generalize dependent (front +:+ stem). intros A Hne.
  rewrite length_append.
  replace (String.length A + String.length (String "." tail)
           - String.length (String "." tail))
    with (String.length A) by lia.
  now rewrite substring_app_l.
Qed.

(** X10. A file name with a dot: for a name made of a stem, a dot and a
    stem, with no U+0000 in it, in the extension and in the folder, the
    file keeps the whole name in front of the extension, while the name
    of the metadata file loses what follows the dot. Two files whose
    names differ after the dot have one metadata file. *)
Theorem verify_path_dotted_name (dataio : ExportData) (filedest : pathlike)
    (stem tail ext : string) (w : world) :
  is_stem stem = true -> is_stem tail = true -> is_ext ext = true ->
  OS.has_nul (PurePath.to_string (_pwd dataio // pathlike_str filedest)) = false ->
  OS.has_nul stem = false -> OS.has_nul tail = false -> OS.has_nul ext = false ->
  let folder := _pwd dataio // pathlike_str filedest in
  exists rfolder path relpath abspath,
    PosixPath.resolve (files w) folder = Ok rfolder
    /\ fst (verify_path dataio filedest (stem +:+ "." +:+ tail) ext true w)
       = Returned
           (path,
            PurePath.mk "/" (PurePath.parts rfolder
                             ++ ["." +:+ PyStr.lower stem +:+ ext +:+ ".yml"]),
            relpath, abspath)
    /\ Pathlib.name path
       = PyStr.lower stem +:+ "." +:+ PyStr.lower tail +:+ ext.
Proof.
  intros Hstem Htail Hext Hnf Hns0 Hnt Hne0 folder.
  assert (HzL : OS.has_nul (PyStr.lower stem) = false) by now rewrite has_nul_lower.
  assert (HzT : OS.has_nul (PyStr.lower tail) = false) by now rewrite has_nul_lower.
  assert (HL0 : is_stem (PyStr.lower stem) = true) by now rewrite lower_stem.
  assert (HL : is_stem (PyStr.lower stem) = true) by now rewrite lower_stem.
  assert (HT : is_stem (PyStr.lower tail) = true) by now rewrite lower_stem.
  set (L := PyStr.lower stem) in *. set (T := PyStr.lower tail) in *.
  assert (Hlow : PyStr.lower (stem +:+ "." +:+ tail) = L +:+ String "." T).
  { now rewrite !lower_app. }
  unfold is_stem in HL, HT. apply andb_true_iff in HL as [HLne HLp].
  apply andb_true_iff in HT as [HTne HTp].
  unfold is_ext in Hext. rewrite !andb_true_iff, negb_true_iff in Hext.
  destruct Hext as [[Hdot Hlen] Hslash].
  pose proof (stem_no_dot _ HTp) as HTdot.
  assert (Hslash' : forall s, string_forall plain_char s = true ->
                      Pathlib.contains "/" s = false).
  { intros s. induction s as [|c r IH]; [reflexivity|]. cbn [string_forall Pathlib.contains].
    rewrite andb_true_iff. intros [Hc Hr]. rewrite (IH Hr), orb_false_r.
    unfold plain_char in Hc. rewrite negb_true_iff, orb_false_iff in Hc. tauto. }
  assert (Hns : forall s, Pathlib.contains "/" s = false ->
                  string_forall (fun c => negb (Ascii.eqb "/" c)) s = true).
  { intros s. induction s as [|c r IH]; [reflexivity|]. cbn [string_forall Pathlib.contains].
    rewrite orb_false_iff. intros [Hc Hr]. rewrite (IH Hr), andb_true_r.
    now rewrite Ascii.eqb_sym, Hc. }
  assert (Hname : forall front,
            (front = "" \/ front = ".") ->
            folder // (front +:+ L +:+ String "." T)
            = PurePath.mk (PurePath.root folder)
                (PurePath.parts folder ++ [(front +:+ L) +:+ String "." T])).
  { intros front Hfront. rewrite <- append_assoc. apply truediv_name.
    - rewrite !nonempty_app, HLne. now rewrite orb_true_r.
    - apply Hns. rewrite !contains_app. cbn [Pathlib.contains].
      rewrite (Hslash' _ HLp), (Hslash' _ HTp).
      now destruct Hfront as [-> | ->].
    - destruct L as [|c r]; [discriminate|].
      cbn [string_forall] in HLp. apply andb_true_iff in HLp as [Hc _].
      unfold plain_char in Hc. rewrite negb_true_iff, orb_false_iff in Hc.
      destruct Hc as [Hc _].
      destruct Hfront as [-> | ->].
      + rewrite append_nil_l, append_cons. intros H. injection H as E _.
        subst c. discriminate Hc.
      + rewrite (append_cons "." ""), append_nil_l, append_cons. discriminate. }
  assert (Hne : forall front, PyStr.nonempty (front +:+ L) = true).
  { intros front. now rewrite nonempty_app, HLne, orb_true_r. }
  pose proof (Hname "" (or_introl eq_refl)) as Hpath.
  pose proof (Hname "." (or_intror eq_refl)) as Hmeta.
  rewrite append_nil_l in Hpath.
  assert (E1 : Pathlib.with_suffix (folder // PyStr.lower (stem +:+ "." +:+ tail))
                 (Pathlib.suffix (folder // PyStr.lower (stem +:+ "." +:+ tail)) +:+ ext)
               = Ok (PurePath.mk (PurePath.root folder)
                       (PurePath.parts folder ++ [L +:+ String "." T +:+ ext]))).
  { rewrite Hlow, Hpath.
    rewrite (suffix_dotted folder "" L T (Hne "") HTdot HTne).
    rewrite (with_suffix_dotted folder "" L T (String "." T +:+ ext)
               (Hne "") HTdot HTne).
    - now rewrite !append_nil_l.
    - rewrite append_cons. cbn [Pathlib.contains].
      now rewrite contains_app, (Hslash' _ HTp), Hslash.
    - rewrite append_cons. cbn [String.prefix].
      destruct (ascii_dec "." "."); [now destruct (T +:+ ext) | contradiction].
    - rewrite append_cons. destruct T; [discriminate | reflexivity]. }
  assert (E2 : Pathlib.with_suffix
                 (folder // ("." +:+ PyStr.lower (stem +:+ "." +:+ tail)))
                 (ext +:+ ".yml")
               = Ok (PurePath.mk (PurePath.root folder)
                       (PurePath.parts folder ++ ["." +:+ L +:+ ext +:+ ".yml"]))).
  { rewrite Hlow, Hmeta.
    rewrite (with_suffix_dotted folder "." L T (ext +:+ ".yml")
               (Hne ".") HTdot HTne).
    - now rewrite append_assoc.
    - rewrite contains_app, Hslash. reflexivity.
    - now apply prefix_app.
    - destruct ext as [|c e]; [discriminate|]. rewrite append_cons.
      destruct e as [|x e]; [discriminate Hlen|]. rewrite append_cons.
      cbn [String.eqb]. apply andb_false_r. }
  set (rparts := PosixPath.resolve_names (OS.start (files w) folder)
                   (PurePath.parts folder)).
  exists (PurePath.mk "/" rparts).
  assert (R1 : PosixPath.resolve (files w)
                 (PurePath.mk (PurePath.root folder)
                    (PurePath.parts folder ++ [L +:+ String "." T +:+ ext]))
               = Ok (PurePath.mk "/" (rparts ++ [L +:+ String "." T +:+ ext]))).
  { apply resolve_snoc; [exact Hnf | | now apply stem_ext_ordinary].
    rewrite has_nul_app, (append_cons "." T ext). unfold OS.has_nul at 2.
    cbn [Pathlib.contains]. fold (OS.has_nul (T +:+ ext)).
    now rewrite has_nul_app, HzL, HzT, Hne0. }
  assert (R2 : PosixPath.resolve (files w)
                 (PurePath.mk (PurePath.root folder)
                    (PurePath.parts folder ++ ["." +:+ L +:+ ext +:+ ".yml"]))
               = Ok (PurePath.mk "/" (rparts ++ ["." +:+ L +:+ ext +:+ ".yml"]))).
  { apply resolve_snoc; [exact Hnf | | now apply hidden_name_ordinary].
    now rewrite !has_nul_app, HzL, Hne0. }
  unfold verify_path. cbv zeta. fold folder. rewrite E1, E2. cbn [negb].
  rewrite !log_files. cbn [setLevel files]. rewrite R1, R2. cbn [fst].
  do 3 eexists. split; [now apply resolve_ok|]. split; [reflexivity|].
  unfold Pathlib.name. cbn [PurePath.parts]. rewrite last_snoc.
  now rewrite (append_cons "." "" (T +:+ ext)), append_nil_l.
Qed.

Lemma verify_path_dotted_name_witness :
  let dataio := mkExportData WARNING (PurePath.of_string "/case/rms") false None None in
  let w := World WARNING [] (Tree ["case"; "rms"] ∅) in
  let call := fun filename =>
    fst (verify_path dataio (AsStr "../maps") filename ".gri" true w) in
  is_stem "topvolantis" = true /\ is_stem "depth" = true /\ is_ext ".gri" = true
  /\ (exists path relpath abspath,
        call "topvolantis.depth"
        = Returned (path, PurePath.of_string "/case/maps/.topvolantis.gri.yml",
                    relpath, abspath))
  /\ (exists path relpath abspath,
        call "topvolantis.time"
        = Returned (path, PurePath.of_string "/case/maps/.topvolantis.gri.yml",
                    relpath, abspath)).
Proof.
  intros dataio w call. repeat (split; [reflexivity|]).
  split.
  - destruct (verify_path_dotted_name dataio (AsStr "../maps") "topvolantis" "depth"
                ".gri" w eq_refl eq_refl eq_refl eq_refl eq_refl eq_refl eq_refl)
      as (rfolder & path & relpath & abspath & Hres & Hret & _).
    exists path, relpath, abspath.
    vm_compute in Hres. injection Hres as <-. exact Hret.
  - destruct (verify_path_dotted_name dataio (AsStr "../maps") "topvolantis" "time"
                ".gri" w eq_refl eq_refl eq_refl eq_refl eq_refl eq_refl eq_refl)
      as (rfolder & path & relpath & abspath & Hres & Hret & _).
    exists path, relpath, abspath.
    vm_compute in Hres. injection Hres as <-. exact Hret.
Defined.

(* ===================================================================== *)
(** * [drop_nones] at every level *)
(* ===================================================================== *)

Section PyvalInduction.

Variable P : pyval -> Prop.

Hypothesis HNone : P VNone.
Hypothesis HBool : forall b, P (VBool b).
Hypothesis HInt : forall z, P (VInt z).
Hypothesis HFloat : forall f, P (VFloat f).
Hypothesis HStr : forall s, P (VStr s).
Hypothesis HDict :
  forall items, List.Forall (fun kv => P (snd kv)) items -> P (VDict items).
Hypothesis HList : forall l, List.Forall P l -> P (VList l).
Hypothesis HTuple : forall l, List.Forall P l -> P (VTuple l).
Hypothesis HSet : forall l, List.Forall P l -> P (VSet l).

(** Induction on a value with the hypothesis for every value it holds. *)
Lemma pyval_deep_ind : forall v : pyval, P v.
Proof.
  fix IH 1. intros v.
  assert (elems : forall l : list pyval, List.Forall P l).
  { intros l. induction l as [|x r IHr]; constructor; [apply IH | exact IHr]. }
  destruct v as [| b | z | f | s | items | l | l | l].
  - exact HNone.
  - apply HBool.
  - apply HInt.
  - apply HFloat.
  - apply HStr.
  - apply HDict. induction items as [|[k x] r IHr]; constructor;
      [apply IH | exact IHr].
  - apply HList, elems.
  - apply HTuple, elems.
  - apply HSet, elems.
Qed.

End PyvalInduction.

Lemma distinct_spec (l : list string) : distinct l = true <-> List.NoDup l.
Proof.
  induction l as [|x r IH]; cbn [distinct].
  - split; [constructor | reflexivity].
  - rewrite andb_true_iff, negb_true_iff, IH, List.NoDup_cons_iff.
    assert (H : existsb (String.eqb x) r = false <-> ~ In x r).
    { rewrite <- not_true_iff_false, existsb_exists. split.
      - intros H Hin. apply H. exists x. split; [exact Hin | apply String.eqb_refl].
      - intros H (y & Hy & E). apply String.eqb_eq in E. now subst y. }
    now rewrite H.
Qed.

Lemma NoDup_snoc {A} (l : list A) (x : A) :
  List.NoDup l -> ~ In x l -> List.NoDup (l ++ [x]).
Proof.
  induction l as [|y r IH]; cbn [app]; intros Hnd Hx.
  - constructor; [intros [] | constructor].
  - apply List.NoDup_cons_iff in Hnd as [Hy Hr]. constructor.
    + rewrite List.in_app_iff. cbn [In]. intros [H|[H|[]]]; [tauto|].
      subst y. apply Hx. now left.
    + apply IH; [exact Hr|]. intros H. apply Hx. now right.
Qed.

Lemma keys_dict_set {V} (k : string) (v : V) (d : odict V) :
  keys (dict_set k v d) = if dict_mem k d then keys d else (keys d ++ [k])%list.
Proof.
  unfold dict_mem, keys. induction d as [|[k' v'] r IH]; [reflexivity|].
  cbn [dict_set dict_get]. destruct (String.eqb_spec k k') as [->|Hne]; [reflexivity|].
  cbn [List.map fst]. rewrite IH. now destruct (dict_get k r).
Qed.

Lemma dict_set_wf {V} (k : string) (v : V) (d : odict V) :
  dict_wf d -> dict_wf (dict_set k v d).
Proof.
  unfold dict_wf. rewrite keys_dict_set. unfold dict_mem.
  destruct (dict_get k d) eqn:E; [auto|]. intros Hnd.
  apply NoDup_snoc; [exact Hnd|].
  intros Hx. destruct (dict_get_in _ _ Hx) as [v' Hv]. congruence.
Qed.

Lemma forallb_dict_set {V} (f : string * V -> bool) (k : string) (v : V) (d : odict V) :
  (forall k1 k2 x, f (k1, x) = f (k2, x)) ->
  forallb f d = true -> f (k, v) = true -> forallb f (dict_set k v d) = true.
Proof.
  intros Hf Hd Hv. induction d as [|[k' v'] r IH]; cbn [dict_set forallb] in *.
  - now rewrite Hv.
  - apply andb_true_iff in Hd as [H1 H2].
    destruct (String.eqb k k'); cbn [forallb]; [now rewrite Hv | now rewrite H1, IH].
Qed.

Lemma kept_dict (d : odict pyval) :
  dict_wf d -> forallb (fun kv => kept (snd kv)) d = true ->
  none_free (VDict d) = true /\ deep_wf (VDict d) = true.
Proof.
  intros Hwf Hall. cbn [none_free deep_wf].
  rewrite (proj2 (distinct_spec _) Hwf). cbn [andb]. rewrite !forallb_forall in *. split; intros kv Hin;
    specialize (Hall kv Hin); unfold kept in Hall;
    rewrite !andb_true_iff in Hall; destruct Hall as [[H1 H2] H3]; [|exact H3].
  now rewrite H1, H2.
Qed.

Lemma kept_elems (l : list pyval) :
  forallb kept_elem l = true ->
  forallb (fun vv => match vv with VDict _ => none_free vv | _ => true end) l = true
  /\ forallb (fun vv => match vv with VDict _ => deep_wf vv | _ => true end) l = true.
Proof.
  rewrite !forallb_forall. intros Hall. split; intros vv Hin;
    specialize (Hall vv Hin); destruct vv; try reflexivity;
    unfold kept_elem in Hall; apply andb_true_iff in Hall; tauto.
Qed.

(** The loop of [drop_nones] keeps such values only. *)
Lemma fold_drop_turn_kept (items dd : odict pyval) :
  List.Forall (fun kv => is_none (snd kv) = false -> kept (pruned_value (snd kv)) = true)
              items ->
  dict_wf dd -> forallb (fun kv => kept (snd kv)) dd = true ->
  dict_wf (fold_left drop_turn items dd)
  /\ forallb (fun kv => kept (snd kv)) (fold_left drop_turn items dd) = true.
Proof.
  revert dd. induction items as [|[k v] r IH]; intros dd Hitems Hwf Hdd; [auto|].
  apply List.Forall_cons_iff in Hitems as [Hv Hr]. cbn [fold_left].
  apply IH; [exact Hr | |]; unfold drop_turn; cbn [fst snd] in *;
    destruct (is_none v) eqn:E; auto.
  - now apply dict_set_wf.
  - apply forallb_dict_set; auto.
Qed.

Lemma drop_nones_kept :
  forall v : pyval,
    (is_none v = false -> kept (pruned_value v) = true)
    /\ kept_elem (pruned_elem v) = true.
Proof.
  assert (Helems : forall l,
            List.Forall (fun v => (is_none v = false -> kept (pruned_value v) = true)
                                  /\ kept_elem (pruned_elem v) = true) l ->
            forallb kept_elem (List.map pruned_elem l) = true).
  { intros l Hl. rewrite forallb_forall. intros x Hx.
    apply List.in_map_iff in Hx as (y & <- & Hy).
    rewrite List.Forall_forall in Hl. now apply Hl. }
  apply pyval_deep_ind; try (split; [discriminate || reflexivity | reflexivity]).
  - (* a dictionary *)
    intros items IH.
    assert (Hk : kept (VDict (drop_nones items)) = true).
    { rewrite drop_nones_loop.
      destruct (fold_drop_turn_kept items []) as [Hwf Hall].
      - eapply List.Forall_impl; [|exact IH]. intros kv [H _]. exact H.
      - constructor.
      - reflexivity.
      - destruct (kept_dict _ Hwf Hall) as [H1 H2]. unfold kept.
        now rewrite H1, H2. }
    split; [intros _; exact Hk|]. cbn [pruned_elem kept_elem].
    unfold kept in Hk. rewrite !andb_true_iff in Hk. rewrite andb_true_iff. tauto.
  - intros l IH. split; [|reflexivity]. intros _.
    destruct (kept_elems _ (Helems l IH)) as [H1 H2].
    unfold kept. cbn [pruned_value is_none none_free deep_wf negb andb].
    now rewrite H1, H2.
  - intros l IH. split; [|reflexivity]. intros _.
    destruct (kept_elems _ (Helems l IH)) as [H1 H2].
    unfold kept. cbn [pruned_value is_none none_free deep_wf negb andb].
    now rewrite H1, H2.
  - intros l IH. split; [|reflexivity]. intros _.
    destruct (kept_elems _ (Helems l IH)) as [H1 H2].
    unfold kept. cbn [pruned_value is_none none_free deep_wf negb andb].
    now rewrite H1, H2.
Qed.

(** A value without [None] is what is kept of it. *)
Lemma pruned_value_fixed :
  forall v : pyval,
    deep_wf v = true -> none_free v = true -> pruned_value v = v.
Proof.
  assert (Helems : forall l,
            List.Forall (fun v => deep_wf v = true -> none_free v = true ->
                                  pruned_value v = v) l ->
            forallb (fun vv => match vv with VDict _ => deep_wf vv | _ => true end) l
            = true ->
            forallb (fun vv => match vv with VDict _ => none_free vv | _ => true end) l
            = true ->
            List.map pruned_elem l = l).
  { intros l Hl Hw Hn. rewrite forallb_forall in Hw, Hn.
    rewrite List.Forall_forall in Hl.
    rewrite <- (List.map_id l) at 2. apply List.map_ext_in. intros x Hx.
    destruct x; try reflexivity.
    exact (Hl _ Hx (Hw _ Hx) (Hn _ Hx)). }
  apply (pyval_deep_ind
           (fun v => deep_wf v = true -> none_free v = true -> pruned_value v = v));
    try reflexivity.
  - intros items IH Hw Hn. cbn [pruned_value]. f_equal.
    cbn [deep_wf none_free] in Hw, Hn. apply andb_true_iff in Hw as [Hnd Hw].
    apply distinct_spec in Hnd.
    rewrite (drop_nones_pruned items Hnd). clear Hnd.
    induction items as [|[k v] r IHr]; [reflexivity|].
    cbn [forallb snd] in Hw, Hn.
    apply andb_true_iff in Hw as [Hw1 Hw2]. apply andb_true_iff in Hn as [Hn1 Hn2].
    apply andb_true_iff in Hn1 as [Hn0 Hn1]. apply negb_true_iff in Hn0.
    apply List.Forall_cons_iff in IH as [IHv IHrest]. cbn [snd] in IHv.
    unfold pruned in *. cbn [List.flat_map fst snd]. rewrite Hn0.
    cbn [app]. rewrite (IHv Hw1 Hn1). f_equal. now apply IHr.
  - intros l IH Hw Hn. cbn [pruned_value]. f_equal. now apply Helems.
  - intros l IH Hw Hn. cbn [pruned_value]. f_equal. now apply Helems.
  - intros l IH Hw Hn. cbn [pruned_value]. f_equal. now apply Helems.
Qed.

(** X11. What [drop_nones] returns holds no [None] under any key, at any
    level it goes through, and pruning it again changes nothing. *)
Theorem drop_nones_idempotent (dinput : odict pyval) :
  none_free (VDict (drop_nones dinput)) = true
  /\ deep_wf (VDict (drop_nones dinput)) = true
  /\ drop_nones (drop_nones dinput) = drop_nones dinput.
Proof.
  destruct (drop_nones_kept (VDict dinput)) as [Hk _].
  specialize (Hk eq_refl). cbn [pruned_value] in Hk. unfold kept in Hk.
  rewrite !andb_true_iff in Hk. destruct Hk as [[_ Hn] Hw].
  split; [exact Hn|]. split; [exact Hw|].
  pose proof (pruned_value_fixed (VDict (drop_nones dinput)) Hw Hn) as H.
  cbn [pruned_value] in H. now injection H.
Qed.

(** X12. A dictionary that holds no [None] under any key, at any level
    [drop_nones] goes through, is returned as it is. *)
Theorem drop_nones_unchanged (dinput : odict pyval) :
  deep_wf (VDict dinput) = true -> none_free (VDict dinput) = true ->
  drop_nones dinput = dinput.
Proof.
  intros Hw Hn. pose proof (pruned_value_fixed (VDict dinput) Hw Hn) as H.
  cbn [pruned_value] in H. now injection H.
Qed.

Lemma drop_nones_unchanged_witness :
  let dinput :=
    [ ("data", VDict [("name", VStr "volantis"); ("layers", VList [VNone; VInt 3])]);
      ("tags", VTuple [VDict [("k", VBool false)]; VList [VDict [("x", VNone)]]]) ] in
  deep_wf (VDict dinput) = true /\ none_free (VDict dinput) = true
  /\ drop_nones dinput = dinput.
Proof.
  intros dinput.
  assert (Hw : deep_wf (VDict dinput) = true) by (vm_compute; reflexivity).
  assert (Hn : none_free (VDict dinput) = true) by (vm_compute; reflexivity).
  split; [exact Hw|]. split; [exact Hn|].
  exact (drop_nones_unchanged dinput Hw Hn).
Defined.

(* ===================================================================== *)
(** * More properties of [export_metadata_file] *)
(* ===================================================================== *)

Section ExportEffects.

Variables safe_dump json_dumps : odict pyval -> result string.

(** X13. A call of [export_metadata_file] that raises, whatever it raises
    (no metadata, metadata that are no dictionary, a serialiser that
    fails, a file that cannot be opened), has written no file and logged
    nothing: it has only set the level of the logger. A call that returns
    has written one file, the serialised pruned metadata, at the place
    the names of the target lead to, and has left every other entry of
    the file system as it was: the target is read back under any of its
    spellings, and what another path leads to elsewhere is read as
    before. *)
Theorem export_metadata_file_atomic
    (yfile : string) (metadata : pyval) (savefmt : string)
    (verbosity : loglevel) (w : world) :
  let out := export_metadata_file safe_dump json_dumps yfile metadata
               savefmt verbosity w in
  let target :=
    if String.eqb savefmt "yaml" then yfile
    else PyStr.replace ".yml" ".json" yfile in
  (forall e, fst out = Raise e -> snd out = setLevel verbosity w)
  /\ (fst out = Ok tt ->
      exists d text loc,
        metadata = VDict d
        /\ (if String.eqb savefmt "yaml" then safe_dump (drop_nones d)
            else json_dumps (drop_nones d)) = Ok text
        /\ OS.locate (files w) target = inl loc
        /\ cwd (files (snd out)) = cwd (files w)
        /\ nodes (files (snd out))
           = <[loc := Regular (PyStr.encode_utf8 text)]> (nodes (files w))
        /\ (forall other,
              OS.locate (files w) other = inl loc -> OS.refused other = None ->
              OS.open_rb (files (snd out)) other = Ok (PyStr.encode_utf8 text))
        /\ (forall other loc',
              OS.locate (files w) other = inl loc' -> loc' <> loc ->
              OS.open_rb (files (snd out)) other = OS.open_rb (files w) other)).
Proof.
  intros out target. split.
  { intros e He. now apply (export_metadata_file_raise _ _ _ _ _ _ _ e). }
  intros Hok.
  destruct (truthy metadata) eqn:T.
  2:{ subst out. unfold export_metadata_file in Hok. rewrite T in Hok. discriminate. }
  destruct metadata as [| ? | ? | ? | ? | d | ? | ? | ?];
    try (subst out; unfold export_metadata_file in Hok; rewrite T in Hok; discriminate).
  assert (Hd : d <> []) by (intros ->; discriminate T).
  subst out. rewrite (export_metadata_file_dict _ _ _ _ _ _ _ Hd) in Hok |- *.
  fold target in Hok |- *.
  assert (Hdump : exists text,
            (if String.eqb savefmt "yaml" then safe_dump (drop_nones d)
             else json_dumps (drop_nones d)) = Ok text
            /\ (if String.eqb savefmt "yaml" then safe_dump else json_dumps)
                 (drop_nones d) = Ok text).
  { destruct (String.eqb savefmt "yaml");
      match goal with
      | H : context [match ?x with Ok _ => _ | Raise _ => _ end] |- _ =>
          destruct x as [text|e]; [eauto | discriminate H]
      end. }
  destruct Hdump as (text & Hdump & Hdump'). rewrite Hdump' in Hok |- *.
  destruct (OS.open_w (files w) target (PyStr.encode_utf8 text)) as [t'|e] eqn:O;
    [|discriminate].
  cbn [snd]. rewrite log_files. cbn [files].
  destruct (open_w_ok _ _ _ _ O)
    as (R & Hs & here & name & L & _ & _ & _ & Hnew & Ht').
  exists d, text, (here ++ [name])%list.
  split; [reflexivity|]. split; [exact Hdump|]. split; [exact L|].
  split; [now rewrite Ht'|]. split; [now rewrite Ht'|]. split.
  - intros other Lo Ro. exact (open_w_alias _ _ _ _ _ _ O L Lo Ro).
  - intros other loc' Lo Hne.
    apply (open_w_frame _ _ _ _ _ _ O Lo). rewrite L. congruence.
Qed.

End ExportEffects.

(** ** The name of the JSON file *)

Lemma replace_scan_absent (old new s : string) :
  occurs old s = false -> PyStr.replace_scan old new 0 s = s.
Proof.
  induction s as [|c r IH]; [reflexivity|]. cbn [occurs PyStr.replace_scan].
  rewrite orb_false_iff. intros [-> Hr]. now rewrite (IH Hr).
Qed.

(** [".yml"] does not start in a string to end behind it. *)
Lemma yml_no_crossing (c : ascii) (r : string) :
  String.prefix ".yml" (String c r) = false ->
  String.prefix ".yml" (String c r +:+ ".yml") = false.
Proof.
  destruct r as [|c1 [|c2 [|c3 r]]]; rewrite ?append_cons, ?append_nil_l;
    cbn [String.prefix];
    repeat (match goal with
            | |- context [ascii_dec ?a ?b] => destruct (ascii_dec a b); try subst
            end; try discriminate; try reflexivity; try tauto).
  all: try (now destruct r); try (now destruct (r +:+ ".yml")).
Qed.

Lemma replace_yml_end (base : string) :
  occurs ".yml" base = false ->
  PyStr.replace ".yml" ".json" (base +:+ ".yml") = base +:+ ".json".
Proof.
  unfold PyStr.replace. induction base as [|c r IH]; [reflexivity|].
  cbn [occurs]. rewrite orb_false_iff. intros [Hpre Hr].
  pose proof (yml_no_crossing c r Hpre) as Hcross.
  rewrite !append_cons in *. cbn [PyStr.replace_scan]. rewrite Hcross.
  now rewrite (IH Hr).
Qed.

Section ExportJson.

Variables safe_dump json_dumps : odict pyval -> result string.

(** X14. Where the JSON goes: for a [yfile] that ends in [".yml"] and has
    no [".yml"] before, the file that is opened and written has the same
    name with [".json"] at the end; for a [yfile] without [".yml"], it is
    [yfile] itself. The call returns and leaves the files as that opening
    leaves them, or raises what it raises and leaves the files alone; the
    JSON that was written is read back under the name with [".json"]. *)
Theorem export_metadata_file_json_name
    (base : string) (d : odict pyval) (savefmt jsonblock : string)
    (verbosity : loglevel) (w : world) :
  occurs ".yml" base = false -> savefmt <> "yaml" -> d <> [] ->
  json_dumps (drop_nones d) = Ok jsonblock ->
  let call := fun yfile =>
    export_metadata_file safe_dump json_dumps yfile (VDict d) savefmt verbosity w in
  let opened := fun name =>
    match OS.open_w (files w) name (PyStr.encode_utf8 jsonblock) with
    | Ok t' => (Ok tt, t')
    | Raise e => (Raise e, files w)
    end in
  (fst (call (base +:+ ".yml")), files (snd (call (base +:+ ".yml"))))
  = opened (base +:+ ".json")
  /\ (fst (call base), files (snd (call base))) = opened base
  /\ (fst (call (base +:+ ".yml")) = Ok tt ->
      OS.open_rb (files (snd (call (base +:+ ".yml")))) (base +:+ ".json")
      = Ok (PyStr.encode_utf8 jsonblock)).
Proof.
  intros Hbase Hfmt Hd Hdump call opened.
  assert (Hcall : forall yfile,
            (fst (call yfile), files (snd (call yfile)))
            = opened (PyStr.replace ".yml" ".json" yfile)).
  { intros yfile. unfold call, opened.
    rewrite (export_metadata_file_dict _ _ _ _ _ _ _ Hd).
    destruct (String.eqb_spec savefmt "yaml") as [|_]; [contradiction|].
    rewrite Hdump.
    destruct (OS.open_w _ _ _); cbn [fst snd]; [now rewrite log_files | reflexivity]. }
  assert (H1 : PyStr.replace ".yml" ".json" (base +:+ ".yml") = base +:+ ".json")
    by now apply replace_yml_end.
  assert (H2 : PyStr.replace ".yml" ".json" base = base).
  { unfold PyStr.replace. now apply replace_scan_absent. }
  pose proof (Hcall (base +:+ ".yml")) as C1. rewrite H1 in C1.
  pose proof (Hcall base) as C2. rewrite H2 in C2.
  split; [exact C1|]. split; [exact C2|].
  intros Hok. unfold opened in C1.
  destruct (OS.open_w (files w) (base +:+ ".json") (PyStr.encode_utf8 jsonblock))
    as [t'|e] eqn:O.
  - injection C1 as _ ->. now apply (open_w_read_back _ _ _ _ O).
  - injection C1 as C1 _. congruence.
Qed.

End ExportJson.

Lemma export_metadata_file_json_name_witness :
  let d := [("name", VStr "volantis")] in
  let w := World WARNING [] (Tree ["run"] {[ ["run"] := Directory;
                                            ["run"; "maps"] := Directory ]}) in
  occurs ".yml" "maps/.top.gri" = false
  /\ fst (export_metadata_file dump_keys dump_keys "maps/.top.gri.yml"
            (VDict d) "json" WARNING w) = Ok tt
  /\ OS.open_rb (files (snd (export_metadata_file dump_keys dump_keys
                               "maps/.top.gri.yml" (VDict d) "json" WARNING w)))
                "maps/.top.gri.json"
     = Ok (PyStr.encode_utf8 "name").
Proof.
  intros d w. split; [reflexivity|].
  destruct (export_metadata_file_json_name dump_keys dump_keys "maps/.top.gri" d
              "json" "name" WARNING w eq_refl) as (H & _ & Hread);
    [discriminate | discriminate | reflexivity|].
  assert (Hok : fst (export_metadata_file dump_keys dump_keys "maps/.top.gri.yml"
                       (VDict d) "json" WARNING w) = Ok tt).
  { destruct (OS.open_w _ _ _) as [t'|e] eqn:O in H.
    - apply (f_equal fst) in H. exact H.
    - vm_compute in O. discriminate O. }
  split; [exact Hok | exact (Hread Hok)].
Defined.

(* ===================================================================== *)
(** * More properties of [md5sum], and [size] *)
(* ===================================================================== *)

Lemma md5sum_file (fname : string) (w : world) (data : list Byte.byte) :
  OS.open_rb (files w) fname = Ok data -> md5sum fname w = Ok (MD5.md5_hex data).
Proof.
  intros H. unfold md5sum. rewrite H. cbv zeta.
  rewrite md5sum_loop_update by apply new_wf.
  unfold MD5.hexdigest, MD5.md5_hex. now rewrite digest_update.
Qed.

(** X15. [md5sum] of a file that is there is a string of 32 digits among
    [0-9a-f]; where the opening of the file raises, [md5sum] raises the
    same, and of a file that is not there (an empty path, a path through
    a missing directory, a path to a missing entry) it is
    [FileNotFoundError]. *)
Theorem md5sum_digest_format (fname : string) (w : world) :
  match OS.open_rb (files w) fname with
  | Ok _ =>
      exists digest,
        md5sum fname w = Ok digest
        /\ String.length digest = 32
        /\ string_forall lower_hex digest = true
  | Raise e => md5sum fname w = Raise e
  end
  /\ (OS.refused fname = None ->
      PyStr.nonempty fname = false
      \/ OS.locate (files w) fname = inr ENOENT
      \/ (exists loc, OS.locate (files w) fname = inl loc
                      /\ OS.node_at (files w) loc = None) ->
      md5sum fname w = Raise (FileNotFoundError fname)).
Proof.
  split.
  - destruct (OS.open_rb (files w) fname) as [data|e] eqn:E.
    + exists (MD5.md5_hex data). split; [now apply md5sum_file|].
      destruct (md5_hex_digits data). auto.
    + unfold md5sum. now rewrite E.
  - intros R H. unfold md5sum, OS.open_rb. rewrite R.
    destruct (PyStr.nonempty fname); [|reflexivity]. cbn [negb].
    destruct H as [H|[H|(loc & H & N)]]; [discriminate | |]; rewrite H;
      [reflexivity | now rewrite N].
Qed.

Section ExportChecksum.

Variables safe_dump json_dumps : odict pyval -> result string.
Variable dir_size : tree -> Path -> Z.

(** X16. The metadata file that [export_metadata_file] has written as
    YAML, when the call has returned, is there for [md5sum] and for
    [size]: its checksum is the MD5 of the UTF-8 encoding of the YAML
    text, and its size, for a [yfile] written as [Path] writes it, the
    number of bytes of that encoding. *)
Theorem export_then_checksum
    (yfile : string) (d : odict pyval) (yamlblock : string)
    (verbosity : loglevel) (w : world) :
  d <> [] -> safe_dump (drop_nones d) = Ok yamlblock ->
  let out := export_metadata_file safe_dump json_dumps yfile (VDict d)
               "yaml" verbosity w in
  fst out = Ok tt ->
  md5sum yfile (snd out) = Ok (MD5.md5_hex (PyStr.encode_utf8 yamlblock))
  /\ (PurePath.to_string (PurePath.of_string yfile) = yfile ->
      size dir_size yfile (snd out)
      = Ok (Z.of_nat (length (PyStr.encode_utf8 yamlblock)))).
Proof.
  intros Hd Hdump out Hok. subst out.
  rewrite (export_metadata_file_dict _ _ _ _ _ _ _ Hd) in Hok |- *.
  rewrite String.eqb_refl, Hdump in Hok |- *.
  destruct (OS.open_w (files w) yfile (PyStr.encode_utf8 yamlblock)) as [t'|e] eqn:O;
    [|discriminate].
  cbn [snd]. split.
  - apply md5sum_file. rewrite log_files. cbn [files].
    now apply (open_w_read_back _ _ _ _ O).
  - intros Hname. unfold size. rewrite log_files. cbn [files].
    now rewrite (open_w_stat _ _ _ _ O Hname).
Qed.

End ExportChecksum.

Lemma export_then_checksum_witness :
  let d := [("name", VStr "volantis"); ("unit", VNone)] in
  let w := World WARNING [] (Tree ["run"] {[ ["run"] := Directory;
                                            ["run"; "maps"] := Directory ]}) in
  let out := export_metadata_file dump_keys dump_keys "maps/.top.gri.yml"
               (VDict d) "yaml" WARNING w in
  d <> [] /\ dump_keys (drop_nones d) = Ok "name" /\ fst out = Ok tt
  /\ md5sum "maps/.top.gri.yml" (snd out) = Ok "b068931cc450442b63f5b3d276ea4297"
  /\ size (fun _ _ => 4096%Z) "maps/.top.gri.yml" (snd out) = Ok 4%Z.
Proof.
  intros d w out. split; [discriminate|]. split; [reflexivity|].
  assert (Hok : fst out = Ok tt) by (vm_compute; reflexivity).
  split; [exact Hok|].
  destruct (export_then_checksum dump_keys dump_keys (fun _ _ => 4096%Z)
              "maps/.top.gri.yml" d "name" WARNING w) as [Hmd5 Hsize];
    [discriminate | reflexivity | exact Hok |].
  split.
  - transitivity (Ok (A := string) (MD5.md5_hex (PyStr.encode_utf8 "name")));
      [exact Hmd5 | vm_compute; reflexivity].
  - exact (Hsize eq_refl).
Defined.

(* ===================================================================== *)
(** * More properties of [uuid_from_string] *)
(* ===================================================================== *)

Lemma hex_char_digit (c : ascii) (d : Z) :
  lower_hex c = true -> hex_digit c = Some d -> MD5.hex_char d = c.
Proof.
  intros Hc Hd. destruct (lower_hex_digit c Hc) as (d' & E & Hb & Hcode).
  assert (d' = d) by congruence. subst d'. unfold MD5.hex_char.
  replace (if (d <? 10)%Z then (48 + d)%Z else (87 + d)%Z)
    with (Z.of_N (PyStr.code c)) by (rewrite Hcode; destruct (d <? 10)%Z; lia).
  rewrite N2Z.id. unfold PyStr.code. apply ascii_N_embedding.
Qed.

(** Reading digits and writing them again. *)
Lemma int16_from_digits (s : string) :
  forall acc : Z,
    string_forall lower_hex s = true ->
    exists v : Z,
      int16_from acc s = Some (acc * 16 ^ Z.of_nat (String.length s) + v)%Z
      /\ (0 <= v < 16 ^ Z.of_nat (String.length s))%Z
      /\ hex_digits (String.length s) v = s.
Proof.
  induction s as [|c r IH]; intros acc Hs.
  - exists 0%Z. cbn. split; [f_equal; lia|]. split; [lia | reflexivity].
  - cbn [string_forall] in Hs. apply andb_true_iff in Hs as [Hc Hr].
    destruct (lower_hex_digit c Hc) as (d & Hd & Hb & _).
    destruct (IH (16 * acc + d)%Z Hr) as (v & Hv & Hvb & Hdigits).
    set (k := String.length r) in *.
    assert (Hpow : (16 ^ Z.of_nat (S k) = 16 * 16 ^ Z.of_nat k)%Z).
    { rewrite Nat2Z.inj_succ. apply Z.pow_succ_r. lia. }
    assert (Hpos : (0 < 16 ^ Z.of_nat k)%Z) by (apply Z.pow_pos_nonneg; lia).
    exists (d * 16 ^ Z.of_nat k + v)%Z.
    cbn [int16_from String.length hex_digits]. fold k. rewrite Hd, Hv, Hpow.
    split; [f_equal; lia|]. split; [nia|].
    assert (Hdiv : ((d * 16 ^ Z.of_nat k + v) / 16 ^ Z.of_nat k = d)%Z).
    { rewrite Z.div_add_l by lia. rewrite Z.div_small by lia. lia. }
    assert (Hmod : ((d * 16 ^ Z.of_nat k + v) mod 16 ^ Z.of_nat k = v)%Z).
    { rewrite Z.add_comm, Z.mod_add by lia. apply Z.mod_small. lia. }
    rewrite Hdiv, Hmod, Hdigits. f_equal. now apply hex_char_digit.
Qed.

(** X17. The UUID of a string has, as its hexadecimal form, the MD5 digest
    of the string's UTF-8 encoding as [hexdigest] writes it; its number
    is below [2 ^ 128], as [UUID] requires. The call always returns. *)
Theorem uuid_from_string_hex (s : string) :
  exists u : UUID,
    uuid_from_string s = Ok u
    /\ UUID_hex u = MD5.md5_hex (PyStr.encode_utf8 s)
    /\ (0 <= uuid_int u < 2 ^ 128)%Z.
Proof.
  unfold uuid_from_string. rewrite hexdigest_md5_hex.
  destruct (md5_hex_digits (PyStr.encode_utf8 s)) as [Hhex Hlen].
  destruct (UUID_of_digest _ Hhex Hlen) as (n & Hn & Hu).
  exists (mkUUID n). split; [exact Hu|].
  destruct (int16_from_digits _ 0%Z Hhex) as (v & Hv & Hb & Hd).
  rewrite Hlen in Hv, Hb, Hd.
  assert (n = v).
  { unfold int16 in Hn.
    destruct (MD5.md5_hex (PyStr.encode_utf8 s)); [discriminate|].
    rewrite Hv in Hn. injection Hn as <-. lia. }
  subst n. unfold UUID_hex. cbn [uuid_int]. split; [exact Hd|].
  change (2 ^ 128)%Z with (16 ^ Z.of_nat 32)%Z. exact Hb.
Qed.

(* ===================================================================== *)
(** * More properties of [read_parameters_txt] *)
(* ===================================================================== *)

Section ParametersShape.

Variable py_int : string -> option Z.
Variable py_float : string -> option pyfloat.

#[local] Abbreviation check_if_number := (check_if_number py_int py_float).
#[local] Abbreviation param_step := (param_step py_int py_float).
#[local] Abbreviation param_loop := (param_loop py_int py_float).
#[local] Abbreviation read_parameters_txt := (read_parameters_txt py_int py_float).

Lemma check_if_number_scalar (value : string) :
  is_scalar (check_if_number value) = true.
Proof.
  unfold check_if_number.
  destruct (py_int value); [reflexivity|]. now destruct (py_float value).
Qed.

Lemma dict_mem_keys {V} (k : string) (d : odict V) :
  dict_mem k d = existsb (String.eqb k) (keys d).
Proof.
  unfold dict_mem. induction d as [|[k' v] r IH]; [reflexivity|].
  cbn [dict_get keys List.map fst existsb].
  destruct (String.eqb k k'); [reflexivity | exact IH].
Qed.

Lemma dict_set_distinct {V} (k : string) (v : V) (d : odict V) :
  distinct (keys d) = true -> distinct (keys (dict_set k v d)) = true.
Proof. rewrite !distinct_spec. apply dict_set_wf. Qed.

Lemma flat_set (k : string) (v : pyval) (d : odict pyval) :
  flat d = true -> is_scalar v = true -> flat (dict_set k v d) = true.
Proof.
  unfold flat. rewrite !andb_true_iff. intros [Hs Hd] Hv.
  split; [|now apply dict_set_distinct].
  apply forallb_dict_set; [reflexivity | exact Hs | exact Hv].
Qed.

Lemma two_level_set (k : string) (v : pyval) (d : odict pyval) :
  two_level d = true -> scalar_or_flat v = true ->
  two_level (dict_set k v d) = true.
Proof.
  unfold two_level. rewrite !andb_true_iff. intros [Hs Hd] Hv.
  split; [|now apply dict_set_distinct].
  apply forallb_dict_set; [reflexivity | exact Hs | exact Hv].
Qed.

Lemma two_level_get (k : string) (sub : odict pyval) (d : odict pyval) :
  two_level d = true -> dict_get k d = Some (VDict sub) -> flat sub = true.
Proof.
  unfold two_level. rewrite andb_true_iff. intros [Hs _].
  induction d as [|[k' v] r IH]; [discriminate|].
  cbn [forallb snd dict_get] in *. apply andb_true_iff in Hs as [Hv Hr].
  destruct (String.eqb k k'); [intros [= ->]; exact Hv | now apply IH].
Qed.

Lemma param_step_two_level (param param' : odict pyval) (line : string) :
  two_level param = true -> param_step param line = Ok param' ->
  two_level param' = true.
Proof.
  intros Hp. unfold param_step.
  destruct (PyStr.split_on ":" line) as [|i0 [|i1 [|i2 [|i3 r]]]]; try discriminate.
  - intros [= <-]. apply two_level_set; [exact Hp|].
    pose proof (check_if_number_scalar i1) as H. unfold scalar_or_flat.
    now destruct (check_if_number i1).
  - set (param1 := if negb (dict_mem i0 param) then dict_set i0 (VDict []) param
                   else param).
    assert (H1 : two_level param1 = true).
    { subst param1. destruct (negb (dict_mem i0 param)); [|exact Hp].
      now apply two_level_set. }
    destruct (dict_get i0 param1) as [[]|] eqn:E; try discriminate.
    intros [= <-]. apply two_level_set; [exact H1|].
    apply flat_set; [exact (two_level_get _ _ _ H1 E) | apply check_if_number_scalar].
Qed.

Lemma param_loop_two_level (lines : list string) (param param' : odict pyval) :
  two_level param = true -> param_loop lines param = Ok param' ->
  two_level param' = true.
Proof.
  revert param. induction lines as [|l r IH]; intros param Hp; cbn [param_loop].
  - now intros [= <-].
  - destruct (param_step param l) as [p1|e] eqn:E; [|discriminate].
    apply IH. exact (param_step_two_level _ _ _ Hp E).
Qed.

(** X18. Whatever the file, a dictionary that [read_parameters_txt] returns
    has at most two levels: under its keys, which are distinct, it holds
    numbers, strings and dictionaries, and these hold numbers and strings
    under distinct keys. *)
Theorem read_parameters_txt_two_levels (text : string) (param : odict pyval) :
  read_parameters_txt text = Ok param -> two_level param = true.
Proof.
  unfold read_parameters_txt. apply param_loop_two_level. reflexivity.
Qed.

(** One turn of the loop puts the first field of the line among the keys,
    at the end if it is new. *)
Lemma param_step_keys (param param' : odict pyval) (line : string) :
  param_step param line = Ok param' ->
  keys param' = see (keys param) (hd EmptyString (PyStr.split_on ":" line)).
Proof.
  unfold param_step, see.
  destruct (PyStr.split_on ":" line) as [|i0 [|i1 [|i2 [|i3 r]]]]; try discriminate;
    cbn [hd].
  - intros [= <-]. now rewrite keys_dict_set, dict_mem_keys.
  - rewrite <- dict_mem_keys. destruct (dict_mem i0 param) eqn:M; cbn [negb].
    + destruct (dict_get i0 param) as [[]|]; try discriminate.
      intros [= <-]. now rewrite keys_dict_set, M.
    + rewrite dict_get_set_same. intros [= <-].
      rewrite !keys_dict_set, M. unfold dict_mem. now rewrite dict_get_set_same.
Qed.

Lemma param_loop_keys (lines : list string) (param param' : odict pyval) :
  param_loop (List.map normalize lines) param = Ok param' ->
  keys param' = fold_left see (List.map first_field lines) (keys param).
Proof.
  revert param. induction lines as [|l r IH]; intros param;
    cbn [List.map param_loop fold_left].
  - now intros [= <-].
  - destruct (param_step param (normalize l)) as [p1|e] eqn:E; [|discriminate].
    intros H. rewrite (IH _ H), (param_step_keys _ _ _ E). reflexivity.
Qed.

(** X19. The keys of the dictionary that [read_parameters_txt] returns are
    the first fields of the lines, each once, in the order in which they
    come first in the file. *)
Theorem read_parameters_txt_key_order (text : string) (param : odict pyval) :
  read_parameters_txt text = Ok param ->
  keys param = first_seen (List.map first_field (PyStr.splitlines text)).
Proof.
  unfold read_parameters_txt. intros H.
  exact (param_loop_keys _ [] _ H).
Qed.

(** X20. A line of three fields whose first field is a key that holds a
    number or a string stops the reading with [TypeError]: the item
    assignment into that value fails. So does a ['PREFIX:NAME value'] line
    after a ['PREFIX value'] line. *)
Theorem read_parameters_txt_type_error
    (text before : string) (line : string) (rest : list string)
    (param : odict pyval) (prefix name value : string) (held : pyval) :
  PyStr.splitlines text = (PyStr.splitlines before ++ line :: rest)%list ->
  read_parameters_txt before = Ok param ->
  line_fields line = [prefix; name; value] ->
  dict_get prefix param = Some held -> is_scalar held = true ->
  read_parameters_txt text
  = Raise (TypeError "object does not support item assignment").
Proof.
  intros Hlines Hbefore Hfields Hget Hheld.
  unfold read_parameters_txt in *. fold normalize in *.
  rewrite Hlines, List.map_app, (param_loop_app py_int py_float), Hbefore.
  cbn [List.map param_loop]. unfold param_step.
  unfold line_fields in Hfields. rewrite Hfields.
  unfold dict_mem. rewrite Hget. cbn [negb]. rewrite Hget.
  now destruct held.
Qed.

End ParametersShape.

Lemma read_parameters_txt_two_levels_witness :
  let LF := String PyStr.LF EmptyString in
  let text := "A:B 1" +:+ LF +:+ "A C x" +:+ LF +:+ "D 2.5" +:+ LF +:+ "A:B:7" +:+ LF in
  exists param,
    read_parameters_txt PyNum.int PyNum.float text = Ok param
    /\ two_level param = true
    /\ dict_get "A" param = Some (VDict [("B", VInt 7); ("C", VStr "x")]).
Proof.
  intros LF text.
  destruct (read_parameters_txt PyNum.int PyNum.float text) as [param|e] eqn:E;
    [|vm_compute in E; discriminate E].
  exists param. split; [reflexivity|].
  split; [exact (read_parameters_txt_two_levels _ _ _ _ E)|].
  vm_compute in E. injection E as <-. reflexivity.
Defined.

Lemma read_parameters_txt_key_order_witness :
  let LF := String PyStr.LF EmptyString in
  let text := "GLOBVAR:B 1" +:+ LF +:+ "SEED 5" +:+ LF +:+ "GLOBVAR:A 2" +:+ LF
              +:+ "SEED 6" +:+ LF in
  exists param,
    read_parameters_txt PyNum.int PyNum.float text = Ok param
    /\ keys param = ["GLOBVAR"; "SEED"].
Proof.
  intros LF text.
  destruct (read_parameters_txt PyNum.int PyNum.float text) as [param|e] eqn:E;
    [|vm_compute in E; discriminate E].
  exists param. split; [reflexivity|].
  rewrite (read_parameters_txt_key_order _ _ _ _ E). vm_compute. reflexivity.
Defined.

Lemma read_parameters_txt_type_error_witness :
  let LF := String PyStr.LF EmptyString in
  read_parameters_txt PyNum.int PyNum.float
    ("GLOBVAR 1" +:+ LF +:+ "GLOBVAR:VOLON 2" +:+ LF +:+ "SEED 3" +:+ LF)
  = Raise (TypeError "object does not support item assignment").
Proof.
  intros LF.
  apply (read_parameters_txt_type_error PyNum.int PyNum.float _ "GLOBVAR 1"
           "GLOBVAR:VOLON 2" ["SEED 3"] [("GLOBVAR", VInt 1)]
           "GLOBVAR" "VOLON" "2" (VInt 1)); vm_compute; reflexivity.
Defined.

(* ===================================================================== *)
(** * Integers written and read again *)
(* ===================================================================== *)

(** The digits of a decimal number, read after [acc], continue it. *)
Lemma digits_from_uint (d : Decimal.uint) :
  forall (acc : Z) (prev : bool),
    d <> Decimal.Nil \/ prev = true ->
    PyNum.digits_from acc prev (NilEmpty.string_of_uint d)
    = Some (acc * 10 ^ Z.of_N (DecimalPos.Unsigned.usize d)
            + Z.of_N (DecimalPos.Unsigned.of_lu (Decimal.rev d)))%Z.
Proof.
  induction d as [|d IH|d IH|d IH|d IH|d IH|d IH|d IH|d IH|d IH|d IH];
    intros acc prev Hd.
  1:{ destruct Hd as [Hd| ->]; [contradiction|]. cbn. f_equal. lia. }
    all: cbn [NilEmpty.string_of_uint PyNum.digits_from].
    all: match goal with
         | |- context [PyNum.dec_digit ?c] =>
             let v := eval vm_compute in (PyNum.dec_digit c) in
             change (PyNum.dec_digit c) with v
         end.
    all: cbv beta iota.
    all: unfold Decimal.rev; cbn [Decimal.revapp];
      rewrite DecimalPos.Unsigned.of_lu_revapp.
    all: rewrite (IH _ true (or_intror eq_refl)); f_equal.
    all: cbn [DecimalPos.Unsigned.usize DecimalPos.Unsigned.of_lu].
    all: rewrite N2Z.inj_succ, Z.pow_succ_r by lia.
    all: rewrite N2Z.inj_add, N2Z.inj_mul, N2Z.inj_pow.
    all: set (pw := (10 ^ Z.of_N (DecimalPos.Unsigned.usize d))%Z).
    all: set (lo := Z.of_N (DecimalPos.Unsigned.of_lu (Decimal.rev d))).
    all: cbn; lia.
Qed.

Lemma string_of_uint_digit (d : Decimal.uint) :
  d <> Decimal.Nil ->
  PyNum.split_sign (NilEmpty.string_of_uint d) = (false, NilEmpty.string_of_uint d).
Proof. destruct d; [contradiction|..]; reflexivity. Qed.

Lemma count_digits_length (s : string) :
  (PyNum.count_digits s <= String.length s)%nat.
Proof.
  induction s as [|c r IH]; [reflexivity|]. cbn [PyNum.count_digits String.length].
  destruct (PyNum.dec_digit c); lia.
Qed.

Lemma int_of_int (z : Z) :
  (String.length (PyStr.of_int (Z.abs z)) <= PyNum.max_str_digits)%nat ->
  PyNum.int (PyStr.of_int z) = Some z.
Proof.
  unfold PyStr.of_int, PyNum.int. intros Hlen.
  destruct z as [|p|p]; [reflexivity|..];
    change (Z.to_int (Z.abs _)) with (Decimal.Pos (Pos.to_uint p)) in Hlen;
    cbn [Z.to_int NilZero.string_of_int] in Hlen |- *;
    pose proof (DecimalPos.Unsigned.to_uint_nonnil p) as Hnil;
    assert (Hs : NilZero.string_of_uint (Pos.to_uint p)
                 = NilEmpty.string_of_uint (Pos.to_uint p))
      by (unfold NilZero.string_of_uint; now destruct (Pos.to_uint p));
    rewrite Hs in Hlen |- *;
    pose proof (count_digits_length (NilEmpty.string_of_uint (Pos.to_uint p))) as Hc;
    assert (Hle : (PyNum.count_digits (NilEmpty.string_of_uint (Pos.to_uint p))
                   <=? PyNum.max_str_digits)%nat = true)
      by (apply Nat.leb_le; lia).
  - rewrite (string_of_uint_digit _ Hnil).
    rewrite (digits_from_uint _ 0%Z false (or_introl Hnil)), Hle.
    rewrite <- DecimalPos.Unsigned.of_uint_alt, DecimalPos.Unsigned.of_to.
    reflexivity.
  - cbn [PyNum.split_sign]. change (Ascii.eqb "-" "-") with true. cbv iota.
    rewrite (digits_from_uint _ 0%Z false (or_introl Hnil)), Hle.
    rewrite <- DecimalPos.Unsigned.of_uint_alt, DecimalPos.Unsigned.of_to.
    reflexivity.
Qed.

(** X21. An integer written by [str] with no more digits than [int]
    reads, which are 4300, is read back as that integer by
    [check_if_number]. *)
Theorem check_if_number_int_round_trip (z : Z) :
  (String.length (PyStr.of_int (Z.abs z)) <= PyNum.max_str_digits)%nat ->
  check_if_number PyNum.int PyNum.float (PyStr.of_int z) = VInt z.
Proof. intros H. unfold check_if_number. now rewrite (int_of_int z H). Qed.

Lemma check_if_number_int_round_trip_witness :
  (String.length (PyStr.of_int (Z.abs (-20200101))) <= PyNum.max_str_digits)%nat
  /\ check_if_number PyNum.int PyNum.float "-20200101" = VInt (-20200101).
Proof.
  assert (H : (String.length (PyStr.of_int (Z.abs (-20200101)))
               <= PyNum.max_str_digits)%nat)
    by (apply Nat.leb_le; vm_compute; reflexivity).
  split; [exact H|].
  exact (check_if_number_int_round_trip (-20200101) H).
Defined.

(* ===================================================================== *)
(** * Line ends *)
(* ===================================================================== *)

(** A line feed only counts with the carriage return before it. *)
Lemma splitlines_from_flag (s : string) :
  String.prefix (String PyStr.LF EmptyString) s = false ->
  PyStr.splitlines_from true s = PyStr.splitlines_from false s.
Proof.
  destruct s as [|c r]; [reflexivity|]. cbn [String.prefix PyStr.splitlines_from].
  destruct (ascii_dec PyStr.LF c) as [<-|Hne]; [now destruct r|]. intros _.
  destruct (Ascii.eqb_spec c PyStr.LF) as [->|_]; [contradiction | reflexivity].
Qed.

(** The characters of a line go in front of what follows them. *)
Lemma splitlines_from_line (line s : string) (after_cr : bool) :
  string_forall (fun c => negb (PyStr.is_linebreak c)) line = true ->
  PyStr.nonempty line = true ->
  PyStr.splitlines_from after_cr (line +:+ s)
  = match PyStr.splitlines_from false s with
    | h :: t => (line +:+ h) :: t
    | [] => [line]
    end.
Proof.
  revert after_cr. induction line as [|c r IH]; intros after_cr Hline Hne;
    [discriminate|].
  cbn [string_forall] in Hline. apply andb_true_iff in Hline as [Hc Hr].
  apply negb_true_iff in Hc. rewrite append_cons. cbn [PyStr.splitlines_from].
  assert (Hlf : Ascii.eqb c PyStr.LF = false).
  { destruct (Ascii.eqb_spec c PyStr.LF) as [->|]; [discriminate Hc | reflexivity]. }
  rewrite Hlf, andb_false_r, Hc.
  destruct r as [|c' r'].
  - rewrite append_nil_l.
    destruct (PyStr.splitlines_from false s) as [|h t]; [reflexivity|].
    now rewrite append_cons, append_nil_l.
  - rewrite (IH false Hr eq_refl).
    destruct (PyStr.splitlines_from false s) as [|h t]; [reflexivity|].
    now rewrite (append_cons c (String c' r') h).
Qed.

(** A line end in front of a text that does not start with a line feed
    closes an empty line. *)
Lemma splitlines_from_eol (eol s : string) :
  is_eol eol = true ->
  String.prefix (String PyStr.LF EmptyString) s = false ->
  PyStr.splitlines_from false (eol +:+ s)
  = EmptyString :: PyStr.splitlines_from false s.
Proof.
  unfold is_eol. rewrite !orb_true_iff. intros [[H|H]|H] Hs;
    apply String.eqb_eq in H; subst eol;
    rewrite ?append_cons, append_nil_l; cbn [PyStr.splitlines_from];
    change (PyStr.is_linebreak PyStr.LF) with true;
    change (PyStr.is_linebreak PyStr.CR) with true;
    change (Ascii.eqb PyStr.LF PyStr.CR) with false;
    change (Ascii.eqb PyStr.CR PyStr.CR) with true;
    change (Ascii.eqb PyStr.LF PyStr.LF) with true;
    cbn [andb]; cbv iota; try reflexivity.
  now rewrite splitlines_from_flag.
Qed.

Lemma with_eols_start (lines : list (string * string)) :
  lines_ok lines = true ->
  String.prefix (String PyStr.LF EmptyString) (with_eols lines) = false.
Proof.
  destruct lines as [|[line eol] rest]; [reflexivity|]. cbn [lines_ok with_eols].
  rewrite !andb_true_iff. intros [[[Hne Hline] _] _].
  destruct line as [|c r]; [discriminate|]. rewrite append_cons.
  cbn [string_forall] in Hline. apply andb_true_iff in Hline as [Hc _].
  cbn [String.prefix]. destruct (ascii_dec PyStr.LF c) as [<-|]; [discriminate Hc|].
  reflexivity.
Qed.

(** The lines of a text are its lines, whatever their ends. *)
Lemma splitlines_with_eols (lines : list (string * string)) :
  lines_ok lines = true ->
  PyStr.splitlines (with_eols lines) = List.map fst lines.
Proof.
  unfold PyStr.splitlines. induction lines as [|[line eol] rest IH]; [reflexivity|].
  intros Hok. pose proof Hok as Hok'. cbn [lines_ok] in Hok.
  rewrite !andb_true_iff in Hok. destruct Hok as [[[Hne Hline] Heol] Hrest].
  cbn [with_eols List.map fst].
  rewrite (splitlines_from_line line _ false Hline Hne).
  apply orb_true_iff in Heol as [Heol|Heol].
  - rewrite (splitlines_from_eol eol _ Heol (with_eols_start rest Hrest)).
    rewrite append_nil_r. now rewrite (IH Hrest).
  - apply andb_true_iff in Heol as [He Hr]. destruct eol; [|discriminate].
    destruct rest; [|discriminate]. reflexivity.
Qed.

Section ParametersLineEnds.

Variable py_int : string -> option Z.
Variable py_float : string -> option pyfloat.

(** X22. The line ends do not matter: two files with the same lines, each
    closed by a line feed, by a carriage return and a line feed or by a
    carriage return, the last one possibly by nothing, are read alike. *)
Theorem read_parameters_txt_line_ends (file1 file2 : list (string * string)) :
  lines_ok file1 = true -> lines_ok file2 = true ->
  List.map fst file1 = List.map fst file2 ->
  PyStr.splitlines (with_eols file1) = List.map fst file1
  /\ read_parameters_txt py_int py_float (with_eols file1)
     = read_parameters_txt py_int py_float (with_eols file2).
Proof.
  intros H1 H2 Hsame. split; [now apply splitlines_with_eols|].
  unfold read_parameters_txt.
  now rewrite (splitlines_with_eols _ H1), (splitlines_with_eols _ H2), Hsame.
Qed.

End ParametersLineEnds.

Lemma read_parameters_txt_line_ends_witness :
  let LF := String PyStr.LF EmptyString in
  let CRLF := String PyStr.CR (String PyStr.LF EmptyString) in
  let unix := [("SENSNAME rms_seed", LF); ("RMS_SEED 1000", LF)] in
  let dos := [("SENSNAME rms_seed", CRLF); ("RMS_SEED 1000", "")] in
  lines_ok unix = true /\ lines_ok dos = true
  /\ read_parameters_txt PyNum.int PyNum.float (with_eols dos)
     = Ok [("SENSNAME", VStr "rms_seed"); ("RMS_SEED", VInt 1000)].
Proof.
  intros LF CRLF unix dos. split; [reflexivity|]. split; [reflexivity|].
  rewrite <- (proj2 (read_parameters_txt_line_ends PyNum.int PyNum.float unix dos
                       eq_refl eq_refl eq_refl)).
  vm_compute. reflexivity.
Defined.
